(** * grafana-sync: a shallow embedding of the two sync drivers

    The repository holds two versions of the command line tool:
    - [main.go] at the top level, which talks to Grafana with hand-written
      HTTP requests throughout (module [Http] below);
    - a second [main.go] (package [grafana]), which pulls and pushes
      dashboards through the [grafana-tools/sdk] client and keeps the
      hand-written requests for the other entity kinds (module [Sdk]).

    Both are straight-line sequences of calls into the operating system,
    the network and the Go standard library.  The embedding threads a trace
    of observable events through every function; whatever the outside world
    answers (HTTP replies, file contents, the JSON codec, the SDK client) is
    read from an environment record, so every theorem holds for every
    behaviour of the outside world. *)

From Stdlib Require Import ZArith Ascii PrimFloat SpecFloat FloatOps.
From stdpp Require Import gmap strings list pretty sorting.

Set Warnings "-register-all".
Open Scope Z_scope.
Open Scope string_scope.
Open Scope list_scope.

(** ** Go values *)

Module Go.

(** A value held in an [interface{}].  [json.Unmarshal] stores JSON numbers
    as [float64], objects as [map[string]interface{}] and arrays as
    [[]interface{}]; [VInt] is the dynamic type of the untyped constant [0]
    once it is converted to [interface{}].  A map is [None] when it is the
    nil map. *)
Inductive value : Type :=
  | VNil
  | VBool (b : bool)
  | VFloat64 (f : float)
  | VInt (n : Z)
  | VString (s : string)
  | VSlice (l : list value)
  | VMap (m : option (gmap string value)).

(** [map[string]interface{}] as a typed variable. *)
Abbreviation gomap := (option (gmap string value)).

(** [[]byte]; the nil slice is the empty string. *)
Abbreviation bytes := string.

(** The text of an [error]. *)
Abbreviation error := string.

Inductive result (A : Type) : Type :=
  | Ok (a : A)
  | Err (e : error).
Arguments Ok {A} a.
Arguments Err {A} e.

(** [m[k]]: reading a missing key, or reading from the nil map, gives the
    nil interface. *)
Definition index (m : gomap) (k : string) : value :=
  match m with
  | Some g => default VNil (g !! k)
  | None => VNil
  end.

(** [v == s] for an interface [v] and a string [s]: equal dynamic type and
    equal contents. *)
Definition eq_string (v : value) (s : string) : bool :=
  match v with
  | VString t => bool_decide (t = s)
  | _ => false
  end.

(** [v == nil]. *)
Definition eq_nil (v : value) : bool :=
  match v with
  | VNil => true
  | _ => false
  end.

(** [v == n] for an interface [v] and an untyped integer constant [n]: the
    constant becomes an [int], so only an [int] can be equal to it. *)
Definition eq_int (v : value) (n : Z) : bool :=
  match v with
  | VInt m => bool_decide (m = n)
  | _ => false
  end.

(** [v.(string)]: [None] is the failed type assertion. *)
Definition assert_string (v : value) : option string :=
  match v with
  | VString s => Some s
  | _ => None
  end.

(** What [json.Unmarshal] can store in an [interface{}]: never an [int]. *)
Definition decoded (v : value) : bool :=
  match v with
  | VInt _ => false
  | _ => true
  end.

(** [x, _ := f()]: the error is dropped and [x] is the zero value. *)
Definition ignore_err (r : result bytes) : bytes :=
  match r with
  | Ok b => b
  | Err _ => EmptyString
  end.

Definition nl : string := String (Ascii.ascii_of_nat 10) EmptyString.

Definition is_sep_or_dot (c : Ascii.ascii) : bool :=
  bool_decide (c = "/"%char) || bool_decide (c = "."%char).

Fixpoint has_sep_or_dot (s : string) : bool :=
  match s with
  | EmptyString => false
  | String c rest => is_sep_or_dot c || has_sep_or_dot rest
  end.

(** [filepath.Ext]: the suffix starting at the last dot of the last path
    element, empty when that element has no dot. *)
Fixpoint filepath_Ext (path : string) : string :=
  match path with
  | EmptyString => EmptyString
  | String c rest =>
      if has_sep_or_dot rest then filepath_Ext rest
      else if bool_decide (c = "."%char) then path
      else EmptyString
  end.

End Go.
Export Go.

(** ** Events, outcomes and the monad of the two programs *)

(** The types of [grafana-tools/sdk] that the SDK version touches, with the
    fields it reads or writes; [Board_rest] is the rest of the board. *)
Record Folder := { Folder_ID : Z; Folder_Title : string }.
Record FoundBoard := { FoundBoard_UID : string; FoundBoard_Type : string }.
Record Board := {
  Board_ID : Z;
  Board_UID : string;
  Board_Title : string;
  Board_rest : value
}.
Record BoardProperties := { Slug : string }.
Record SetDashboardParams := {
  FolderID : Z;
  Overwrite : bool;
  PreserveId : bool
}.
Inductive SearchParam : Type :=
  | SearchType (t : string)
  | SearchFolderID (id : Z).

Inductive event : Type :=
  | Stdout (s : string)
  | Stderr (s : string)
  | HttpDo (method url : string) (headers : list (string * string)) (body : bytes)
  | MkdirAll (path : string)
  | WriteFile (path : string) (data : bytes)
  | GetAllFolders
  | Search (params : list SearchParam)
  | GetDashboardByUID (uid : string)
  | SetDashboard (board : Board) (params : SetDashboardParams).

Abbreviation trace := (list event).

(** The outside world.  An answer may depend on everything that happened
    before (the trace); the codecs and formatters are functions of their
    argument alone. *)
Record env := {
  http_NewRequest : string -> string -> option error;
  client_Do : trace -> string -> string -> list (string * string) -> bytes ->
              result (Z * bytes);
  json_Unmarshal_maps : bytes -> result (list gomap);
  json_Unmarshal_map : bytes -> result gomap;
  json_Marshal : value -> result bytes;
  json_Unmarshal_Board : bytes -> result Board;
  json_MarshalIndent_Board : Board -> result bytes;
  os_ReadFile : trace -> string -> result bytes;
  os_ReadDir : trace -> string -> result (list string);
  os_WriteFile : trace -> string -> bytes -> option error;
  os_MkdirAll : trace -> string -> option error;
  filepath_Join : list string -> string;
  fmt_v : value -> string;
  fmt_s : value -> string;
  fmt_d : Z -> string;
  sdk_NewClient : string -> string -> bool;
  sdk_GetAllFolders : trace -> result (list Folder);
  sdk_Search : trace -> list SearchParam -> result (list FoundBoard);
  sdk_GetDashboardByUID : trace -> string -> result (Board * BoardProperties);
  sdk_SetDashboard : trace -> Board -> SetDashboardParams -> option error
}.

(** The command line flags, fixed once [flag.Parse] has run. *)
Record config := {
  apiKey : string;
  baseURL : string;
  directory : string;
  action : string;
  folder : string
}.

Inductive outcome (A : Type) : Type :=
  | Done (a : A)
  | Exit (code : Z)
  | Panic.
Arguments Done {A} a.
Arguments Exit {A} code.
Arguments Panic {A}.

Definition M (A : Type) : Type := trace -> outcome A * trace.

Definition ret {A} (a : A) : M A := fun w => (Done a, w).

Definition bind {A B} (m : M A) (k : A -> M B) : M B :=
  fun w =>
    match m w with
    | (Done a, w1) => k a w1
    | (Exit c, w1) => (Exit c, w1)
    | (Panic, w1) => (Panic, w1)
    end.

Declare Scope go_scope.
Delimit Scope go_scope with go.
Notation "'let*' x ':=' m 'in' k" := (bind m (fun x => k))
  (at level 10, x name, m at level 100, k at level 200) : go_scope.
Notation "m ';;' k" := (bind m (fun _ => k))
  (at level 100, k at level 200, right associativity) : go_scope.
Open Scope go_scope.

Definition emit (e : event) : M unit := fun w => (Done tt, w ++ [e]).

(** A call the trace shows: the event is recorded, and the oracle answers
    from what happened before it. *)
Definition ask {A} (e : event) (f : trace -> A) : M A :=
  fun w => (Done (f w), w ++ [e]).

(** A call the trace does not show (reading a file or a directory). *)
Definition peek {A} (f : trace -> A) : M A := fun w => (Done (f w), w).

Definition os_Exit {A} (code : Z) : M A := fun w => (Exit code, w).
Definition panic {A} : M A := fun w => (Panic, w).

(** [fmt.Print*] writes to the standard output; the [log] package writes to
    the standard error (the time stamp and the final newline of a log line
    are left out), and [log.Fatalf] then exits with code 1. *)
Definition Print (s : string) : M unit := emit (Stdout s).
Definition Println (s : string) : M unit := emit (Stdout (s +:+ nl)).
Definition log_Printf (s : string) : M unit := emit (Stderr s).
Definition log_Fatalf {A} (s : string) : M A := emit (Stderr s) ;; os_Exit 1.

(** [flag.Parse()], the first statement of both [main] functions, on the
    default flag set ([flag.ExitOnError]) with the five string flags that
    [init] registers.  The command line decides which of three things it
    does: it returns with the five variables set; or, for [-h] and [-help],
    it writes the usage to the standard error and ends the process with exit
    code 0; or it writes the error and the usage there and ends the process
    with exit code 2. *)
Inductive parsed : Type :=
  | Flags (cfg : config)
  | Help (usage : list string)
  | BadFlags (message : list string).

Fixpoint write_all (lines : list string) : M unit :=
  match lines with
  | [] => ret tt
  | s :: rest => emit (Stderr s) ;; write_all rest
  end.

Definition flag_Parse (p : parsed) : M config :=
  match p with
  | Flags cfg => ret cfg
  | Help usage => write_all usage ;; os_Exit 0
  | BadFlags message => write_all message ;; os_Exit 2
  end.

(** A type assertion [v.(string)] panics when it fails. *)
Definition must_string (v : value) : M string :=
  match assert_string v with
  | Some s => ret s
  | None => panic
  end.

(** The exit status of the process for an outcome of [main]. *)
Definition exit_code (o : outcome unit) : Z :=
  match o with
  | Done _ => 0
  | Exit c => c
  | Panic => 2
  end.

Definition requests (t : trace) : list (string * string * bytes) :=
  omap (fun e => match e with
                 | HttpDo m u _ b => Some (m, u, b)
                 | _ => None
                 end) t.

Definition writes (t : trace) : list (string * bytes) :=
  omap (fun e => match e with
                 | WriteFile p d => Some (p, d)
                 | _ => None
                 end) t.

(** ** The hand-written HTTP version ([main.go]) *)

Module Http.
Section Driver.

Context (cfg : config) (E : env).

(** [fmt.Println(a, b)] *)
Definition Println2 (a b : string) : M unit := Println (a +:+ " " +:+ b).

(** The header of every request, and the one more of a POST. *)
Definition headers (method : string) : list (string * string) :=
  ("Authorization", "Bearer " +:+ apiKey cfg) ::
  (if bool_decide (method = "POST")
   then [("Content-Type", "application/json")] else []).

Definition sendRequest (method url : string) (body : bytes) : M bytes :=
  match http_NewRequest E method url with
  | Some err => Println2 "Error creating request:" err ;; os_Exit 1
  | None =>
      let* resp := ask (HttpDo method url (headers method) body)
                       (fun w => client_Do E w method url (headers method) body) in
      match resp with
      | Err err => Println2 "Error making request:" err ;; os_Exit 1
      | Ok (StatusCode, data) =>
          if bool_decide (400 <= StatusCode) then
            Print ("Error: " +:+ url +:+ " returned " +:+ fmt_d E StatusCode +:+ nl) ;;
            os_Exit 1
          else ret data
      end
  end.

Definition downloadDashboard (uid : string) : M bytes :=
  let url := baseURL cfg +:+ "/api/dashboards/uid/" +:+ uid in
  sendRequest "GET" url EmptyString.

Definition saveToFile (filePath : string) (data : bytes) : M (option error) :=
  ask (WriteFile filePath data) (fun w => os_WriteFile E w filePath data).

(** The [for] loop of [getFolderID]: the first folder whose title is the
    name decides the result. *)
Fixpoint getFolderID_scan (folderName : string) (folders : list gomap)
  : option string :=
  match folders with
  | [] => None
  | folder :: rest =>
      if eq_string (index folder "title") folderName
      then Some (fmt_v E (index folder "id"))
      else getFolderID_scan folderName rest
  end.

Definition getFolderID (folderName : string) : M string :=
  Print ("Fetching folder ID for: " +:+ folderName +:+ nl) ;;
  let url := baseURL cfg +:+ "/api/folders" in
  let* data := sendRequest "GET" url EmptyString in
  match json_Unmarshal_maps E data with
  | Err err => Println2 "Error unmarshalling folders:" err ;; os_Exit 1
  | Ok folders =>
      match getFolderID_scan folderName folders with
      | Some id => ret id
      | None =>
          Print ("Error: folder '" +:+ folderName +:+ "' not found" +:+ nl) ;;
          os_Exit 1
      end
  end.

(** *** Pull *)

Fixpoint pullDashboards_loop (dashboardDir : string) (dashboards : list gomap)
  : M unit :=
  match dashboards with
  | [] => ret tt
  | db :: rest =>
      let* uid := must_string (index db "uid") in
      let* title := must_string (index db "title") in
      let* dashboardData := downloadDashboard uid in
      let* err := saveToFile (filepath_Join E [dashboardDir; title +:+ ".json"])
                             dashboardData in
      match err with
      | Some err =>
          Print ("Error saving dashboard " +:+ title +:+ ": " +:+ err +:+ nl) ;;
          pullDashboards_loop dashboardDir rest
      | None =>
          Print ("Saved dashboard: " +:+ title +:+ nl) ;;
          pullDashboards_loop dashboardDir rest
      end
  end.

Definition pullDashboards : M unit :=
  Println "Pulling dashboards..." ;;
  let url := baseURL cfg +:+ "/api/search?type=dash-db" in
  let* url :=
    if bool_decide (folder cfg <> EmptyString) then
      let* id := getFolderID (folder cfg) in
      ret (url +:+ "&folderIds=" +:+ id)
    else ret url in
  let* data := sendRequest "GET" url EmptyString in
  match json_Unmarshal_maps E data with
  | Err err => Println2 "Error unmarshalling dashboards:" err
  | Ok dashboards =>
      let dashboardDir := filepath_Join E [directory cfg; "dashboards"] in
      emit (MkdirAll dashboardDir) ;;
      pullDashboards_loop dashboardDir dashboards
  end.

Definition pullDatasources : M unit :=
  Println "Pulling datasources..." ;;
  let url := baseURL cfg +:+ "/api/datasources" in
  let* data := sendRequest "GET" url EmptyString in
  let datasourceDir := filepath_Join E [directory cfg; "datasources"] in
  emit (MkdirAll datasourceDir) ;;
  let* err := saveToFile (filepath_Join E [datasourceDir; "datasources.json"]) data in
  match err with
  | Some err => Println2 "Error saving datasources:" err
  | None => Println "Saved datasources"
  end.

Definition pullFolders : M unit :=
  Println "Pulling folders..." ;;
  let url := baseURL cfg +:+ "/api/folders" in
  let* data := sendRequest "GET" url EmptyString in
  let folderDir := filepath_Join E [directory cfg; "folders"] in
  emit (MkdirAll folderDir) ;;
  let* err := saveToFile (filepath_Join E [folderDir; "folders.json"]) data in
  match err with
  | Some err => Println2 "Error saving folders:" err
  | None => Println "Saved folders"
  end.

Definition pullNotificationChannels : M unit :=
  Println "Pulling notification channels..." ;;
  let url := baseURL cfg +:+ "/api/alert-notifications" in
  let* data := sendRequest "GET" url EmptyString in
  let notificationDir := filepath_Join E [directory cfg; "notifications"] in
  emit (MkdirAll notificationDir) ;;
  let* err := saveToFile (filepath_Join E [notificationDir; "notifications.json"])
                         data in
  match err with
  | Some err => Println2 "Error saving notification channels:" err
  | None => Println "Saved notification channels"
  end.

(** *** Push *)

(** Lines 208-213: the folder goes into the dashboard object itself.
    Storing into the nil map panics. *)
Definition attachFolder (folderID : string) (dashboard : gomap) : M gomap :=
  if bool_decide (folderID <> EmptyString) then
    if eq_nil (index dashboard "folderId") || eq_int (index dashboard "folderId") 0
    then
      match dashboard with
      | Some g => ret (Some (<["folderId" := VString folderID]> g))
      | None => panic
      end
    else ret dashboard
  else ret dashboard.

(** Lines 216-219. *)
Definition payload (dashboard : gomap) : value :=
  VMap (Some (<["dashboard" := VMap dashboard]>
             (<["overwrite" := VBool true]> ∅))).

Fixpoint pushDashboards_loop (dashboardDir folderID : string)
  (files : list string) : M unit :=
  match files with
  | [] => ret tt
  | file :: rest =>
      if bool_decide (filepath_Ext file = ".json") then
        let* r := peek (fun w => os_ReadFile E w (filepath_Join E [dashboardDir; file])) in
        match r with
        | Err err =>
            Print ("Error reading dashboard file " +:+ file +:+ ": " +:+ err +:+ nl) ;;
            pushDashboards_loop dashboardDir folderID rest
        | Ok data =>
            match json_Unmarshal_map E data with
            | Err err =>
                Print ("Error unmarshalling dashboard " +:+ file +:+ ": "
                       +:+ err +:+ nl) ;;
                pushDashboards_loop dashboardDir folderID rest
            | Ok dashboard =>
                let* dashboard := attachFolder folderID dashboard in
                let payloadData := ignore_err (json_Marshal E (payload dashboard)) in
                let url := baseURL cfg +:+ "/api/dashboards/db" in
                sendRequest "POST" url payloadData ;;
                Print ("Uploaded dashboard: " +:+ file +:+ nl) ;;
                pushDashboards_loop dashboardDir folderID rest
            end
        end
      else pushDashboards_loop dashboardDir folderID rest
  end.

(** The error of [ioutil.ReadDir] is dropped: [files] is then nil. *)
Definition pushDashboards : M unit :=
  Println "Pushing dashboards..." ;;
  let dashboardDir := filepath_Join E [directory cfg; "dashboards"] in
  let* r := peek (fun w => os_ReadDir E w dashboardDir) in
  let files := match r with Ok files => files | Err _ => [] end in
  let* folderID :=
    if bool_decide (folder cfg <> EmptyString) then getFolderID (folder cfg)
    else ret EmptyString in
  pushDashboards_loop dashboardDir folderID files.

Fixpoint pushDatasources_loop (datasources : list gomap) : M unit :=
  match datasources with
  | [] => ret tt
  | ds :: rest =>
      let dsJSON := ignore_err (json_Marshal E (VMap ds)) in
      let url := baseURL cfg +:+ "/api/datasources" in
      sendRequest "POST" url dsJSON ;;
      Print ("Uploaded datasource: " +:+ fmt_s E (index ds "name") +:+ nl) ;;
      pushDatasources_loop rest
  end.

Definition pushDatasources : M unit :=
  Println "Pushing datasources..." ;;
  let datasourceFile :=
    filepath_Join E [directory cfg; "datasources"; "datasources.json"] in
  let* r := peek (fun w => os_ReadFile E w datasourceFile) in
  match r with
  | Err err => Println2 "Error reading datasources file:" err
  | Ok data =>
      match json_Unmarshal_maps E data with
      | Err err => Println2 "Error unmarshalling datasources:" err
      | Ok datasources => pushDatasources_loop datasources
      end
  end.

Fixpoint pushFolders_loop (folders : list gomap) : M unit :=
  match folders with
  | [] => ret tt
  | folder :: rest =>
      let folderJSON := ignore_err (json_Marshal E (VMap folder)) in
      let url := baseURL cfg +:+ "/api/folders" in
      sendRequest "POST" url folderJSON ;;
      Print ("Uploaded folder: " +:+ fmt_s E (index folder "title") +:+ nl) ;;
      pushFolders_loop rest
  end.

Definition pushFolders : M unit :=
  Println "Pushing folders..." ;;
  let folderFile := filepath_Join E [directory cfg; "folders"; "folders.json"] in
  let* r := peek (fun w => os_ReadFile E w folderFile) in
  match r with
  | Err err => Println2 "Error reading folders file:" err
  | Ok data =>
      match json_Unmarshal_maps E data with
      | Err err => Println2 "Error unmarshalling folders:" err
      | Ok folders => pushFolders_loop folders
      end
  end.

Fixpoint pushNotificationChannels_loop (notifications : list gomap) : M unit :=
  match notifications with
  | [] => ret tt
  | nc :: rest =>
      let ncJSON := ignore_err (json_Marshal E (VMap nc)) in
      let url := baseURL cfg +:+ "/api/alert-notifications" in
      sendRequest "POST" url ncJSON ;;
      Print ("Uploaded notification channel: " +:+ fmt_s E (index nc "name") +:+ nl) ;;
      pushNotificationChannels_loop rest
  end.

Definition pushNotificationChannels : M unit :=
  Println "Pushing notification channels..." ;;
  let notificationFile :=
    filepath_Join E [directory cfg; "notifications"; "notifications.json"] in
  let* r := peek (fun w => os_ReadFile E w notificationFile) in
  match r with
  | Err err => Println2 "Error reading notifications file:" err
  | Ok data =>
      match json_Unmarshal_maps E data with
      | Err err => Println2 "Error unmarshalling notifications:" err
      | Ok notifications => pushNotificationChannels_loop notifications
      end
  end.

Definition pullData : M unit :=
  pullDashboards ;; pullDatasources ;; pullFolders ;; pullNotificationChannels.

Definition pushData : M unit :=
  pushDashboards ;; pushDatasources ;; pushFolders ;; pushNotificationChannels.

Definition usage : string :=
  "Error: action must be one of 'pull', 'push', 'pull-dashboards', 'pull-datasources', 'pull-folders', 'pull-notifications', 'push-dashboards', 'push-datasources', 'push-folders', 'push-notifications'".

(** Lines 33-62: [main] from its second statement on, with the flags as
    [flag.Parse] left them. *)
Definition main : M unit :=
  if bool_decide (apiKey cfg = EmptyString) || bool_decide (baseURL cfg = EmptyString)
  then Println "Error: apikey and url are required" ;; os_Exit 1
  else
    let a := action cfg in
    if bool_decide (a = "pull-dashboards") then pullDashboards
    else if bool_decide (a = "pull-datasources") then pullDatasources
    else if bool_decide (a = "pull-folders") then pullFolders
    else if bool_decide (a = "pull-notifications") then pullNotificationChannels
    else if bool_decide (a = "push-dashboards") then pushDashboards
    else if bool_decide (a = "push-datasources") then pushDatasources
    else if bool_decide (a = "push-folders") then pushFolders
    else if bool_decide (a = "push-notifications") then pushNotificationChannels
    else if bool_decide (a = "pull") then pullData
    else if bool_decide (a = "push") then pushData
    else Println usage ;; os_Exit 1.

End Driver.

(** Lines 30-63: the whole of [main], started on a command line. *)
Definition process (p : parsed) (E : env) : M unit :=
  let* cfg := flag_Parse p in main cfg E.

End Http.

(** ** The SDK version (the second [main.go]) *)

Module Sdk.
Section Driver.

Context (cfg : config) (E : env).

(** These functions have the same text in both files. *)
Definition pullDatasources : M unit := Http.pullDatasources cfg E.
Definition pullFolders : M unit := Http.pullFolders cfg E.
Definition pullNotificationChannels : M unit := Http.pullNotificationChannels cfg E.
Definition pushDatasources : M unit := Http.pushDatasources cfg E.
Definition pushFolders : M unit := Http.pushFolders cfg E.
Definition pushNotificationChannels : M unit := Http.pushNotificationChannels cfg E.

Fixpoint getFolderID_scan (folderName : string) (folders : list Folder)
  : option Z :=
  match folders with
  | [] => None
  | f :: rest =>
      if bool_decide (Folder_Title f = folderName) then Some (Folder_ID f)
      else getFolderID_scan folderName rest
  end.

Definition getFolderID (folderName : string) : M Z :=
  let* r := ask GetAllFolders (fun w => sdk_GetAllFolders E w) in
  match r with
  | Err err => log_Fatalf ("Error fetching folders: " +:+ err)
  | Ok folders =>
      match getFolderID_scan folderName folders with
      | Some id => ret id
      | None => log_Fatalf ("Folder not found: " +:+ folderName)
      end
  end.

(** [board.ID = 0] *)
Definition clear_ID (board : Board) : Board :=
  {| Board_ID := 0;
     Board_UID := Board_UID board;
     Board_Title := Board_Title board;
     Board_rest := Board_rest board |}.

Fixpoint pullDashboards_loop (dashboardDir : string) (dashboards : list FoundBoard)
  : M unit :=
  match dashboards with
  | [] => ret tt
  | db :: rest =>
      if bool_decide (FoundBoard_Type db <> "dash-db") then
        pullDashboards_loop dashboardDir rest
      else
        let uid := FoundBoard_UID db in
        let* r := ask (GetDashboardByUID uid)
                      (fun w => sdk_GetDashboardByUID E w uid) in
        match r with
        | Err err =>
            log_Printf ("Error fetching dashboard UID " +:+ uid +:+ ": " +:+ err) ;;
            pullDashboards_loop dashboardDir rest
        | Ok (board, meta) =>
            if bool_decide (Board_Title board = EmptyString) then
              log_Printf ("Error: dashboard UID " +:+ uid +:+ " has no title") ;;
              pullDashboards_loop dashboardDir rest
            else
              let board := clear_ID board in
              Println (fmt_d E (Board_ID board)) ;;
              let filePath := filepath_Join E [dashboardDir; Slug meta +:+ ".json"] in
              match json_MarshalIndent_Board E board with
              | Err err =>
                  log_Printf ("Error marshaling dashboard UID " +:+ uid +:+ ": "
                              +:+ err) ;;
                  pullDashboards_loop dashboardDir rest
              | Ok data =>
                  let* werr := ask (WriteFile filePath data)
                                   (fun w => os_WriteFile E w filePath data) in
                  match werr with
                  | Some err =>
                      log_Printf ("Error saving dashboard UID " +:+ uid +:+ ": "
                                  +:+ err) ;;
                      pullDashboards_loop dashboardDir rest
                  | None =>
                      Print ("Saved dashboard: " +:+ filePath +:+ nl) ;;
                      pullDashboards_loop dashboardDir rest
                  end
              end
        end
  end.

Definition pullDashboards : M unit :=
  Println "Pulling dashboards..." ;;
  let searchParams := [SearchType "dash-db"] in
  let* searchParams :=
    if bool_decide (folder cfg <> EmptyString) then
      let* folderID := getFolderID (folder cfg) in
      ret (searchParams ++ [SearchFolderID folderID])
    else ret searchParams in
  let* r := ask (Search searchParams) (fun w => sdk_Search E w searchParams) in
  match r with
  | Err err => log_Fatalf ("Error searching dashboards: " +:+ err)
  | Ok dashboards =>
      let dashboardDir := filepath_Join E [directory cfg; "dashboards"] in
      let* merr := ask (MkdirAll dashboardDir)
                       (fun w => os_MkdirAll E w dashboardDir) in
      match merr with
      | Some err => log_Fatalf ("Error creating directory: " +:+ err)
      | None => pullDashboards_loop dashboardDir dashboards
      end
  end.

Fixpoint pushDashboards_loop (dashboardDir : string) (folderID : Z)
  (files : list string) : M unit :=
  match files with
  | [] => ret tt
  | file :: rest =>
      if bool_decide (filepath_Ext file = ".json") then
        let filePath := filepath_Join E [dashboardDir; file] in
        let* r := peek (fun w => os_ReadFile E w filePath) in
        match r with
        | Err err =>
            log_Printf ("Error reading file " +:+ file +:+ ": " +:+ err) ;;
            pushDashboards_loop dashboardDir folderID rest
        | Ok data =>
            match json_Unmarshal_Board E data with
            | Err err =>
                log_Printf ("Error unmarshalling file " +:+ file +:+ ": " +:+ err) ;;
                pushDashboards_loop dashboardDir folderID rest
            | Ok dashboard =>
                let params := {| FolderID := folderID;
                                 Overwrite := true;
                                 PreserveId := false |} in
                Print ("Pushing dashboard " +:+ Board_Title dashboard +:+ " - "
                       +:+ Board_UID dashboard +:+ " in " +:+ fmt_d E folderID
                       +:+ nl) ;;
                let* serr := ask (SetDashboard dashboard params)
                                 (fun w => sdk_SetDashboard E w dashboard params) in
                match serr with
                | Some err =>
                    log_Printf ("Error pushing dashboard " +:+ file +:+ ": "
                                +:+ err) ;;
                    pushDashboards_loop dashboardDir folderID rest
                | None =>
                    Print ("Uploaded dashboard: " +:+ file +:+ nl) ;;
                    pushDashboards_loop dashboardDir folderID rest
                end
            end
        end
      else pushDashboards_loop dashboardDir folderID rest
  end.

Definition pushDashboards : M unit :=
  Println "Pushing dashboards..." ;;
  let dashboardDir := filepath_Join E [directory cfg; "dashboards"] in
  let* r := peek (fun w => os_ReadDir E w dashboardDir) in
  match r with
  | Err err => log_Fatalf ("Error reading dashboard directory: " +:+ err)
  | Ok files =>
      let* folderID :=
        if bool_decide (folder cfg <> EmptyString) then
          let* folderID := getFolderID (folder cfg) in
          Print ("Using folder ID: " +:+ fmt_d E folderID +:+ " for dashboards"
                 +:+ nl) ;;
          ret folderID
        else ret 0 in
      pushDashboards_loop dashboardDir folderID files
  end.

Definition pullData : M unit :=
  pullDashboards ;; pullDatasources ;; pullFolders ;; pullNotificationChannels.

Definition pushData : M unit :=
  pushDashboards ;; pushDatasources ;; pushFolders ;; pushNotificationChannels.

(** Lines 38-72: [main] from its second statement on, with the flags as
    [flag.Parse] left them. *)
Definition main : M unit :=
  if bool_decide (apiKey cfg = EmptyString) || bool_decide (baseURL cfg = EmptyString)
  then Println "Error: apikey and url are required" ;; os_Exit 1
  else if negb (sdk_NewClient E (baseURL cfg) (apiKey cfg))
  then log_Fatalf "Error: failed to initialize Grafana client"
  else
    let a := action cfg in
    if bool_decide (a = "pull-dashboards") then pullDashboards
    else if bool_decide (a = "pull-datasources") then pullDatasources
    else if bool_decide (a = "pull-folders") then pullFolders
    else if bool_decide (a = "pull-notifications") then pullNotificationChannels
    else if bool_decide (a = "push-dashboards") then pushDashboards
    else if bool_decide (a = "push-datasources") then pushDatasources
    else if bool_decide (a = "push-folders") then pushFolders
    else if bool_decide (a = "push-notifications") then pushNotificationChannels
    else if bool_decide (a = "pull") then pullData
    else if bool_decide (a = "push") then pushData
    else Println Http.usage ;; os_Exit 1.

End Driver.

(** Lines 35-73: the whole of [main], started on a command line. *)
Definition process (p : parsed) (E : env) : M unit :=
  let* cfg := flag_Parse p in main cfg E.

End Sdk.

(** ** A scripted outside world

    An [env] built from finite tables, to run the two programs on concrete
    inputs.  The HTTP server answers by method and URL, files and
    directories are looked up by path, and [json.Unmarshal] is the table of
    the documents a script uses. *)

Module Script.

(** JSON text is written with ['] where the bytes have a double quote. *)
Definition json_quote (c : ascii) : ascii :=
  if bool_decide (c = "'"%char) then ascii_of_nat 34 else c.

Fixpoint json (s : string) : bytes :=
  match s with
  | EmptyString => EmptyString
  | String c rest => String (json_quote c) (json rest)
  end.

(** The integer a [float64] holds, when it holds one. *)
Definition integral (f : float) : option Z :=
  match Prim2SF f with
  | S754_zero _ => Some 0
  | S754_finite s m e =>
      let n :=
        if bool_decide (0 <= e) then Some (Z.pos m * 2 ^ e)
        else if bool_decide (Z.pos m mod 2 ^ (- e) = 0)
             then Some (Z.pos m / 2 ^ (- e))
             else None in
      (fun n => if s then - n else n) <$> n
  | _ => None
  end.

Definition commas (l : list string) : string :=
  match l with
  | [] => EmptyString
  | x :: l => foldl (fun acc y => acc +:+ "," +:+ y) x l
  end.

Definition by_key (a b : string * string) : Prop := String.leb a.1 b.1 = true.

#[local] Instance by_key_dec : RelDecision by_key.
Proof. intros a b. unfold by_key. apply _. Defined.

Definition member (kv : string * string) : string :=
  json "'" +:+ kv.1 +:+ json "':" +:+ kv.2.

(** [json.Marshal] on nil, booleans, numbers that are integers below
    [10^21], strings that need no escape, slices and maps of such values
    (keys in sorted order); an error stands for every other value. *)
Fixpoint Marshal (v : value) : result bytes :=
  match v with
  | VNil => Ok "null"
  | VBool b => Ok (if b then "true" else "false")
  | VFloat64 f =>
      match integral f with
      | Some n => if bool_decide (Z.abs n < 10 ^ 21) then Ok (pretty n)
                  else Err "not in the script"
      | None => Err "not in the script"
      end
  | VInt n => Ok (pretty n)
  | VString s => Ok (json "'" +:+ s +:+ json "'")
  | VSlice l =>
      match foldr (fun x acc =>
                     match Marshal x, acc with
                     | Ok b, Ok bs => Ok (b :: bs)
                     | Err e, _ => Err e
                     | _, Err e => Err e
                     end) (Ok []) l with
      | Ok bs => Ok ("[" +:+ commas bs +:+ "]")
      | Err e => Err e
      end
  | VMap None => Ok "null"
  | VMap (Some m) =>
      match map_fold (fun k x acc =>
                        match Marshal x, acc with
                        | Ok b, Ok bs => Ok ((k, b) :: bs)
                        | Err e, _ => Err e
                        | _, Err e => Err e
                        end) (Ok []) m with
      | Ok kvs => Ok ("{" +:+ commas (member <$> merge_sort by_key kvs) +:+ "}")
      | Err e => Err e
      end
  end.

(** [%v] and [%s] of a string, and [%v] of nil and of an integer below
    [10^6]; every other value prints as [?]. *)
Definition Sprint_v (v : value) : string :=
  match v with
  | VNil => "<nil>"
  | VString s => s
  | VFloat64 f =>
      match integral f with
      | Some n => if bool_decide (Z.abs n < 10 ^ 6) then pretty n else "?"
      | None => "?"
      end
  | _ => "?"
  end.

Definition Sprint_s (v : value) : string :=
  match v with
  | VString s => s
  | _ => "?"
  end.

(** [filepath.Join] on elements that are clean already: the elements that
    are not empty, with a separator between them. *)
Definition Join (elem : list string) : string :=
  match filter (fun e => e <> EmptyString) elem with
  | [] => EmptyString
  | x :: l => foldl (fun acc y => acc +:+ "/" +:+ y) x l
  end.

Definition assoc {A} (tbl : list (string * A)) (k : string) : option A :=
  (list_to_map tbl : gmap string A) !! k.

Definition find_or {A} (tbl : list (string * A)) (k : string) (e : error)
  : result A :=
  match assoc tbl k with
  | Some a => Ok a
  | None => Err e
  end.

Record script := {
  (** replies of the server, by method and URL *)
  replies : list (string * (Z * bytes));
  (** documents that decode to a list of objects, and to one object *)
  lists : list (bytes * list gomap);
  objects : list (bytes * gomap);
  (** the local files and directories *)
  files : list (string * bytes);
  dirs : list (string * list string);
  (** the SDK client: folders, search hits, boards by UID *)
  sdk_folders : list Folder;
  sdk_hits : list FoundBoard;
  sdk_boards : list (string * (Board * BoardProperties));
  (** the indented encoding of a board, by UID, and the boards that the
      local files decode to *)
  board_files : list (string * bytes);
  board_docs : list (bytes * Board)
}.

Definition world (s : script) : env := {|
  http_NewRequest := fun _ _ => None;
  client_Do := fun _ method url _ _ =>
    find_or (replies s) (method +:+ " " +:+ url) "connection refused";
  json_Unmarshal_maps := fun b => find_or (lists s) b "invalid character";
  json_Unmarshal_map := fun b => find_or (objects s) b "invalid character";
  json_Marshal := Marshal;
  json_Unmarshal_Board := fun b => find_or (board_docs s) b "invalid character";
  json_MarshalIndent_Board := fun board =>
    find_or (board_files s) (Board_UID board) "unsupported value";
  os_ReadFile := fun _ p => find_or (files s) p "no such file or directory";
  os_ReadDir := fun _ p => find_or (dirs s) p "no such file or directory";
  os_WriteFile := fun _ _ _ => None;
  os_MkdirAll := fun _ _ => None;
  filepath_Join := Join;
  fmt_v := Sprint_v;
  fmt_s := Sprint_s;
  fmt_d := pretty;
  sdk_NewClient := fun _ _ => true;
  sdk_GetAllFolders := fun _ => Ok (sdk_folders s);
  sdk_Search := fun _ _ => Ok (sdk_hits s);
  sdk_GetDashboardByUID := fun _ uid =>
    find_or (sdk_boards s) uid "dashboard not found";
  sdk_SetDashboard := fun _ _ _ => None
|}.

(** [E] with an SDK client whose every call fails. *)
Definition sdk_down (E : env) : env := {|
  http_NewRequest := http_NewRequest E;
  client_Do := client_Do E;
  json_Unmarshal_maps := json_Unmarshal_maps E;
  json_Unmarshal_map := json_Unmarshal_map E;
  json_Marshal := json_Marshal E;
  json_Unmarshal_Board := json_Unmarshal_Board E;
  json_MarshalIndent_Board := json_MarshalIndent_Board E;
  os_ReadFile := os_ReadFile E;
  os_ReadDir := os_ReadDir E;
  os_WriteFile := os_WriteFile E;
  os_MkdirAll := os_MkdirAll E;
  filepath_Join := filepath_Join E;
  fmt_v := fmt_v E;
  fmt_s := fmt_s E;
  fmt_d := fmt_d E;
  sdk_NewClient := sdk_NewClient E;
  sdk_GetAllFolders := fun _ => Err "connection refused";
  sdk_Search := fun _ _ => Err "connection refused";
  sdk_GetDashboardByUID := fun _ _ => Err "connection refused";
  sdk_SetDashboard := fun _ _ _ => Some "connection refused"
|}.

(** [E] with a disk that cannot be written. *)
Definition disk_read_only (E : env) : env := {|
  http_NewRequest := http_NewRequest E;
  client_Do := client_Do E;
  json_Unmarshal_maps := json_Unmarshal_maps E;
  json_Unmarshal_map := json_Unmarshal_map E;
  json_Marshal := json_Marshal E;
  json_Unmarshal_Board := json_Unmarshal_Board E;
  json_MarshalIndent_Board := json_MarshalIndent_Board E;
  os_ReadFile := os_ReadFile E;
  os_ReadDir := os_ReadDir E;
  os_WriteFile := fun _ _ _ => Some "read-only file system";
  os_MkdirAll := fun _ _ => Some "read-only file system";
  filepath_Join := filepath_Join E;
  fmt_v := fmt_v E;
  fmt_s := fmt_s E;
  fmt_d := fmt_d E;
  sdk_NewClient := sdk_NewClient E;
  sdk_GetAllFolders := sdk_GetAllFolders E;
  sdk_Search := sdk_Search E;
  sdk_GetDashboardByUID := sdk_GetDashboardByUID E;
  sdk_SetDashboard := sdk_SetDashboard E
|}.

End Script.

(** ** Concrete runs *)

Module Runs.
Import Script.

Definition obj (l : list (string * value)) : gomap := Some (list_to_map l).

Definition flags (action folder : string) : config := {|
  apiKey := "secret";
  baseURL := "http://grafana";
  directory := "grafana_data";
  action := action;
  folder := folder
|}.

Definition no_script : script := {|
  replies := []; lists := []; objects := []; files := []; dirs := [];
  sdk_folders := []; sdk_hits := []; sdk_boards := [];
  board_files := []; board_docs := []
|}.

Definition folders_json : bytes := json "[{'id':7,'title':'Engineering'}]".
Definition folders_list : list gomap :=
  [obj [("id", VFloat64 7); ("title", VString "Engineering")]].

Definition hits_json : bytes :=
  json "[{'id':5,'uid':'abc','title':'CPU Load','type':'dash-db'}]".
Definition hits_list : list gomap :=
  [obj [("id", VFloat64 5); ("uid", VString "abc");
        ("title", VString "CPU Load"); ("type", VString "dash-db")]].

Definition board_json : bytes :=
  json "{'meta':{'slug':'cpu-load'},'dashboard':{'id':5,'uid':'abc','title':'CPU Load'}}".
Definition board_obj : gomap :=
  obj [("meta", VMap (obj [("slug", VString "cpu-load")]));
       ("dashboard", VMap (obj [("id", VFloat64 5); ("uid", VString "abc");
                                ("title", VString "CPU Load")]))].

(** The board as the SDK version stores it (abridged to the fields of
    [Board]): indented, and without the ID, which is left out when it is 0. *)
Definition board_file : bytes :=
  json "{" +:+ nl +:+ json "  'uid': 'abc'," +:+ nl
  +:+ json "  'title': 'CPU Load'" +:+ nl +:+ "}".
Definition stored_board : Board :=
  {| Board_ID := 0; Board_UID := "abc"; Board_Title := "CPU Load";
     Board_rest := VNil |}.

(** The scenario of the specification: [-action=pull -folder=Engineering],
    one folder with ID 7 and one dashboard in it, whose ID on the server
    is 5. *)
Definition pull_one : script := {|
  replies :=
    [("GET http://grafana/api/folders", (200, folders_json));
     ("GET http://grafana/api/search?type=dash-db&folderIds=7", (200, hits_json));
     ("GET http://grafana/api/dashboards/uid/abc", (200, board_json))];
  lists := [(folders_json, folders_list); (hits_json, hits_list)];
  objects := [(board_json, board_obj)];
  files := []; dirs := [];
  sdk_folders := [{| Folder_ID := 7; Folder_Title := "Engineering" |}];
  sdk_hits := [{| FoundBoard_UID := "abc"; FoundBoard_Type := "dash-db" |}];
  sdk_boards :=
    [("abc", ({| Board_ID := 5; Board_UID := "abc"; Board_Title := "CPU Load";
                 Board_rest := VNil |},
              {| Slug := "cpu-load" |}))];
  board_files := [("abc", board_file)];
  board_docs := [(board_file, stored_board)]
|}.

Definition two_hits_json : bytes :=
  json "[{'uid':'abc','title':'CPU Load'},{'uid':'def'}]".
Definition good_hit : gomap :=
  obj [("uid", VString "abc"); ("title", VString "CPU Load")].
Definition untitled_hit : gomap := obj [("uid", VString "def")].

(** A search answer whose second hit has no title. *)
Definition pull_untitled : script := {|
  replies :=
    [("GET http://grafana/api/search?type=dash-db", (200, two_hits_json));
     ("GET http://grafana/api/dashboards/uid/abc", (200, board_json))];
  lists := [(two_hits_json, [good_hit; untitled_hit])];
  objects := []; files := []; dirs := [];
  sdk_folders := []; sdk_hits := []; sdk_boards := [];
  board_files := []; board_docs := []
|}.

Definition second_hit : gomap :=
  obj [("uid", VString "def"); ("title", VString "Memory")].
Definition abc_def_json : bytes :=
  json "[{'uid':'abc','title':'CPU Load'},{'uid':'def','title':'Memory'}]".
Definition memory_json : bytes :=
  json "{'meta':{'slug':'memory'},'dashboard':{'id':6,'uid':'def','title':'Memory'}}".

(** Two dashboards; fetching the first one fails (status 500 from the
    server, an error from the SDK client), fetching the second one works. *)
Definition pull_first_fails : script := {|
  replies :=
    [("GET http://grafana/api/search?type=dash-db", (200, abc_def_json));
     ("GET http://grafana/api/dashboards/uid/abc", (500, "Internal Server Error"));
     ("GET http://grafana/api/dashboards/uid/def", (200, memory_json))];
  lists := [(abc_def_json, [good_hit; second_hit])];
  objects := []; files := []; dirs := [];
  sdk_folders := [];
  sdk_hits := [{| FoundBoard_UID := "abc"; FoundBoard_Type := "dash-db" |};
               {| FoundBoard_UID := "def"; FoundBoard_Type := "dash-db" |}];
  sdk_boards :=
    [("def", ({| Board_ID := 6; Board_UID := "def"; Board_Title := "Memory";
                 Board_rest := VNil |},
              {| Slug := "memory" |}))];
  board_files :=
    [("def", json "{" +:+ nl +:+ json "  'uid': 'def'," +:+ nl
             +:+ json "  'title': 'Memory'" +:+ nl +:+ "}")];
  board_docs := []
|}.

Definition cpu_file : bytes := json "{'title':'CPU Load','uid':'abc'}".
Definition cpu_dashboard : gomap :=
  obj [("title", VString "CPU Load"); ("uid", VString "abc")].

Definition zero_file : bytes := json "{'folderId':0,'title':'Memory'}".
Definition zero_dashboard : gomap :=
  obj [("folderId", VFloat64 0); ("title", VString "Memory")].

(** [-action=push-dashboards -folder=Engineering] with two local files:
    one dashboard without a "folderId", one whose "folderId" is 0. *)
Definition push_two : script := {|
  replies :=
    [("GET http://grafana/api/folders", (200, folders_json));
     ("POST http://grafana/api/dashboards/db", (200, json "{'status':'success'}"))];
  lists := [(folders_json, folders_list)];
  objects := [(cpu_file, cpu_dashboard); (zero_file, zero_dashboard)];
  files := [("grafana_data/dashboards/cpu.json", cpu_file);
            ("grafana_data/dashboards/memory.json", zero_file)];
  dirs := [("grafana_data/dashboards", ["cpu.json"; "memory.json"; "notes.txt"])];
  sdk_folders := [{| Folder_ID := 7; Folder_Title := "Engineering" |}];
  sdk_hits := []; sdk_boards := []; board_files := [];
  board_docs :=
    [(cpu_file, {| Board_ID := 0; Board_UID := "abc"; Board_Title := "CPU Load";
                   Board_rest := VNil |});
     (zero_file, {| Board_ID := 0; Board_UID := EmptyString;
                    Board_Title := "Memory"; Board_rest := VNil |})]
|}.

Definition kept_file : bytes := json "{'folderId':3,'title':'Disk'}".
Definition kept_dashboard : gomap :=
  obj [("folderId", VFloat64 3); ("title", VString "Disk")].

(** [-action=push-dashboards -folder=Engineering] with one local file whose
    "folderId" is 3. *)
Definition push_kept : script := {|
  replies :=
    [("GET http://grafana/api/folders", (200, folders_json));
     ("POST http://grafana/api/dashboards/db", (200, json "{'status':'success'}"))];
  lists := [(folders_json, folders_list)];
  objects := [(kept_file, kept_dashboard)];
  files := [("grafana_data/dashboards/disk.json", kept_file)];
  dirs := [("grafana_data/dashboards", ["disk.json"])];
  sdk_folders := []; sdk_hits := []; sdk_boards := []; board_files := [];
  board_docs := []
|}.

(** Three list files that are not JSON. *)
Definition push_garbage : script := {|
  replies := []; lists := []; objects := [];
  files := [("grafana_data/datasources/datasources.json", "<html>");
            ("grafana_data/folders/folders.json", "<html>");
            ("grafana_data/notifications/notifications.json", "<html>")];
  dirs := [];
  sdk_folders := []; sdk_hits := []; sdk_boards := [];
  board_files := []; board_docs := []
|}.

Definition sources_json : bytes :=
  json "[{'name':'prometheus','type':'prometheus'},{'name':'loki','type':'loki'}]".
Definition sources : list gomap :=
  [obj [("name", VString "prometheus"); ("type", VString "prometheus")];
   obj [("name", VString "loki"); ("type", VString "loki")]].

(** Two datasources to push; the server answers every creation with
    [status]. *)
Definition push_sources (status : Z) : script := {|
  replies := [("POST http://grafana/api/datasources", (status, "{}"))];
  lists := [(sources_json, sources)];
  objects := [];
  files := [("grafana_data/datasources/datasources.json", sources_json)];
  dirs := [];
  sdk_folders := []; sdk_hits := []; sdk_boards := [];
  board_files := []; board_docs := []
|}.

Definition channels_json : bytes := json "[{'name':'ops','type':'email'}]".

(** A server that answers the three list endpoints. *)
Definition pull_lists : script := {|
  replies :=
    [("GET http://grafana/api/datasources", (200, sources_json));
     ("GET http://grafana/api/folders", (200, folders_json));
     ("GET http://grafana/api/alert-notifications", (200, channels_json))];
  lists := []; objects := []; files := []; dirs := [];
  sdk_folders := []; sdk_hits := []; sdk_boards := [];
  board_files := []; board_docs := []
|}.

Definition channels : list gomap :=
  [obj [("name", VString "ops"); ("type", VString "email")]].

(** The folder list and the notification channel list to push, and a
    server that accepts them. *)
Definition push_lists : script := {|
  replies :=
    [("POST http://grafana/api/folders", (200, "{}"));
     ("POST http://grafana/api/alert-notifications", (200, "{}"))];
  lists := [(folders_json, folders_list); (channels_json, channels)];
  objects := [];
  files := [("grafana_data/folders/folders.json", folders_json);
            ("grafana_data/notifications/notifications.json", channels_json)];
  dirs := [];
  sdk_folders := []; sdk_hits := []; sdk_boards := [];
  board_files := []; board_docs := []
|}.

(** Two dashboards, both served. *)
Definition pull_two_hits : script := {|
  replies :=
    [("GET http://grafana/api/search?type=dash-db", (200, abc_def_json));
     ("GET http://grafana/api/dashboards/uid/abc", (200, board_json));
     ("GET http://grafana/api/dashboards/uid/def", (200, memory_json))];
  lists := [(abc_def_json, [good_hit; second_hit])];
  objects := []; files := []; dirs := [];
  sdk_folders := []; sdk_hits := []; sdk_boards := [];
  board_files := []; board_docs := []
|}.

(** A dashboard file that holds the JSON value [null]: it decodes, without
    an error, to the nil map. *)
Definition push_null : script := {|
  replies :=
    [("GET http://grafana/api/folders", (200, folders_json));
     ("POST http://grafana/api/dashboards/db", (200, "{}"))];
  lists := [(folders_json, folders_list)];
  objects := [("null", None)];
  files := [("grafana_data/dashboards/empty.json", "null")];
  dirs := [("grafana_data/dashboards", ["empty.json"])];
  sdk_folders := []; sdk_hits := []; sdk_boards := [];
  board_files := []; board_docs := []
|}.

(** A search endpoint that answers with something that is not JSON. *)
Definition search_garbage : script := {|
  replies := [("GET http://grafana/api/search?type=dash-db", (200, "<html>"))];
  lists := []; objects := []; files := []; dirs := [];
  sdk_folders := []; sdk_hits := []; sdk_boards := [];
  board_files := []; board_docs := []
|}.

End Runs.

(** ** What a run adds to the trace *)

(** [emits P R m]: whatever happened before, [m] only appends events, each
    of them satisfies [P], and a value it returns satisfies [R]. *)
Definition emits {A} (P : event -> Prop) (R : A -> Prop) (m : M A) : Prop :=
  forall w, exists evs,
    (m w).2 = w ++ evs /\ Forall P evs /\ (forall a, (m w).1 = Done a -> R a).

Definition any {A} : A -> Prop := fun _ => True.

(** A predicate on events that holds of everything printed. *)
Definition quiet (P : event -> Prop) : Prop :=
  (forall s, P (Stdout s)) /\ (forall s, P (Stderr s)).

(** The request fails: it cannot be built, it gets no response, or the
    response has a status of 400 or more. *)
Definition refused (cfg : config) (E : env) (w : trace)
  (method url : string) (body : bytes) : Prop :=
  http_NewRequest E method url <> None \/
  match client_Do E w method url (Http.headers cfg method) body with
  | Ok (StatusCode, _) => 400 <= StatusCode
  | Err _ => True
  end.

(** The server's answer to the request is [data], with a status below 400. *)
Definition served (cfg : config) (E : env) (w : trace)
  (method url : string) (body data : bytes) : Prop :=
  http_NewRequest E method url = None /\
  exists StatusCode,
    client_Do E w method url (Http.headers cfg method) body = Ok (StatusCode, data) /\
    StatusCode < 400.

(** A search hit that [pullDashboards] of [main.go] cannot read: one of the
    two keys is missing or does not hold a string. *)
Definition malformed (db : gomap) : Prop :=
  assert_string (index db "uid") = None \/ assert_string (index db "title") = None.

(** The URL of one dashboard in [main.go]. *)
Definition dashboard_url (cfg : config) (uid : string) : string :=
  baseURL cfg +:+ "/api/dashboards/uid/" +:+ uid.

(** What [main.go] writes for the hits of a search: the file of a hit is
    named by the hit's title as it came, and holds the body the server sent
    for the hit's UID, byte for byte. *)
Definition saved_by_title (cfg : config) (E : env) (dir : string)
  (hits : list gomap) (e : event) : Prop :=
  match e with
  | WriteFile p d =>
      exists db uid title w,
        In db hits /\
        index db "uid" = VString uid /\
        index db "title" = VString title /\
        served cfg E w "GET" (dashboard_url cfg uid) EmptyString d /\
        p = filepath_Join E [dir; title +:+ ".json"]
  | _ => True
  end.

(** What the SDK version writes: the file is named by the slug of the
    properties the client returned for a UID, and holds the indented
    encoding of the board it returned, with the ID cleared. *)
Definition saved_by_slug (E : env) (dir : string) (e : event) : Prop :=
  match e with
  | WriteFile p d =>
      exists w uid board meta,
        sdk_GetDashboardByUID E w uid = Ok (board, meta) /\
        json_MarshalIndent_Board E (Sdk.clear_ID board) = Ok d /\
        p = filepath_Join E [dir; Slug meta +:+ ".json"]
  | _ => True
  end.

(** The file holds the encoding of a board whose ID is 0. *)
Definition holds_cleared_id (E : env) (e : event) : Prop :=
  match e with
  | WriteFile _ d =>
      exists board, Board_ID board = 0 /\ json_MarshalIndent_Board E board = Ok d
  | _ => True
  end.

(** The file holds what the server answered for some dashboard UID. *)
Definition holds_server_body (cfg : config) (E : env) (e : event) : Prop :=
  match e with
  | WriteFile _ d =>
      exists w uid, served cfg E w "GET" (dashboard_url cfg uid) EmptyString d
  | _ => True
  end.

(** A predicate on events that only restricts the files written. *)
Definition about_writes (P : event -> Prop) : Prop :=
  forall e, (forall p d, e <> WriteFile p d) -> P e.

(** [saved_by_title] for the hits that some search answer decodes to, in
    the dashboards directory. *)
Definition pulled_by_title (cfg : config) (E : env) (e : event) : Prop :=
  match e with
  | WriteFile _ _ =>
      exists data hits,
        json_Unmarshal_maps E data = Ok hits /\
        saved_by_title cfg E (filepath_Join E [directory cfg; "dashboards"]) hits e
  | _ => True
  end.





(** The folder ID that [getFolderID] resolves a name to: the result of the
    scan over some folder list that was decoded ([main.go]) or returned by
    the client (SDK version). *)
Definition resolved_http (E : env) (folderName folderID : string) : Prop :=
  exists data folders,
    json_Unmarshal_maps E data = Ok folders /\
    Http.getFolderID_scan E folderName folders = Some folderID.

Definition resolved_sdk (E : env) (folderName : string) (folderID : Z) : Prop :=
  exists w folders,
    sdk_GetAllFolders E w = Ok folders /\
    Sdk.getFolderID_scan folderName folders = Some folderID.



(** The POST requests that Push Datasources owes to a list of records: one
    per record, in order, with the record encoded again as the body. *)
Definition datasource_posts (cfg : config) (E : env) (records : list gomap)
  : list (string * string * bytes) :=
  (fun ds => ("POST", baseURL cfg +:+ "/api/datasources",
              ignore_err (json_Marshal E (VMap ds)))) <$> records.

(** ** Footprints of whole runs *)

(** How a run can stop short: [Some c] is [os.Exit(c)], [None] is a panic. *)
Definition exit_1 (h : option Z) : Prop := h = Some 1.
Definition exit_1_or_panic (h : option Z) : Prop := h = Some 1 \/ h = None.

(** [runs P Q R m]: whatever happened before, [m] only appends events, each
    of them satisfies [P]; it returns a value that satisfies [R], or it
    stops short in a way that satisfies [Q]. *)
Definition runs {A} (P : event -> Prop) (Q : option Z -> Prop) (R : A -> Prop)
  (m : M A) : Prop :=
  forall w, exists evs,
    (m w).2 = w ++ evs /\ Forall P evs /\
    match (m w).1 with
    | Done a => R a
    | Exit c => Q (Some c)
    | Panic => Q None
    end.

Definition search_url (cfg : config) : string :=
  baseURL cfg +:+ "/api/search?type=dash-db".

(** The header every request has, and the two headers of a POST. *)
Definition bearer (cfg : config) : string * string :=
  ("Authorization", "Bearer " +:+ apiKey cfg).
Definition content_type : string * string := ("Content-Type", "application/json").

(** The four directories under [-directory]. *)
Definition data_dir (cfg : config) (E : env) (p : string) : Prop :=
  p = filepath_Join E [directory cfg; "dashboards"] \/
  p = filepath_Join E [directory cfg; "datasources"] \/
  p = filepath_Join E [directory cfg; "folders"] \/
  p = filepath_Join E [directory cfg; "notifications"].

(** The three list endpoints. *)
Definition list_endpoint (cfg : config) (url : string) : Prop :=
  url = baseURL cfg +:+ "/api/datasources" \/
  url = baseURL cfg +:+ "/api/folders" \/
  url = baseURL cfg +:+ "/api/alert-notifications".

(** What a list pull writes: the file is the one file of its kind, and it
    holds the body the server answered to the GET of that kind, byte for
    byte. *)
Definition list_saved (cfg : config) (E : env) (p : string) (d : bytes) : Prop :=
  (p = filepath_Join E [filepath_Join E [directory cfg; "datasources"];
                        "datasources.json"] /\
   exists w, served cfg E w "GET" (baseURL cfg +:+ "/api/datasources") EmptyString d) \/
  (p = filepath_Join E [filepath_Join E [directory cfg; "folders"];
                        "folders.json"] /\
   exists w, served cfg E w "GET" (baseURL cfg +:+ "/api/folders") EmptyString d) \/
  (p = filepath_Join E [filepath_Join E [directory cfg; "notifications"];
                        "notifications.json"] /\
   exists w, served cfg E w "GET" (baseURL cfg +:+ "/api/alert-notifications")
               EmptyString d).

(** What a pull of [main.go] may do: print; send a GET without body, with
    the bearer header alone, to one of the endpoints it reads; call
    [os.MkdirAll] on one of the four directories; write one of the three
    list files ([list_saved]), or write, for a hit of the search, the file
    that [filepath.Join] makes of the dashboards directory and the hit's
    title followed by [.json], with the body the server answered for the
    hit's UID ([pulled_by_title]).  The title is used as it came. *)
Definition pull_event (cfg : config) (E : env) (e : event) : Prop :=
  match e with
  | Stdout _ => True
  | HttpDo method url h body =>
      method = "GET" /\ body = EmptyString /\ h = [bearer cfg] /\
      (list_endpoint cfg url \/
       url = search_url cfg \/
       (exists id, url = search_url cfg +:+ "&folderIds=" +:+ id) \/
       (exists uid, url = dashboard_url cfg uid))
  | MkdirAll p => data_dir cfg E p
  | WriteFile p d => list_saved cfg E p d \/ pulled_by_title cfg E (WriteFile p d)
  | _ => False
  end.

(** What a push of [main.go] may do: print; read the folder list; send a
    POST, with the bearer and the content type headers, to one of the four
    endpoints it writes.  It creates no directory and writes no file. *)
Definition push_event (cfg : config) (e : event) : Prop :=
  match e with
  | Stdout _ => True
  | HttpDo method url h body =>
      (method = "GET" /\ body = EmptyString /\ h = [bearer cfg] /\
       url = baseURL cfg +:+ "/api/folders") \/
      (method = "POST" /\ h = [bearer cfg; content_type] /\
       (url = baseURL cfg +:+ "/api/dashboards/db" \/
        url = baseURL cfg +:+ "/api/datasources" \/
        url = baseURL cfg +:+ "/api/folders" \/
        url = baseURL cfg +:+ "/api/alert-notifications"))
  | _ => False
  end.

(** The actions [main] knows. *)
Definition actions : list string :=
  ["pull-dashboards"; "pull-datasources"; "pull-folders"; "pull-notifications";
   "push-dashboards"; "push-datasources"; "push-folders"; "push-notifications";
   "pull"; "push"].

(** What any run of [main.go] may do. *)
Definition main_event (cfg : config) (E : env) (e : event) : Prop :=
  pull_event cfg E e \/ push_event cfg e.

(** An event that leaves the local files alone. *)
Definition touches_no_file (e : event) : Prop :=
  match e with
  | MkdirAll _ | WriteFile _ _ => False
  | _ => True
  end.

(** The POST requests that Push Folders and Push Notification Channels owe
    to a list of records. *)
Definition folder_posts (cfg : config) (E : env) (records : list gomap)
  : list (string * string * bytes) :=
  (fun folder => ("POST", baseURL cfg +:+ "/api/folders",
                  ignore_err (json_Marshal E (VMap folder)))) <$> records.

Definition notification_posts (cfg : config) (E : env) (records : list gomap)
  : list (string * string * bytes) :=
  (fun nc => ("POST", baseURL cfg +:+ "/api/alert-notifications",
              ignore_err (json_Marshal E (VMap nc)))) <$> records.

(** What the trace shows for list records that were uploaded: for each one,
    in order, the POST of the record encoded again and the line that reports
    it ([line] gives the line of a record). *)
Definition uploaded (cfg : config) (E : env) (url : string)
  (line : gomap -> string) (records : list gomap) : list event :=
  flat_map (fun r => [HttpDo "POST" url [bearer cfg; content_type]
                        (ignore_err (json_Marshal E (VMap r)));
                      Stdout (line r)]) records.

(** A push of list records that stops at the first refusal.  The records
    split into [done] and [rest]: every record of [done] was served when its
    turn came and the trace shows them uploaded, in order, after [start];
    when [rest] is empty the push returns; otherwise the request for the
    first record of [rest] is refused when its turn comes, the run ends
    with exit code 1 in that call of [sendRequest], and nothing is sent for
    the records after it. *)
Definition stops_at_first_refusal (cfg : config) (E : env) (url : string)
  (line : gomap -> string) (records : list gomap) (start : trace)
  (o : outcome unit) (final : trace) : Prop :=
  exists done rest,
    records = done ++ rest /\
    (forall d1 x d2,
       done = d1 ++ x :: d2 ->
       exists reply,
         served cfg E (start ++ uploaded cfg E url line d1) "POST" url
           (ignore_err (json_Marshal E (VMap x))) reply) /\
    match rest with
    | [] => o = Done tt /\ final = start ++ uploaded cfg E url line done
    | r :: _ =>
        refused cfg E (start ++ uploaded cfg E url line done) "POST" url
          (ignore_err (json_Marshal E (VMap r))) /\
        exists last,
          Http.sendRequest cfg E "POST" url (ignore_err (json_Marshal E (VMap r)))
            (start ++ uploaded cfg E url line done) =
            (Exit 1, (start ++ uploaded cfg E url line done) ++ last) /\
          requests last `prefix_of`
            [("POST", url, ignore_err (json_Marshal E (VMap r)))] /\
          o = Exit 1 /\
          final = (start ++ uploaded cfg E url line done) ++ last
    end.

(** What a decoded value is when the specification calls it absent or
    equal to 0: nil, or a number that is zero. *)
Definition unset_or_zero (v : value) : Prop :=
  match v with
  | VNil => True
  | VInt n => n = 0
  | VFloat64 f => PrimFloat.eqb f 0 = true
  | _ => False
  end.

(** ** What a push of dashboards finds *)

(** The dashboard a file name stands for, when the files read the same
    whenever they are read ([read]): the name ends in [.json], the file can
    be read and its content decodes. *)
Definition found_dashboard (E : env) (read : string -> result bytes)
  (dir file : string) : option gomap :=
  if bool_decide (filepath_Ext file = ".json") then
    match read (filepath_Join E [dir; file]) with
    | Ok data =>
        match json_Unmarshal_map E data with
        | Ok dashboard => Some dashboard
        | Err _ => None
        end
    | Err _ => None
    end
  else None.

Definition found_board (E : env) (read : string -> result bytes)
  (dir file : string) : option Board :=
  if bool_decide (filepath_Ext file = ".json") then
    match read (filepath_Join E [dir; file]) with
    | Ok data =>
        match json_Unmarshal_Board E data with
        | Ok dashboard => Some dashboard
        | Err _ => None
        end
    | Err _ => None
    end
  else None.

(** The dashboard after [attachFolder], where it returns one. *)
Definition attached (folderID : string) (dashboard : gomap) : gomap :=
  match (Http.attachFolder folderID dashboard []).1 with
  | Done dashboard' => dashboard'
  | _ => dashboard
  end.

(** The upload that [main.go] owes to a dashboard. *)
Definition dashboard_post (cfg : config) (E : env) (folderID : string)
  (dashboard : gomap) : string * string * bytes :=
  ("POST", baseURL cfg +:+ "/api/dashboards/db",
   ignore_err (json_Marshal E (Http.payload (attached folderID dashboard)))).

(** The calls of the SDK client that a trace shows. *)
Definition set_calls (t : trace) : list (Board * SetDashboardParams) :=
  omap (fun e => match e with
                 | SetDashboard board params => Some (board, params)
                 | _ => None
                 end) t.

Definition fetched_uids (t : trace) : list string :=
  omap (fun e => match e with
                 | GetDashboardByUID uid => Some uid
                 | _ => None
                 end) t.

(** The two strings [pullDashboards] of [main.go] reads from a hit. *)
Definition hit_uid (db : gomap) : string :=
  default EmptyString (assert_string (index db "uid")).
Definition hit_title (db : gomap) : string :=
  default EmptyString (assert_string (index db "title")).

(** What a pull of the SDK version may do: print and log; ask the client
    for the folders, a search or a dashboard; send a GET without body, with
    the bearer header alone, to one of the three list endpoints; call
    [os.MkdirAll] on one of the four directories; write one of the three
    list files ([list_saved]), or write, for a dashboard the client
    returned, the file that [filepath.Join] makes of the dashboards
    directory and the slug the client reported followed by [.json], with
    the encoding of the board with its ID cleared ([saved_by_slug]).  It
    never calls [SetDashboard]. *)
Definition sdk_pull_event (cfg : config) (E : env) (e : event) : Prop :=
  match e with
  | Stdout _ | Stderr _ | GetAllFolders | Search _ | GetDashboardByUID _ => True
  | HttpDo method url h body =>
      method = "GET" /\ body = EmptyString /\ h = [bearer cfg] /\
      list_endpoint cfg url
  | MkdirAll p => data_dir cfg E p
  | WriteFile p d =>
      list_saved cfg E p d \/
      saved_by_slug E (filepath_Join E [directory cfg; "dashboards"]) (WriteFile p d)
  | SetDashboard _ _ => False
  end.

(** What a push of the SDK version may do: what a push of [main.go] may do
    and, for the dashboards, log, ask the client for the folders, and call
    [SetDashboard] with [Overwrite] true.  It never searches or fetches a
    dashboard, creates no directory and writes no file. *)
Definition sdk_push_event (cfg : config) (e : event) : Prop :=
  push_event cfg e \/
  match e with
  | Stderr _ | GetAllFolders => True
  | SetDashboard _ params => Overwrite params = true /\ PreserveId params = false
  | _ => False
  end.

Definition sdk_main_event (cfg : config) (E : env) (e : event) : Prop :=
  sdk_pull_event cfg E e \/ sdk_push_event cfg e.

(** ** Small checks of the Go helpers *)

Example Ext_of_a_dashboard_file : filepath_Ext "cpu.json" = ".json".
Proof. reflexivity. Qed.

Example Ext_of_the_last_element : filepath_Ext "a.b/notes" = EmptyString.
Proof. reflexivity. Qed.

Example decoded_zero_is_not_the_constant_zero :
  eq_int (VFloat64 0) 0 = false /\ eq_int (VInt 0) 0 = true.
Proof. split; reflexivity. Qed.

(** ** The monad *)

Section Monad.

Context {A B : Type}.

Lemma bind_Done (m : M A) (k : A -> M B) w a w1 :
  m w = (Done a, w1) -> bind m k w = k a w1.
Proof. unfold bind. intros ->. reflexivity. Qed.

Lemma bind_Exit (m : M A) (k : A -> M B) w c w1 :
  m w = (Exit c, w1) -> bind m k w = (Exit c, w1).
Proof. unfold bind. intros ->. reflexivity. Qed.

Lemma bind_Panic (m : M A) (k : A -> M B) w w1 :
  m w = (Panic, w1) -> bind m k w = (Panic, w1).
Proof. unfold bind. intros ->. reflexivity. Qed.

Lemma emits_ret (P : event -> Prop) (R : A -> Prop) a :
  R a -> emits P R (ret a).
Proof.
  intros Ha w. exists []. simpl. rewrite app_nil_r.
  repeat split; [constructor|]. intros b [= <-]. exact Ha.
Qed.

Lemma emits_os_Exit (P : event -> Prop) (R : A -> Prop) c :
  emits P R (os_Exit c).
Proof.
  intros w. exists []. simpl. rewrite app_nil_r.
  repeat split; [constructor|]. intros b [=].
Qed.

Lemma emits_panic (P : event -> Prop) (R : A -> Prop) : emits P R panic.
Proof.
  intros w. exists []. simpl. rewrite app_nil_r.
  repeat split; [constructor|]. intros b [=].
Qed.

Lemma emits_ask (P : event -> Prop) e (f : trace -> A) :
  P e -> emits P (fun a => exists w, a = f w) (ask e f).
Proof.
  intros He w. exists [e]. simpl. repeat split.
  - repeat constructor. exact He.
  - intros a [= <-]. eauto.
Qed.


Lemma emits_bind (P : event -> Prop) (R : A -> Prop) (Q : B -> Prop)
  (m : M A) (k : A -> M B) :
  emits P R m -> (forall a, R a -> emits P Q (k a)) -> emits P Q (bind m k).
Proof.
  intros Hm Hk w. destruct (Hm w) as (evs & Hw & Hevs & HR).
  unfold bind. destruct (m w) as [[a|c|] w1] eqn:Hmw; simpl in *; subst w1.
  - destruct (Hk a (HR a eq_refl) (w ++ evs)) as (evs' & Hw' & Hevs' & HQ).
    exists (evs ++ evs'). rewrite Hw', app_assoc. repeat split; [|exact HQ].
    apply Forall_app. split; assumption.
  - exists evs. repeat split; [assumption|]. intros b [=].
  - exists evs. repeat split; [assumption|]. intros b [=].
Qed.

Lemma emits_weaken (P P' : event -> Prop) (R R' : A -> Prop) (m : M A) :
  (forall e, P e -> P' e) -> (forall a, R a -> R' a) ->
  emits P R m -> emits P' R' m.
Proof.
  intros HP HR Hm w. destruct (Hm w) as (evs & Hw & Hevs & Ha).
  exists evs. repeat split; [assumption| |auto].
  eapply Forall_impl; [exact Hevs|exact HP].
Qed.

End Monad.

Lemma emits_emit (P : event -> Prop) e : P e -> emits P any (emit e).
Proof.
  intros He w. exists [e]. simpl. split; [reflexivity|].
  split; [repeat constructor; exact He|done].
Qed.

Lemma emits_Print (P : event -> Prop) s : quiet P -> emits P any (Print s).
Proof. intros [H _]. apply emits_emit, H. Qed.

Lemma emits_Println (P : event -> Prop) s : quiet P -> emits P any (Println s).
Proof. intros [H _]. apply emits_emit, H. Qed.

Lemma emits_log_Printf (P : event -> Prop) s : quiet P -> emits P any (log_Printf s).
Proof. intros [_ H]. apply emits_emit, H. Qed.

Lemma emits_log_Fatalf {A} (P : event -> Prop) (R : A -> Prop) s :
  quiet P -> emits P R (log_Fatalf s).
Proof.
  intros [_ H]. eapply emits_bind; [apply emits_emit, H|].
  intros _ _. apply emits_os_Exit.
Qed.

(** ** [sendRequest] *)

Section SendRequest.

Context (cfg : config) (E : env).

Lemma sendRequest_served method url body w data :
  served cfg E w method url body data ->
  Http.sendRequest cfg E method url body w =
    (Done data, w ++ [HttpDo method url (Http.headers cfg method) body]).
Proof.
  intros [Hnew (StatusCode & Hdo & Hlt)]. unfold Http.sendRequest.
  rewrite Hnew. unfold bind, ask. rewrite Hdo.
  rewrite bool_decide_false by lia. reflexivity.
Qed.

Lemma sendRequest_refused method url body w :
  refused cfg E w method url body ->
  exists evs,
    Http.sendRequest cfg E method url body w = (Exit 1, w ++ evs) /\
    writes evs = [] /\
    requests evs `prefix_of` [(method, url, body)].
Proof.
  intros Href. unfold Http.sendRequest.
  destruct (http_NewRequest E method url) as [err|] eqn:Hnew.
  - eexists [_]. split; [reflexivity|]. split; [reflexivity|]. apply prefix_nil.
  - destruct Href as [Href|Href]; [congruence|].
    unfold bind, ask.
    destruct (client_Do E w method url (Http.headers cfg method) body)
      as [[StatusCode data]|err].
    + rewrite bool_decide_true by exact Href.
      eexists [_; _]. simpl. rewrite <- app_assoc. split; [reflexivity|].
      split; reflexivity.
    + eexists [_; _]. simpl. rewrite <- app_assoc. split; [reflexivity|].
      split; reflexivity.
Qed.

Lemma served_or_refused method url body w :
  (exists data, served cfg E w method url body data) \/
  refused cfg E w method url body.
Proof.
  unfold served, refused.
  destruct (http_NewRequest E method url) as [err|]; [right; left; congruence|].
  destruct (client_Do E w method url (Http.headers cfg method) body)
    as [[StatusCode data]|err]; [|right; right; exact I].
  destruct (decide (400 <= StatusCode)); [right; right; assumption|].
  left. exists data. split; [reflexivity|]. exists StatusCode. split; [reflexivity|lia].
Qed.

Lemma emits_sendRequest (P : event -> Prop) method url body :
  quiet P -> P (HttpDo method url (Http.headers cfg method) body) ->
  emits P (fun data => exists w, served cfg E w method url body data)
        (Http.sendRequest cfg E method url body).
Proof.
  intros HP Hreq w.
  destruct (served_or_refused method url body w) as [[data Hs]|Hr].
  - rewrite (sendRequest_served _ _ _ _ _ Hs). eexists [_]. simpl.
    split; [reflexivity|]. split; [repeat constructor; exact Hreq|].
    intros a [= <-]. eauto.
  - unfold refused in Hr. unfold Http.sendRequest. destruct HP as [Hout Herr].
    destruct (http_NewRequest E method url) as [err|].
    + eexists [_]. simpl. split; [reflexivity|].
      split; [repeat constructor; apply Hout|]. intros a [=].
    + destruct Hr as [Hr|Hr]; [congruence|]. unfold bind, ask. revert Hr.
      destruct (client_Do E w method url (Http.headers cfg method) body)
        as [[StatusCode data]|err]; intros Hr.
      * rewrite bool_decide_true by exact Hr.
        eexists [_; _]. simpl. rewrite <- app_assoc. split; [reflexivity|].
        split; [repeat constructor; [exact Hreq|apply Hout]|]. intros a [=].
      * eexists [_; _]. simpl. rewrite <- app_assoc.
        split; [reflexivity|].
        split; [repeat constructor; [exact Hreq|apply Hout]|]. intros a [=].
Qed.

End SendRequest.

(** ** Folder lookup *)

Lemma eq_string_true (v : value) (s : string) :
  eq_string v s = true <-> v = VString s.
Proof.
  destruct v; simpl; try (split; [discriminate|intros [=]]).
  rewrite bool_decide_eq_true. split; [intros ->; reflexivity|intros [= ->]; reflexivity].
Qed.

Lemma eq_string_false (v : value) (s : string) :
  eq_string v s = false <-> v <> VString s.
Proof.
  rewrite <- eq_string_true. destruct (eq_string v s); split; congruence.
Qed.

Lemma getFolderID_scan_first (E : env) folderName pre f post :
  Forall (fun g => index g "title" <> VString folderName) pre ->
  index f "title" = VString folderName ->
  Http.getFolderID_scan E folderName (pre ++ f :: post) =
    Some (fmt_v E (index f "id")).
Proof.
  intros Hpre Hf. induction Hpre as [|g pre Hg _ IH]; simpl.
  - apply eq_string_true in Hf. rewrite Hf. reflexivity.
  - apply eq_string_false in Hg. rewrite Hg. exact IH.
Qed.

Lemma getFolderID_scan_none (E : env) folderName folders :
  Forall (fun g => index g "title" <> VString folderName) folders ->
  Http.getFolderID_scan E folderName folders = None.
Proof.
  induction 1 as [|g l Hg _ IH]; simpl; [reflexivity|].
  apply eq_string_false in Hg. rewrite Hg. exact IH.
Qed.

(** The SDK version scans the same way, over the folders the client
    returned, and returns the number itself. *)
Lemma Sdk_getFolderID_first_match (E : env) (folderName : string) (w : trace)
  (folders pre post : list Folder) (f : Folder) :
  sdk_GetAllFolders E w = Ok folders ->
  folders = pre ++ f :: post ->
  Forall (fun g => Folder_Title g <> folderName) pre ->
  Folder_Title f = folderName ->
  Sdk.getFolderID E folderName w = (Done (Folder_ID f), w ++ [GetAllFolders]).
Proof.
  intros Hget -> Hpre Hf. unfold Sdk.getFolderID, bind, ask. rewrite Hget.
  assert (Hscan : Sdk.getFolderID_scan folderName (pre ++ f :: post) =
                  Some (Folder_ID f)).
  { clear Hget. induction Hpre as [|g pre Hg _ IH]; simpl.
    - rewrite bool_decide_true by exact Hf. reflexivity.
    - rewrite bool_decide_false by exact Hg. exact IH. }
  rewrite Hscan. reflexivity.
Qed.

Lemma Sdk_getFolderID_not_found (E : env) (folderName : string) (w : trace)
  (folders : list Folder) :
  sdk_GetAllFolders E w = Ok folders ->
  Forall (fun g => Folder_Title g <> folderName) folders ->
  Sdk.getFolderID E folderName w =
    (Exit 1, w ++ [GetAllFolders; Stderr ("Folder not found: " +:+ folderName)]).
Proof.
  intros Hget Hnone. unfold Sdk.getFolderID, bind, ask. rewrite Hget.
  assert (Hscan : Sdk.getFolderID_scan folderName folders = None).
  { clear Hget. induction Hnone as [|g l Hg _ IH]; simpl; [reflexivity|].
    rewrite bool_decide_false by exact Hg. exact IH. }
  rewrite Hscan. unfold log_Fatalf, bind, emit, os_Exit.
  rewrite <- app_assoc. reflexivity.
Qed.

(** C4: once the folder list is fetched and decoded, [getFolderID] returns
    the ID (as [%v] prints it) of the first folder in list order whose title
    is exactly the name; when no folder has that title it prints an error
    and ends the process with exit code 1. *)
Theorem getFolderID_first_match (cfg : config) (E : env) (folderName : string)
  (w : trace) (data : bytes) (folders : list gomap) :
  let asked := w ++ [Stdout ("Fetching folder ID for: " +:+ folderName +:+ nl)] in
  let url := baseURL cfg +:+ "/api/folders" in
  let fetched := asked ++ [HttpDo "GET" url (Http.headers cfg "GET") EmptyString] in
  served cfg E asked "GET" url EmptyString data ->
  json_Unmarshal_maps E data = Ok folders ->
  (forall pre f post,
      folders = pre ++ f :: post ->
      Forall (fun g => index g "title" <> VString folderName) pre ->
      index f "title" = VString folderName ->
      Http.getFolderID cfg E folderName w =
        (Done (fmt_v E (index f "id")), fetched)) /\
  (Forall (fun g => index g "title" <> VString folderName) folders ->
      Http.getFolderID cfg E folderName w =
        (Exit 1, fetched ++
           [Stdout ("Error: folder '" +:+ folderName +:+ "' not found" +:+ nl)])).
Proof.
  intros asked url fetched Hserved Hdec.
  assert (Hstart : forall k : bytes -> M string,
    bind (Print ("Fetching folder ID for: " +:+ folderName +:+ nl))
         (fun _ => bind (Http.sendRequest cfg E "GET" url EmptyString) k) w =
    k data fetched).
  { intros k. unfold bind at 1. unfold Print, emit.
    erewrite bind_Done by (apply sendRequest_served; exact Hserved).
    reflexivity. }
  split.
  - intros pre f post -> Hpre Hf. unfold Http.getFolderID. rewrite Hstart, Hdec.
    rewrite getFolderID_scan_first by assumption. reflexivity.
  - intros Hnone. unfold Http.getFolderID. rewrite Hstart, Hdec.
    rewrite getFolderID_scan_none by assumption. reflexivity.
Qed.

Lemma getFolderID_first_match_witness :
  Http.getFolderID (Runs.flags "pull" "Engineering") (Script.world Runs.pull_one)
    "Engineering" [] =
    (Done "7",
     [Stdout ("Fetching folder ID for: Engineering" +:+ nl);
      HttpDo "GET" "http://grafana/api/folders"
        [("Authorization", "Bearer secret")] EmptyString]) /\
  Http.getFolderID (Runs.flags "pull" "Operations") (Script.world Runs.pull_one)
    "Operations" [] =
    (Exit 1,
     [Stdout ("Fetching folder ID for: Operations" +:+ nl);
      HttpDo "GET" "http://grafana/api/folders"
        [("Authorization", "Bearer secret")] EmptyString;
      Stdout ("Error: folder 'Operations' not found" +:+ nl)]).
Proof.
  assert (Hserved : forall name,
    served (Runs.flags "pull" name) (Script.world Runs.pull_one)
      ([] ++ [Stdout ("Fetching folder ID for: " +:+ name +:+ nl)])
      "GET" "http://grafana/api/folders" EmptyString Runs.folders_json).
  { intros name. split; [reflexivity|]. exists 200. split; [reflexivity|lia]. }
  split.
  - refine (proj1 (getFolderID_first_match (Runs.flags "pull" "Engineering")
      (Script.world Runs.pull_one) "Engineering" [] Runs.folders_json
      Runs.folders_list (Hserved _) eq_refl) [] _ [] eq_refl _ eq_refl).
    constructor.
  - refine (proj2 (getFolderID_first_match (Runs.flags "pull" "Operations")
      (Script.world Runs.pull_one) "Operations" [] Runs.folders_json
      Runs.folders_list (Hserved _) eq_refl) _).
    repeat constructor. discriminate.
Defined.

(** ** Pull Dashboards in [main.go] *)

Section HttpPull.

Context (cfg : config) (E : env).

(** The loop over a list is the loop over its first part, then the loop
    over the rest, unless the first part ended the process. *)
Lemma pullDashboards_loop_app dir pre post w :
  Http.pullDashboards_loop cfg E dir (pre ++ post) w =
  match Http.pullDashboards_loop cfg E dir pre w with
  | (Done _, w1) => Http.pullDashboards_loop cfg E dir post w1
  | (Exit c, w1) => (Exit c, w1)
  | (Panic, w1) => (Panic, w1)
  end.
Proof.
  revert w. induction pre as [|db pre IH]; intros w; [reflexivity|].
  simpl. unfold bind.
  destruct (must_string (index db "uid") w) as [[uid|c|] w1]; try reflexivity.
  destruct (must_string (index db "title") w1) as [[title|c|] w2]; try reflexivity.
  destruct (Http.downloadDashboard cfg E uid w2) as [[data|c|] w3]; try reflexivity.
  destruct (Http.saveToFile E _ data w3) as [[[err|]|c|] w4]; try reflexivity.
  - destruct (Print _ w4) as [[[]|c|] w5]; try reflexivity. apply IH.
  - destruct (Print _ w4) as [[[]|c|] w5]; try reflexivity. apply IH.
Qed.

Lemma pullDashboards_loop_malformed dir db rest w :
  malformed db -> Http.pullDashboards_loop cfg E dir (db :: rest) w = (Panic, w).
Proof.
  intros Hbad. simpl. unfold bind, must_string.
  destruct (assert_string (index db "uid")) as [uid|] eqn:Huid; [|reflexivity].
  destruct Hbad as [Hbad|Hbad]; [congruence|]. rewrite Hbad. reflexivity.
Qed.

End HttpPull.

(** C9: in [main.go], when the loop of [pullDashboards] reaches a search hit
    whose "uid" or "title" is missing or is not a string, the program panics
    on the failed type assertion: nothing is requested, written or printed
    for that hit, and the hits after it are not pulled. *)
Theorem pull_malformed_hit_panics (cfg : config) (E : env) (dir : string)
  (pre : list gomap) (db : gomap) (rest : list gomap) (w w1 : trace) :
  Http.pullDashboards_loop cfg E dir pre w = (Done tt, w1) ->
  malformed db ->
  Http.pullDashboards_loop cfg E dir (pre ++ db :: rest) w = (Panic, w1).
Proof.
  intros Hpre Hbad. rewrite pullDashboards_loop_app, Hpre.
  apply pullDashboards_loop_malformed. exact Hbad.
Qed.

Lemma pull_malformed_hit_panics_witness :
  Http.pullDashboards_loop (Runs.flags "pull" EmptyString)
    (Script.world Runs.pull_untitled) "grafana_data/dashboards"
    [Runs.good_hit; Runs.untitled_hit] [] =
  (Panic,
   [HttpDo "GET" "http://grafana/api/dashboards/uid/abc"
      [("Authorization", "Bearer secret")] EmptyString;
    WriteFile "grafana_data/dashboards/CPU Load.json" Runs.board_json;
    Stdout ("Saved dashboard: CPU Load" +:+ nl)]).
Proof.
  exact (pull_malformed_hit_panics (Runs.flags "pull" EmptyString)
           (Script.world Runs.pull_untitled) "grafana_data/dashboards"
           [Runs.good_hit] Runs.untitled_hit [] [] _ eq_refl (or_intror eq_refl)).
Defined.

Lemma about_writes_quiet (P : event -> Prop) : about_writes P -> quiet P.
Proof. intros H. split; intros s; apply H; discriminate. Qed.

Section HttpPullWrites.

Context (cfg : config) (E : env).

Lemma emits_getFolderID (P : event -> Prop) folderName :
  quiet P -> (forall u b, P (HttpDo "GET" u (Http.headers cfg "GET") b)) ->
  emits P (resolved_http E folderName) (Http.getFolderID cfg E folderName).
Proof.
  intros HP Hget. unfold Http.getFolderID.
  eapply emits_bind; [apply emits_Print, HP|]. intros _ _.
  eapply emits_bind; [apply emits_sendRequest; [exact HP|apply Hget]|].
  intros data _. destruct (json_Unmarshal_maps E data) as [folders|err] eqn:Hdec.
  - destruct (Http.getFolderID_scan E folderName folders) as [id|] eqn:Hscan.
    + apply emits_ret. exists data, folders. split; assumption.
    + eapply emits_bind; [apply emits_Print, HP|]. intros _ _. apply emits_os_Exit.
  - eapply emits_bind; [apply emits_Println, HP|]. intros _ _. apply emits_os_Exit.
Qed.

Lemma saved_by_title_about_writes dir hits :
  about_writes (saved_by_title cfg E dir hits).
Proof. intros [] He; try exact I. exfalso. eapply He. reflexivity. Qed.

Lemma emits_pullDashboards_loop dir hits dashboards :
  (forall db, In db dashboards -> In db hits) ->
  emits (saved_by_title cfg E dir hits) any
        (Http.pullDashboards_loop cfg E dir dashboards).
Proof.
  pose proof (about_writes_quiet _ (saved_by_title_about_writes dir hits)) as HP.
  induction dashboards as [|db rest IH]; intros Hin; simpl.
  - apply emits_ret. exact I.
  - assert (Hrest : forall db', In db' rest -> In db' hits)
      by (intros db' H; apply Hin; right; exact H).
    specialize (IH Hrest).
    eapply emits_bind with (R := fun uid => index db "uid" = VString uid).
    { unfold must_string. destruct (index db "uid"); simpl;
        try apply emits_panic. apply emits_ret. reflexivity. }
    intros uid Huid.
    eapply emits_bind with (R := fun title => index db "title" = VString title).
    { unfold must_string. destruct (index db "title"); simpl;
        try apply emits_panic. apply emits_ret. reflexivity. }
    intros title Htitle.
    eapply emits_bind; [apply emits_sendRequest; [exact HP|exact I]|].
    intros data [w Hserved].
    eapply emits_bind.
    { apply (emits_ask (saved_by_title cfg E dir hits)). simpl.
      exists db, uid, title, w. repeat split; try assumption.
      - apply Hin. left. reflexivity.
      - apply Hserved.
      - apply Hserved. }
    intros err _. destruct err as [err|].
    + eapply emits_bind; [apply emits_Print, HP|]. intros _ _. exact IH.
    + eapply emits_bind; [apply emits_Print, HP|]. intros _ _. exact IH.
Qed.

End HttpPullWrites.

Section PullDashboards.

Context (cfg : config) (E : env).

Lemma pulled_by_title_about_writes : about_writes (pulled_by_title cfg E).
Proof. intros [] He; try exact I. exfalso. eapply He. reflexivity. Qed.

Lemma emits_Http_pullDashboards :
  emits (pulled_by_title cfg E) any (Http.pullDashboards cfg E).
Proof.
  pose proof pulled_by_title_about_writes as Hw.
  pose proof (about_writes_quiet _ Hw) as HP.
  unfold Http.pullDashboards.
  eapply emits_bind; [apply emits_Println, HP|]. intros _ _.
  eapply emits_bind with (R := any).
  { case_bool_decide.
    - eapply emits_bind; [apply emits_getFolderID; [exact HP|intros; exact I]|].
      intros id _. apply emits_ret. exact I.
    - apply emits_ret. exact I. }
  intros url _.
  eapply emits_bind; [apply emits_sendRequest; [exact HP|exact I]|].
  intros data _. destruct (json_Unmarshal_maps E data) as [dashboards|err] eqn:Hdec.
  - eapply emits_bind; [apply emits_emit; exact I|]. intros _ _.
    eapply emits_weaken; [| |apply (emits_pullDashboards_loop cfg E _ dashboards)].
    + intros [] He; try exact I. exists data, dashboards. split; assumption.
    + auto.
    + auto.
  - apply emits_Println, HP.
Qed.

Lemma saved_by_slug_about_writes dir : about_writes (saved_by_slug E dir).
Proof. intros [] He; try exact I. exfalso. eapply He. reflexivity. Qed.

Lemma emits_Sdk_pullDashboards_loop dir dashboards :
  emits (saved_by_slug E dir) any (Sdk.pullDashboards_loop E dir dashboards).
Proof.
  pose proof (about_writes_quiet _ (saved_by_slug_about_writes dir)) as HP.
  induction dashboards as [|db rest IH]; simpl.
  - apply emits_ret. exact I.
  - case_bool_decide; [exact IH|].
    eapply emits_bind; [apply emits_ask; exact I|].
    intros r [w Hr]. destruct r as [[board meta]|err].
    + case_bool_decide.
      * eapply emits_bind; [apply emits_log_Printf, HP|]. intros _ _. exact IH.
      * eapply emits_bind; [apply emits_Println, HP|]. intros _ _.
        destruct (json_MarshalIndent_Board E (Sdk.clear_ID board)) as [data|err]
          eqn:Henc.
        -- eapply emits_bind.
           { apply (emits_ask (saved_by_slug E dir)). simpl.
             exists w, (FoundBoard_UID db), board, meta. auto. }
           intros [err|] _.
           ++ eapply emits_bind; [apply emits_log_Printf, HP|]. intros _ _. exact IH.
           ++ eapply emits_bind; [apply emits_Print, HP|]. intros _ _. exact IH.
        -- eapply emits_bind; [apply emits_log_Printf, HP|]. intros _ _. exact IH.
    + eapply emits_bind; [apply emits_log_Printf, HP|]. intros _ _. exact IH.
Qed.

Lemma emits_Sdk_getFolderID (P : event -> Prop) folderName :
  quiet P -> P GetAllFolders ->
  emits P (resolved_sdk E folderName) (Sdk.getFolderID E folderName).
Proof.
  intros HP Hget. unfold Sdk.getFolderID.
  eapply emits_bind; [apply emits_ask, Hget|]. intros [folders|err] [w Hw].
  - destruct (Sdk.getFolderID_scan folderName folders) as [id|] eqn:Hscan.
    + apply emits_ret. exists w, folders. split; [symmetry; exact Hw|exact Hscan].
    + apply emits_log_Fatalf, HP.
  - apply emits_log_Fatalf, HP.
Qed.

Lemma emits_Sdk_pullDashboards :
  emits (saved_by_slug E (filepath_Join E [directory cfg; "dashboards"])) any
        (Sdk.pullDashboards cfg E).
Proof.
  pose proof (about_writes_quiet _
    (saved_by_slug_about_writes (filepath_Join E [directory cfg; "dashboards"]))) as HP.
  unfold Sdk.pullDashboards.
  eapply emits_bind; [apply emits_Println, HP|]. intros _ _.
  eapply emits_bind with (R := any).
  { case_bool_decide.
    - eapply emits_bind; [apply emits_Sdk_getFolderID; [exact HP|exact I]|].
      intros id _. apply emits_ret. exact I.
    - apply emits_ret. exact I. }
  intros params _.
  eapply emits_bind; [apply emits_ask; exact I|]. intros [dashboards|err] _.
  - eapply emits_bind; [apply emits_ask; exact I|]. intros [err|] _.
    + apply emits_log_Fatalf, HP.
    + apply emits_Sdk_pullDashboards_loop.
  - apply emits_log_Fatalf, HP.
Qed.

End PullDashboards.

(** ** The scenario of the specification, run on both versions

    [-action=pull -folder=Engineering], the folder list
    [[{id:7,title:"Engineering"}]] and one dashboard in the folder. *)

Example pull_http_scenario :
  Http.pullDashboards (Runs.flags "pull" "Engineering") (Script.world Runs.pull_one) [] =
  (Done tt,
   [Stdout ("Pulling dashboards..." +:+ nl);
    Stdout ("Fetching folder ID for: Engineering" +:+ nl);
    HttpDo "GET" "http://grafana/api/folders"
      [("Authorization", "Bearer secret")] EmptyString;
    HttpDo "GET" "http://grafana/api/search?type=dash-db&folderIds=7"
      [("Authorization", "Bearer secret")] EmptyString;
    MkdirAll "grafana_data/dashboards";
    HttpDo "GET" "http://grafana/api/dashboards/uid/abc"
      [("Authorization", "Bearer secret")] EmptyString;
    WriteFile "grafana_data/dashboards/CPU Load.json" Runs.board_json;
    Stdout ("Saved dashboard: CPU Load" +:+ nl)]).
Proof. vm_compute. reflexivity. Qed.

Example pull_sdk_scenario :
  Sdk.pullDashboards (Runs.flags "pull" "Engineering") (Script.world Runs.pull_one) [] =
  (Done tt,
   [Stdout ("Pulling dashboards..." +:+ nl);
    GetAllFolders;
    Search [SearchType "dash-db"; SearchFolderID 7];
    MkdirAll "grafana_data/dashboards";
    GetDashboardByUID "abc";
    Stdout ("0" +:+ nl);
    WriteFile "grafana_data/dashboards/cpu-load.json" Runs.board_file;
    Stdout ("Saved dashboard: grafana_data/dashboards/cpu-load.json" +:+ nl)]).
Proof. vm_compute. reflexivity. Qed.

(** ** Pull Dashboards: what is written, and where *)

Lemma holds_cleared_id_of_slug (E : env) dir e :
  saved_by_slug E dir e -> holds_cleared_id E e.
Proof.
  destruct e; simpl; auto. intros (w & uid & board & meta & _ & Henc & _).
  exists (Sdk.clear_ID board). split; [reflexivity|exact Henc].
Qed.

Lemma holds_server_body_of_title (cfg : config) (E : env) e :
  pulled_by_title cfg E e -> holds_server_body cfg E e.
Proof.
  destruct e; simpl; auto.
  intros (_ & _ & _ & db & uid & title & w & _ & _ & _ & Hserved & _).
  exists w, uid. exact Hserved.
Qed.

(** C1 (as amended): in the SDK version, every file that Pull Dashboards
    writes holds the encoding of a board whose numeric ID is 0, whatever ID
    the server returned; in [main.go], every file it writes holds the body
    the server answered for the dashboard, unchanged. *)
Theorem pull_clears_id_in_sdk_version (cfg : config) (E : env) (w : trace) :
  (exists evs,
     (Sdk.pullDashboards cfg E w).2 = w ++ evs /\
     Forall (holds_cleared_id E) evs) /\
  (exists evs,
     (Http.pullDashboards cfg E w).2 = w ++ evs /\
     Forall (holds_server_body cfg E) evs).
Proof.
  split.
  - destruct (emits_Sdk_pullDashboards cfg E w) as (evs & Heq & Hall & _).
    exists evs. split; [exact Heq|].
    eapply Forall_impl; [exact Hall|]. apply holds_cleared_id_of_slug.
  - destruct (emits_Http_pullDashboards cfg E w) as (evs & Heq & Hall & _).
    exists evs. split; [exact Heq|].
    eapply Forall_impl; [exact Hall|]. apply holds_server_body_of_title.
Qed.

Lemma pull_clears_id_in_sdk_version_witness :
  (exists board,
     Board_ID board = 0 /\
     json_MarshalIndent_Board (Script.world Runs.pull_one) board =
       Ok Runs.board_file) /\
  (exists w uid,
     served (Runs.flags "pull" "Engineering") (Script.world Runs.pull_one) w "GET"
       (dashboard_url (Runs.flags "pull" "Engineering") uid) EmptyString
       Runs.board_json).
Proof.
  destruct (pull_clears_id_in_sdk_version (Runs.flags "pull" "Engineering")
              (Script.world Runs.pull_one) [])
    as [(evs & Heq & Hall) (evs' & Heq' & Hall')].
  rewrite pull_sdk_scenario in Heq. rewrite pull_http_scenario in Heq'.
  simpl in Heq, Heq'. subst evs evs'. split.
  - do 6 apply Forall_inv_tail in Hall. apply Forall_inv in Hall. exact Hall.
  - do 6 apply Forall_inv_tail in Hall'. apply Forall_inv in Hall'. exact Hall'.
Defined.

(** The scenario of the specification on [main.go]: the file holds the
    server's body, with the ID 5 in it. *)
Lemma pull_http_keeps_server_id :
  writes (Http.pullDashboards (Runs.flags "pull" "Engineering")
            (Script.world Runs.pull_one) []).2 =
    [("grafana_data/dashboards/CPU Load.json",
      Script.json "{'meta':{'slug':'cpu-load'},'dashboard':{'id':5,'uid':'abc','title':'CPU Load'}}")] /\
  json_Unmarshal_map (Script.world Runs.pull_one) Runs.board_json = Ok Runs.board_obj /\
  exists dashboard,
    index Runs.board_obj "dashboard" = VMap dashboard /\
    index dashboard "id" = VFloat64 5.
Proof.
  split; [vm_compute; reflexivity|]. split; [reflexivity|].
  eexists. split; reflexivity.
Qed.




(** ** Pull Dashboards: a dashboard that cannot be fetched *)

Lemma refused_downloadDashboard (cfg : config) (E : env) uid w :
  refused cfg E w "GET" (dashboard_url cfg uid) EmptyString ->
  exists evs,
    Http.downloadDashboard cfg E uid w = (Exit 1, w ++ evs) /\
    writes evs = [] /\
    requests evs `prefix_of` [("GET", dashboard_url cfg uid, EmptyString)].
Proof. intros H. apply sendRequest_refused, H. Qed.

(** C2 (as amended): in [main.go], a dashboard whose body cannot be fetched
    (the request cannot be made, or the status is 400 or more) ends the
    process with exit code 1: nothing is written for it, and the dashboards
    after it are not pulled.  In the SDK version the failure is logged,
    that dashboard is skipped, and the loop goes on with the next one. *)
Theorem pull_fetch_failure (cfg : config) (E : env) (dir : string) (w : trace) :
  (forall db rest uid title,
     index db "uid" = VString uid ->
     index db "title" = VString title ->
     refused cfg E w "GET" (dashboard_url cfg uid) EmptyString ->
     exists evs,
       Http.pullDashboards_loop cfg E dir (db :: rest) w = (Exit 1, w ++ evs) /\
       writes evs = [] /\
       requests evs `prefix_of` [("GET", dashboard_url cfg uid, EmptyString)]) /\
  (forall db rest err,
     FoundBoard_Type db = "dash-db" ->
     sdk_GetDashboardByUID E w (FoundBoard_UID db) = Err err ->
     Sdk.pullDashboards_loop E dir (db :: rest) w =
     Sdk.pullDashboards_loop E dir rest
       (w ++ [GetDashboardByUID (FoundBoard_UID db);
              Stderr ("Error fetching dashboard UID " +:+ FoundBoard_UID db
                      +:+ ": " +:+ err)])).
Proof.
  split.
  - intros db rest uid title Huid Htitle Href.
    destruct (refused_downloadDashboard cfg E uid w Href) as (evs & Heq & Hw & Hr).
    exists evs. split; [|split; assumption].
    simpl. unfold bind at 1. unfold must_string. rewrite Huid. simpl.
    unfold bind at 1. rewrite Htitle. simpl.
    unfold bind at 1. rewrite Heq. reflexivity.
  - intros db rest err Htype Herr. simpl.
    rewrite bool_decide_false by (intros H; apply H; exact Htype).
    unfold bind at 1. unfold ask. rewrite Herr.
    unfold bind at 1. unfold log_Printf, emit. rewrite <- app_assoc. reflexivity.
Qed.

Lemma pull_fetch_failure_witness :
  (exists evs,
     Http.pullDashboards_loop (Runs.flags "pull" EmptyString)
       (Script.world Runs.pull_first_fails) "grafana_data/dashboards"
       [Runs.good_hit; Runs.second_hit] [] = (Exit 1, [] ++ evs) /\
     writes evs = [] /\
     requests evs `prefix_of`
       [("GET", "http://grafana/api/dashboards/uid/abc", EmptyString)]) /\
  Sdk.pullDashboards_loop (Script.world Runs.pull_first_fails)
    "grafana_data/dashboards" (Script.sdk_hits Runs.pull_first_fails) [] =
  (Done tt,
   [GetDashboardByUID "abc";
    Stderr "Error fetching dashboard UID abc: dashboard not found";
    GetDashboardByUID "def";
    Stdout ("0" +:+ nl);
    WriteFile "grafana_data/dashboards/memory.json"
      (Script.json "{" +:+ nl +:+ Script.json "  'uid': 'def'," +:+ nl
       +:+ Script.json "  'title': 'Memory'" +:+ nl +:+ "}");
    Stdout ("Saved dashboard: grafana_data/dashboards/memory.json" +:+ nl)]).
Proof.
  split.
  - refine (proj1 (pull_fetch_failure (Runs.flags "pull" EmptyString)
      (Script.world Runs.pull_first_fails) "grafana_data/dashboards" [])
      Runs.good_hit [Runs.second_hit] "abc" "CPU Load" eq_refl eq_refl _).
    right. vm_compute. discriminate.
  - etransitivity.
    + refine (proj2 (pull_fetch_failure (Runs.flags "pull" EmptyString)
        (Script.world Runs.pull_first_fails) "grafana_data/dashboards" [])
        {| FoundBoard_UID := "abc"; FoundBoard_Type := "dash-db" |}
        [{| FoundBoard_UID := "def"; FoundBoard_Type := "dash-db" |}]
        "dashboard not found" eq_refl eq_refl).
    + vm_compute. reflexivity.
Defined.

(** On [main.go], the status 500 for the first dashboard ends the run: the
    second dashboard is never requested. *)
Lemma pull_http_fetch_failure_is_fatal :
  Http.pullDashboards (Runs.flags "pull" EmptyString)
    (Script.world Runs.pull_first_fails) [] =
  (Exit 1,
   [Stdout ("Pulling dashboards..." +:+ nl);
    HttpDo "GET" "http://grafana/api/search?type=dash-db"
      [("Authorization", "Bearer secret")] EmptyString;
    MkdirAll "grafana_data/dashboards";
    HttpDo "GET" "http://grafana/api/dashboards/uid/abc"
      [("Authorization", "Bearer secret")] EmptyString;
    Stdout ("Error: http://grafana/api/dashboards/uid/abc returned 500" +:+ nl)]).
Proof. vm_compute. reflexivity. Qed.

(** ** Push Dashboards: the folder and the payload *)

Section AttachFolder.

Context (folderID : string) (g : gmap string value).

(** Without a folder, nothing is attached. *)
Lemma attachFolder_no_folder dashboard w :
  Http.attachFolder EmptyString dashboard w = (Done dashboard, w).
Proof. reflexivity. Qed.

(** A dashboard without "folderId", or with a null one, gets the folder. *)
Lemma attachFolder_absent w :
  folderID <> EmptyString ->
  index (Some g) "folderId" = VNil ->
  Http.attachFolder folderID (Some g) w =
    (Done (Some (<["folderId" := VString folderID]> g)), w).
Proof.
  intros Hf Hnil. unfold Http.attachFolder.
  rewrite bool_decide_true by exact Hf. rewrite Hnil. reflexivity.
Qed.

(** Any decoded "folderId" other than null stays: a decoded number is a
    [float64], and [== 0] is true of an [int] only. *)
Lemma attachFolder_decoded v w :
  g !! "folderId" = Some v -> v <> VNil -> decoded v = true ->
  Http.attachFolder folderID (Some g) w = (Done (Some g), w).
Proof.
  intros Hv Hnil Hdec. unfold Http.attachFolder. case_bool_decide; [|reflexivity].
  simpl. rewrite Hv. simpl. destruct v; try reflexivity; [congruence|discriminate].
Qed.

(** The nil map cannot be stored into. *)
Lemma attachFolder_nil_map w :
  folderID <> EmptyString -> Http.attachFolder folderID None w = (Panic, w).
Proof.
  intros Hf. unfold Http.attachFolder. rewrite bool_decide_true by exact Hf.
  reflexivity.
Qed.

End AttachFolder.

Lemma attachFolder_trace folderID dashboard w :
  Http.attachFolder folderID dashboard w =
    ((Http.attachFolder folderID dashboard []).1, w).
Proof.
  unfold Http.attachFolder. case_bool_decide; [|reflexivity].
  destruct (eq_nil _ || eq_int _ 0); [|reflexivity].
  destruct dashboard; reflexivity.
Qed.



Lemma payload_no_folderId (dashboard : gomap) (m : gmap string value) :
  Http.payload dashboard = VMap (Some m) -> m !! "folderId" = None.
Proof. intros [= <-]. reflexivity. Qed.

(** When [attachFolder] returns, it has left the dashboard alone, or it has
    stored the folder ID in it; and it stores only with a folder and a
    "folderId" that the test of line 210 lets through. *)
Lemma attachFolder_Done folderID dashboard dashboard' w w' :
  Http.attachFolder folderID dashboard w = (Done dashboard', w') ->
  w' = w /\
  ((dashboard' = dashboard /\
    (folderID = EmptyString \/
     eq_nil (index dashboard "folderId") || eq_int (index dashboard "folderId") 0
       = false)) \/
   (folderID <> EmptyString /\
    eq_nil (index dashboard "folderId") || eq_int (index dashboard "folderId") 0
      = true /\
    exists g, dashboard = Some g /\
              dashboard' = Some (<["folderId" := VString folderID]> g))).
Proof.
  unfold Http.attachFolder. case_bool_decide as Hf.
  - destruct (eq_nil (index dashboard "folderId")
              || eq_int (index dashboard "folderId") 0) eqn:Htest.
    + destruct dashboard as [g|]; [|discriminate]. intros [= <- <-].
      split; [reflexivity|]. right. split; [exact Hf|]. split; [reflexivity|].
      exists g. split; reflexivity.
    + intros [= <- <-]. split; [reflexivity|]. left. split; [reflexivity|].
      right. reflexivity.
  - intros [= <- <-]. split; [reflexivity|]. left. split; [reflexivity|].
    left. destruct (decide (folderID = EmptyString)); [assumption|contradiction].
Qed.


Lemma eq_nil_or_eq_int_unset (v : value) :
  eq_nil v || eq_int v 0 = true -> unset_or_zero v.
Proof.
  destruct v; simpl; try discriminate; [intros _; exact I|].
  intros H. case_bool_decide; [assumption|discriminate].
Qed.

Section PushDashboards.

Context (cfg : config) (E : env).







End PushDashboards.






(** The test [== 0] of line 210 holds for an [int] only, and a decoded 0 is
    a [float64].  In the run above ([-folder=Engineering], resolved to 7)
    the file [memory.json], whose "folderId" is the number 0, is uploaded
    with that 0 still in place. *)
Example push_http_keeps_zero_folderId :
  requests (Http.pushDashboards (Runs.flags "push" "Engineering")
              (Script.world Runs.push_two) []).2 !! 2%nat =
    Some ("POST", "http://grafana/api/dashboards/db",
          Script.json "{'dashboard':{'folderId':0,'title':'Memory'},'overwrite':true}") /\
  Http.attachFolder "7" Runs.zero_dashboard [] = (Done Runs.zero_dashboard, []) /\
  index Runs.zero_dashboard "folderId" = VFloat64 0.
Proof. split; [vm_compute; reflexivity|]. split; reflexivity. Qed.

(** C10: in Push Dashboards of [main.go], with a target folder resolved,
    the folder step changes the dashboard of a file only if its "folderId"
    is absent (nil) or equal to 0; and a file whose decoded "folderId" is
    any other value is uploaded with the payload of the dashboard exactly as
    it was decoded.  (When the "folderId" is absent or null, the folder ID
    is stored, as a string.) *)
Theorem push_http_folderId_only_if_unset (cfg : config) (E : env)
  (dir folderID file : string) (rest : list string) (w : trace)
  (data : bytes) (dashboard : gomap) :
  folderID <> EmptyString ->
  filepath_Ext file = ".json" ->
  os_ReadFile E w (filepath_Join E [dir; file]) = Ok data ->
  json_Unmarshal_map E data = Ok dashboard ->
  (forall dashboard' w',
     Http.attachFolder folderID dashboard w = (Done dashboard', w') ->
     dashboard' <> dashboard ->
     unset_or_zero (index dashboard "folderId")) /\
  (~ unset_or_zero (index dashboard "folderId") ->
   Http.attachFolder folderID dashboard w = (Done dashboard, w) /\
   Http.pushDashboards_loop cfg E dir folderID (file :: rest) w =
     (Http.sendRequest cfg E "POST" (baseURL cfg +:+ "/api/dashboards/db")
        (ignore_err (json_Marshal E (Http.payload dashboard))) ;;
      Print ("Uploaded dashboard: " +:+ file +:+ nl) ;;
      Http.pushDashboards_loop cfg E dir folderID rest) w) /\
  (forall g,
     dashboard = Some g -> index dashboard "folderId" = VNil ->
     Http.attachFolder folderID dashboard w =
       (Done (Some (<["folderId" := VString folderID]> g)), w)).
Proof.
  intros Hf Hext Hread Hdec. split; [|split].
  - intros dashboard' w' Hrun Hne.
    destruct (attachFolder_Done _ _ _ _ _ Hrun)
      as [_ [[-> _]|(_ & Htest & _)]]; [contradiction|].
    apply eq_nil_or_eq_int_unset, Htest.
  - intros Hset.
    assert (Hkeep : Http.attachFolder folderID dashboard w = (Done dashboard, w)).
    { unfold Http.attachFolder. rewrite bool_decide_true by exact Hf.
      destruct (eq_nil (index dashboard "folderId")
                || eq_int (index dashboard "folderId") 0) eqn:Htest;
        [|reflexivity].
      exfalso. apply Hset, eq_nil_or_eq_int_unset, Htest. }
    split; [exact Hkeep|].
    simpl. rewrite bool_decide_true by exact Hext.
    unfold bind at 1. unfold peek. rewrite Hread, Hdec.
    unfold bind at 1. rewrite Hkeep. reflexivity.
  - intros g -> Hnil. apply attachFolder_absent; assumption.
Qed.

Lemma push_http_folderId_only_if_unset_witness :
  Http.attachFolder "7" Runs.kept_dashboard [] = (Done Runs.kept_dashboard, []) /\
  requests (Http.pushDashboards_loop (Runs.flags "push" "Engineering")
              (Script.world Runs.push_kept) "grafana_data/dashboards" "7"
              ["disk.json"] []).2 =
    [("POST", "http://grafana/api/dashboards/db",
      Script.json "{'dashboard':{'folderId':3,'title':'Disk'},'overwrite':true}")].
Proof.
  destruct (push_http_folderId_only_if_unset (Runs.flags "push" "Engineering")
              (Script.world Runs.push_kept) "grafana_data/dashboards" "7"
              "disk.json" [] [] Runs.kept_file Runs.kept_dashboard
              ltac:(discriminate) eq_refl eq_refl eq_refl)
    as [_ [Hkept _]].
  destruct Hkept as [Hstep Hrun].
  { intros H. vm_compute in H. discriminate H. }
  split; [exact Hstep|]. rewrite Hrun. vm_compute. reflexivity.
Defined.

(** ** Push of the list files *)

Section PushList.

Context (cfg : config) (E : env).

Lemma pushDatasources_decoded w data datasources :
  os_ReadFile E (w ++ [Stdout ("Pushing datasources..." +:+ nl)])
    (filepath_Join E [directory cfg; "datasources"; "datasources.json"]) = Ok data ->
  json_Unmarshal_maps E data = Ok datasources ->
  Http.pushDatasources cfg E w =
    Http.pushDatasources_loop cfg E datasources
      (w ++ [Stdout ("Pushing datasources..." +:+ nl)]).
Proof.
  intros Hread Hdec. unfold Http.pushDatasources.
  unfold bind at 1. unfold Println, emit.
  unfold bind at 1. unfold peek. rewrite Hread, Hdec. reflexivity.
Qed.

Lemma pushDatasources_loop_requests datasources w :
  exists o evs,
    Http.pushDatasources_loop cfg E datasources w = (o, w ++ evs) /\
    requests evs `prefix_of` datasource_posts cfg E datasources /\
    (o = Done tt -> requests evs = datasource_posts cfg E datasources) /\
    ((forall w' body, exists reply,
        served cfg E w' "POST" (baseURL cfg +:+ "/api/datasources") body reply) ->
     o = Done tt) /\
    (o <> Done tt -> o = Exit 1).
Proof.
  revert w. induction datasources as [|ds rest IH]; intros w.
  - exists (Done tt), []. simpl. rewrite app_nil_r.
    repeat split; auto. congruence.
  - simpl.
    set (body := ignore_err (json_Marshal E (VMap ds))).
    set (url := baseURL cfg +:+ "/api/datasources").
    destruct (served_or_refused cfg E "POST" url body w) as [[data Hs]|Hr].
    + unfold bind at 1. rewrite (sendRequest_served _ _ _ _ _ _ _ Hs).
      unfold bind at 1. unfold Print, emit.
      match goal with
      | |- context [Http.pushDatasources_loop _ _ _ ?w1] =>
          destruct (IH w1) as (o & evs & Heq & Hpre & Hall & Hok & Hexit)
      end.
      exists o, (HttpDo "POST" url (Http.headers cfg "POST") body
                 :: Stdout ("Uploaded datasource: "
                            +:+ fmt_s E (index ds "name") +:+ nl) :: evs).
      rewrite Heq. split; [f_equal; rewrite <- !app_assoc; reflexivity|].
      simpl. split; [apply prefix_cons, Hpre|].
      split; [intros Ho; f_equal; apply Hall, Ho|]. split; assumption.
    + destruct (sendRequest_refused cfg E _ _ _ _ Hr) as (evs & Heq & _ & Hpre).
      unfold bind at 1. rewrite Heq.
      exists (Exit 1), evs. split; [reflexivity|].
      split; [etransitivity; [exact Hpre|apply prefix_cons, prefix_nil]|].
      split; [discriminate|]. split; [|reflexivity].
      intros Hall. exfalso. destruct (Hall w body) as [data [Hnew (st & Hdo & Hlt)]].
      destruct Hr as [Hr|Hr]; [congruence|]. fold url in Hdo.
      rewrite Hdo in Hr. lia.
Qed.

End PushList.

Section PostLoop.

Context (cfg : config) (E : env) (url : string) (line : gomap -> string).
Context (loop : list gomap -> M unit).
Hypothesis loop_nil : loop [] = ret tt.
Hypothesis loop_cons : forall r rest,
  loop (r :: rest) =
    (Http.sendRequest cfg E "POST" url (ignore_err (json_Marshal E (VMap r))) ;;
     Print (line r) ;; loop rest).

(** A loop that posts its records one after the other stops at the first
    refusal. *)
Lemma post_loop_stops records w :
  stops_at_first_refusal cfg E url line records w
    (loop records w).1 (loop records w).2.
Proof.
  revert w. induction records as [|r tl IH]; intros w.
  - exists [], []. split; [reflexivity|]. split.
    + intros d1 x d2 Heq. destruct d1; discriminate Heq.
    + rewrite loop_nil. simpl. rewrite app_nil_r. split; reflexivity.
  - set (body := ignore_err (json_Marshal E (VMap r))).
    destruct (served_or_refused cfg E "POST" url body w) as [[data Hs]|Hr].
    + assert (Hstep : loop (r :: tl) w =
                loop tl (w ++ uploaded cfg E url line [r])).
      { rewrite loop_cons. fold body. unfold bind at 1.
        rewrite (sendRequest_served _ _ _ _ _ _ _ Hs).
        unfold bind at 1. unfold Print, emit. simpl.
        rewrite <- app_assoc. reflexivity. }
      rewrite Hstep.
      destruct (IH (w ++ uploaded cfg E url line [r]))
        as (done & rest & Hrec & Hserved & Hend).
      assert (Happ : forall d, (w ++ uploaded cfg E url line [r])
                               ++ uploaded cfg E url line d =
                               w ++ uploaded cfg E url line (r :: d)).
      { intros d. rewrite <- app_assoc. reflexivity. }
      exists (r :: done), rest. split; [simpl; f_equal; exact Hrec|]. split.
      * intros d1 x d2 Heq. destruct d1 as [|y d1].
        -- injection Heq as <- _. simpl. rewrite app_nil_r. eauto.
        -- injection Heq as <- Heq. rewrite <- (Happ d1). eapply Hserved, Heq.
      * rewrite <- (Happ done). exact Hend.
    + destruct (sendRequest_refused cfg E _ _ _ _ Hr) as (last & Heq & _ & Hpre).
      exists [], (r :: tl). split; [reflexivity|]. split.
      * intros d1 x d2 Hd. destruct d1; discriminate Hd.
      * simpl. rewrite app_nil_r. split; [exact Hr|].
        exists last. split; [exact Heq|]. split; [exact Hpre|].
        assert (Hrun : loop (r :: tl) w = (Exit 1, w ++ last))
          by (rewrite loop_cons; fold body; unfold bind at 1; rewrite Heq;
              reflexivity).
        rewrite Hrun. split; reflexivity.
Qed.

End PostLoop.

(** C6 (as amended): when the list file of datasources, of folders or of
    notification channels is read but does not decode, the push of that
    kind prints the error and returns without a request: the process is not
    ended, and what comes next still runs. *)
Theorem push_list_decode_failure (cfg : config) (E : env) (w : trace)
  (data : bytes) (err : error) :
  json_Unmarshal_maps E data = Err err ->
  (os_ReadFile E (w ++ [Stdout ("Pushing datasources..." +:+ nl)])
     (filepath_Join E [directory cfg; "datasources"; "datasources.json"]) = Ok data ->
   Http.pushDatasources cfg E w =
     (Done tt, w ++ [Stdout ("Pushing datasources..." +:+ nl);
                     Stdout ("Error unmarshalling datasources: " +:+ err +:+ nl)])) /\
  (os_ReadFile E (w ++ [Stdout ("Pushing folders..." +:+ nl)])
     (filepath_Join E [directory cfg; "folders"; "folders.json"]) = Ok data ->
   Http.pushFolders cfg E w =
     (Done tt, w ++ [Stdout ("Pushing folders..." +:+ nl);
                     Stdout ("Error unmarshalling folders: " +:+ err +:+ nl)])) /\
  (os_ReadFile E (w ++ [Stdout ("Pushing notification channels..." +:+ nl)])
     (filepath_Join E [directory cfg; "notifications"; "notifications.json"]) = Ok data ->
   Http.pushNotificationChannels cfg E w =
     (Done tt, w ++ [Stdout ("Pushing notification channels..." +:+ nl);
                     Stdout ("Error unmarshalling notifications: " +:+ err +:+ nl)])).
Proof.
  intros Hdec. repeat split; intros Hread.
  - unfold Http.pushDatasources. unfold bind at 1. unfold Println, emit.
    unfold bind at 1. unfold peek. rewrite Hread, Hdec.
    unfold Http.Println2, Println, emit. rewrite <- app_assoc. reflexivity.
  - unfold Http.pushFolders. unfold bind at 1. unfold Println, emit.
    unfold bind at 1. unfold peek. rewrite Hread, Hdec.
    unfold Http.Println2, Println, emit. rewrite <- app_assoc. reflexivity.
  - unfold Http.pushNotificationChannels. unfold bind at 1. unfold Println, emit.
    unfold bind at 1. unfold peek. rewrite Hread, Hdec.
    unfold Http.Println2, Println, emit. rewrite <- app_assoc. reflexivity.
Qed.

Lemma push_list_decode_failure_witness :
  Http.pushDatasources (Runs.flags "push" EmptyString)
    (Script.world Runs.push_garbage) [] =
    (Done tt, [Stdout ("Pushing datasources..." +:+ nl);
               Stdout ("Error unmarshalling datasources: invalid character" +:+ nl)]) /\
  Http.pushFolders (Runs.flags "push" EmptyString)
    (Script.world Runs.push_garbage) [] =
    (Done tt, [Stdout ("Pushing folders..." +:+ nl);
               Stdout ("Error unmarshalling folders: invalid character" +:+ nl)]) /\
  Http.pushNotificationChannels (Runs.flags "push" EmptyString)
    (Script.world Runs.push_garbage) [] =
    (Done tt, [Stdout ("Pushing notification channels..." +:+ nl);
               Stdout ("Error unmarshalling notifications: invalid character" +:+ nl)]).
Proof.
  pose proof (push_list_decode_failure (Runs.flags "push" EmptyString)
    (Script.world Runs.push_garbage) [] "<html>" "invalid character" eq_refl)
    as (H1 & H2 & H3).
  split; [exact (H1 eq_refl)|]. split; [exact (H2 eq_refl)|exact (H3 eq_refl)].
Defined.

(** [-action=push-datasources] with a list file that is not JSON: the
    process ends with exit code 0. *)
Lemma push_undecodable_list_exits_0 :
  Http.main (Runs.flags "push-datasources" EmptyString)
    (Script.world Runs.push_garbage) [] =
    (Done tt, [Stdout ("Pushing datasources..." +:+ nl);
               Stdout ("Error unmarshalling datasources: invalid character" +:+ nl)]) /\
  exit_code (Http.main (Runs.flags "push-datasources" EmptyString)
               (Script.world Runs.push_garbage) []).1 = 0.
Proof. split; vm_compute; reflexivity. Qed.

(** C7 (as amended): in the SDK version, Push Dashboards ends the process
    with exit code 1 when the dashboards directory cannot be listed.  In
    [main.go] the error of the listing is dropped: the folder is resolved
    when one is asked for, no file is uploaded, and the function returns. *)
Theorem push_unlisted_directory (cfg : config) (E : env) (w : trace) (err : error) :
  let started := w ++ [Stdout ("Pushing dashboards..." +:+ nl)] in
  os_ReadDir E started (filepath_Join E [directory cfg; "dashboards"]) = Err err ->
  Sdk.pushDashboards cfg E w =
    (Exit 1, started ++ [Stderr ("Error reading dashboard directory: " +:+ err)]) /\
  Http.pushDashboards cfg E w =
    (if bool_decide (folder cfg <> EmptyString)
     then Http.getFolderID cfg E (folder cfg) ;; ret tt
     else ret tt) started.
Proof.
  intros started Hdir. split.
  - unfold Sdk.pushDashboards. unfold bind at 1. unfold Println, emit.
    unfold bind at 1. unfold peek. fold started. rewrite Hdir.
    unfold log_Fatalf, bind, emit, os_Exit. reflexivity.
  - unfold Http.pushDashboards. unfold bind at 1. unfold Println, emit.
    unfold bind at 1. unfold peek. fold started. rewrite Hdir. simpl.
    case_bool_decide; reflexivity.
Qed.

Lemma push_unlisted_directory_witness :
  Sdk.pushDashboards (Runs.flags "push-dashboards" EmptyString)
    (Script.world Runs.no_script) [] =
    (Exit 1,
     [Stdout ("Pushing dashboards..." +:+ nl);
      Stderr "Error reading dashboard directory: no such file or directory"]) /\
  Http.pushDashboards (Runs.flags "push-dashboards" EmptyString)
    (Script.world Runs.no_script) [] =
    (Done tt, [Stdout ("Pushing dashboards..." +:+ nl)]).
Proof.
  exact (push_unlisted_directory (Runs.flags "push-dashboards" EmptyString)
           (Script.world Runs.no_script) [] "no such file or directory" eq_refl).
Defined.

(** [-action=push-dashboards] on [main.go] without a dashboards directory:
    the process ends with exit code 0. *)
Lemma push_http_unlisted_directory_exits_0 :
  os_ReadDir (Script.world Runs.no_script)
    [Stdout ("Pushing dashboards..." +:+ nl)] "grafana_data/dashboards" =
    Err "no such file or directory" /\
  Http.main (Runs.flags "push-dashboards" EmptyString)
    (Script.world Runs.no_script) [] =
    (Done tt, [Stdout ("Pushing dashboards..." +:+ nl)]) /\
  exit_code (Http.main (Runs.flags "push-dashboards" EmptyString)
               (Script.world Runs.no_script) []).1 = 0.
Proof. split; [reflexivity|]. split; vm_compute; reflexivity. Qed.

(** C8 (as amended): when [datasources.json] decodes to N records, Push
    Datasources sends POST requests to [/api/datasources] for the records in
    order, each with the record encoded again as its body, up to the first
    request that fails, which ends the process with exit code 1.  It sends
    all N, and returns, when every request is served.  The last part of the
    statement ([stops_at_first_refusal]) says where the run stops: every
    record before the first one whose request is refused was served and
    uploaded; the run ends in the call of [sendRequest] for that record, and
    nothing is sent for the records after it. *)
Theorem pushDatasources_posts (cfg : config) (E : env) (w : trace)
  (data : bytes) (records : list gomap) :
  os_ReadFile E (w ++ [Stdout ("Pushing datasources..." +:+ nl)])
    (filepath_Join E [directory cfg; "datasources"; "datasources.json"]) = Ok data ->
  json_Unmarshal_maps E data = Ok records ->
  exists o evs,
    Http.pushDatasources cfg E w = (o, w ++ evs) /\
    requests evs `prefix_of` datasource_posts cfg E records /\
    (o = Done tt -> requests evs = datasource_posts cfg E records) /\
    ((forall w' body, exists reply,
        served cfg E w' "POST" (baseURL cfg +:+ "/api/datasources") body reply) ->
     o = Done tt) /\
    (o <> Done tt -> o = Exit 1) /\
    stops_at_first_refusal cfg E (baseURL cfg +:+ "/api/datasources")
      (fun ds => "Uploaded datasource: " +:+ fmt_s E (index ds "name") +:+ nl)
      records (w ++ [Stdout ("Pushing datasources..." +:+ nl)]) o (w ++ evs).
Proof.
  intros Hread Hdec.
  destruct (pushDatasources_loop_requests cfg E records
              (w ++ [Stdout ("Pushing datasources..." +:+ nl)]))
    as (o & evs & Heq & Hpre & Hall & Hok & Hexit).
  exists o, (Stdout ("Pushing datasources..." +:+ nl) :: evs).
  split.
  { rewrite (pushDatasources_decoded cfg E w data records Hread Hdec), Heq.
    rewrite <- app_assoc. reflexivity. }
  do 4 (split; [assumption|]).
  pose proof (post_loop_stops cfg E (baseURL cfg +:+ "/api/datasources")
                (fun ds => "Uploaded datasource: "
                           +:+ fmt_s E (index ds "name") +:+ nl)
                (Http.pushDatasources_loop cfg E) eq_refl
                (fun _ _ => eq_refl) records
                (w ++ [Stdout ("Pushing datasources..." +:+ nl)])) as Hstop.
  rewrite Heq in Hstop. simpl in Hstop. rewrite <- app_assoc in Hstop.
  exact Hstop.
Qed.

Lemma pushDatasources_posts_witness :
  (Http.pushDatasources (Runs.flags "push" EmptyString)
     (Script.world (Runs.push_sources 200)) []).1 = Done tt /\
  requests (Http.pushDatasources (Runs.flags "push" EmptyString)
              (Script.world (Runs.push_sources 200)) []).2 =
    [("POST", "http://grafana/api/datasources",
      Script.json "{'name':'prometheus','type':'prometheus'}");
     ("POST", "http://grafana/api/datasources",
      Script.json "{'name':'loki','type':'loki'}")].
Proof.
  destruct (pushDatasources_posts (Runs.flags "push" EmptyString)
              (Script.world (Runs.push_sources 200)) [] Runs.sources_json
              Runs.sources eq_refl eq_refl)
    as (o & evs & Heq & _ & Hall & Hok & _).
  assert (Ho : o = Done tt).
  { apply Hok. intros w' body. exists "{}". split; [reflexivity|].
    exists 200. split; [reflexivity|lia]. }
  rewrite Heq. simpl. split; [exact Ho|]. rewrite (Hall Ho). reflexivity.
Defined.

(** Two datasources and a server that answers 409 (the datasource exists):
    one request is sent, not two, and the process ends with exit code 1. *)
Lemma push_datasources_stops_at_conflict :
  json_Unmarshal_maps (Script.world (Runs.push_sources 409)) Runs.sources_json =
    Ok Runs.sources /\
  length Runs.sources = 2%nat /\
  Http.pushDatasources (Runs.flags "push" EmptyString)
    (Script.world (Runs.push_sources 409)) [] =
    (Exit 1,
     [Stdout ("Pushing datasources..." +:+ nl);
      HttpDo "POST" "http://grafana/api/datasources"
        [("Authorization", "Bearer secret"); ("Content-Type", "application/json")]
        (Script.json "{'name':'prometheus','type':'prometheus'}");
      Stdout ("Error: http://grafana/api/datasources returned 409" +:+ nl)]).
Proof. split; [reflexivity|]. split; [reflexivity|]. vm_compute. reflexivity. Qed.

(** ** Footprints: the rules *)

Section Runs.

Context {A B : Type} (P : event -> Prop) (Q : option Z -> Prop).

Lemma runs_ret (R : A -> Prop) a : R a -> runs P Q R (ret a).
Proof.
  intros Ha w. exists []. simpl. rewrite app_nil_r. repeat split; [constructor|exact Ha].
Qed.

Lemma runs_os_Exit (R : A -> Prop) c : Q (Some c) -> runs P Q R (os_Exit c).
Proof.
  intros Hc w. exists []. simpl. rewrite app_nil_r. repeat split; [constructor|exact Hc].
Qed.

Lemma runs_panic (R : A -> Prop) : Q None -> runs P Q R panic.
Proof.
  intros Hc w. exists []. simpl. rewrite app_nil_r. repeat split; [constructor|exact Hc].
Qed.

Lemma runs_ask e (f : trace -> A) :
  P e -> runs P Q (fun a => exists w, a = f w) (ask e f).
Proof.
  intros He w. exists [e]. simpl. repeat split; [repeat constructor; exact He|eauto].
Qed.

Lemma runs_peek (f : trace -> A) : runs P Q (fun a => exists w, a = f w) (peek f).
Proof.
  intros w. exists []. simpl. rewrite app_nil_r. repeat split; [constructor|eauto].
Qed.

Lemma runs_bind (R : A -> Prop) (S : B -> Prop) (m : M A) (k : A -> M B) :
  runs P Q R m -> (forall a, R a -> runs P Q S (k a)) -> runs P Q S (bind m k).
Proof.
  intros Hm Hk w. destruct (Hm w) as (evs & Hw & Hevs & Hend).
  unfold bind. destruct (m w) as [[a|c|] w1] eqn:Hmw; simpl in *; subst w1.
  - destruct (Hk a Hend (w ++ evs)) as (evs' & Hw' & Hevs' & Hend').
    exists (evs ++ evs'). rewrite Hw', app_assoc. repeat split; [|exact Hend'].
    apply Forall_app. split; assumption.
  - exists evs. repeat split; assumption.
  - exists evs. repeat split; assumption.
Qed.

Lemma runs_weaken (P' : event -> Prop) (Q' : option Z -> Prop)
  (R R' : A -> Prop) (m : M A) :
  (forall e, P' e -> P e) -> (forall h, Q' h -> Q h) -> (forall a, R a -> R' a) ->
  runs P' Q' R m -> runs P Q R' m.
Proof.
  intros HP HQ HR Hm w. destruct (Hm w) as (evs & Hw & Hevs & Hend).
  exists evs. split; [assumption|]. split.
  - eapply Forall_impl; [exact Hevs|exact HP].
  - destruct (m w).1; auto.
Qed.

End Runs.

Lemma runs_emit (P : event -> Prop) (Q : option Z -> Prop) e :
  P e -> runs P Q any (emit e).
Proof.
  intros He w. exists [e]. simpl. split; [reflexivity|].
  split; [repeat constructor; exact He|exact I].
Qed.

(** One step of a footprint proof: a print, a return, an exit, or the head
    of a sequence. *)
Ltac run_print HP :=
  first [ apply runs_emit; apply HP
        | eapply runs_bind; [apply runs_emit; apply HP|intros _ _] ].

Section RunsHttp.

Context (cfg : config) (E : env) (P : event -> Prop) (Q : option Z -> Prop).
Hypothesis HP : forall s, P (Stdout s).
Hypothesis HQ : Q (Some 1).

Lemma runs_sendRequest method url body :
  P (HttpDo method url (Http.headers cfg method) body) ->
  runs P Q (fun data => exists w, served cfg E w method url body data)
       (Http.sendRequest cfg E method url body).
Proof.
  intros Hreq. unfold Http.sendRequest.
  destruct (http_NewRequest E method url) as [err|] eqn:Hnew.
  - unfold Http.Println2, Println. run_print HP. apply runs_os_Exit, HQ.
  - eapply runs_bind; [apply runs_ask, Hreq|].
    intros [[StatusCode data]|err] [w Hw].
    + case_bool_decide.
      * unfold Print. run_print HP. apply runs_os_Exit, HQ.
      * apply runs_ret. exists w. split; [exact Hnew|].
        exists StatusCode. split; [symmetry; exact Hw|lia].
    + unfold Http.Println2, Println. run_print HP. apply runs_os_Exit, HQ.
Qed.

Lemma runs_getFolderID folderName :
  P (HttpDo "GET" (baseURL cfg +:+ "/api/folders") (Http.headers cfg "GET") EmptyString) ->
  runs P Q (resolved_http E folderName) (Http.getFolderID cfg E folderName).
Proof.
  intros Hget. unfold Http.getFolderID. unfold Print. run_print HP.
  eapply runs_bind; [apply runs_sendRequest, Hget|].
  intros data _. destruct (json_Unmarshal_maps E data) as [folders|err] eqn:Hdec.
  - destruct (Http.getFolderID_scan E folderName folders) as [id|] eqn:Hscan.
    + apply runs_ret. exists data, folders. split; assumption.
    + run_print HP. apply runs_os_Exit, HQ.
  - unfold Http.Println2, Println. run_print HP. apply runs_os_Exit, HQ.
Qed.

End RunsHttp.

(** ** The footprint of a pull *)

Section RunsListPull.

Context (cfg : config) (E : env) (P : event -> Prop) (Q : option Z -> Prop).
Hypothesis HP : forall s, P (Stdout s).
Hypothesis HQ : Q (Some 1).
Hypothesis Hget : forall url,
  list_endpoint cfg url -> P (HttpDo "GET" url (Http.headers cfg "GET") EmptyString).
Hypothesis Hmk : forall p, data_dir cfg E p -> P (MkdirAll p).
Hypothesis Hwr : forall p d, list_saved cfg E p d -> P (WriteFile p d).

Lemma runs_list_datasources : runs P Q any (Http.pullDatasources cfg E).
Proof.
  unfold Http.pullDatasources, Println. run_print HP.
  eapply runs_bind.
  { apply runs_sendRequest; [exact HP|exact HQ|]. apply Hget. left. reflexivity. }
  intros data [w Hserved].
  eapply runs_bind; [apply runs_emit, Hmk; right; left; reflexivity|]. intros _ _.
  eapply runs_bind.
  { apply (runs_ask P). apply Hwr. left. split; [reflexivity|]. eauto. }
  intros [err|] _; unfold Http.Println2, Println; run_print HP.
Qed.

Lemma runs_list_folders : runs P Q any (Http.pullFolders cfg E).
Proof.
  unfold Http.pullFolders, Println. run_print HP.
  eapply runs_bind.
  { apply runs_sendRequest; [exact HP|exact HQ|].
    apply Hget. right. left. reflexivity. }
  intros data [w Hserved].
  eapply runs_bind; [apply runs_emit, Hmk; do 2 right; left; reflexivity|].
  intros _ _.
  eapply runs_bind.
  { apply (runs_ask P). apply Hwr. right. left. split; [reflexivity|]. eauto. }
  intros [err|] _; unfold Http.Println2, Println; run_print HP.
Qed.

Lemma runs_list_notifications :
  runs P Q any (Http.pullNotificationChannels cfg E).
Proof.
  unfold Http.pullNotificationChannels, Println. run_print HP.
  eapply runs_bind.
  { apply runs_sendRequest; [exact HP|exact HQ|].
    apply Hget. right. right. reflexivity. }
  intros data [w Hserved].
  eapply runs_bind; [apply runs_emit, Hmk; do 3 right; reflexivity|]. intros _ _.
  eapply runs_bind.
  { apply (runs_ask P). apply Hwr. right. right. split; [reflexivity|]. eauto. }
  intros [err|] _; unfold Http.Println2, Println; run_print HP.
Qed.

End RunsListPull.

Section PullFootprint.

Context (cfg : config) (E : env) (Q : option Z -> Prop).
Hypothesis HQ : Q (Some 1).

Let HP : forall s, pull_event cfg E (Stdout s) := fun _ => I.

Lemma pull_event_get url :
  list_endpoint cfg url \/
  url = search_url cfg \/
  (exists id, url = search_url cfg +:+ "&folderIds=" +:+ id) \/
  (exists uid, url = dashboard_url cfg uid) ->
  pull_event cfg E (HttpDo "GET" url (Http.headers cfg "GET") EmptyString).
Proof. intros Hurl. simpl. auto. Qed.

Lemma pull_event_list_get url :
  list_endpoint cfg url ->
  pull_event cfg E (HttpDo "GET" url (Http.headers cfg "GET") EmptyString).
Proof. intros Hurl. apply pull_event_get. left. exact Hurl. Qed.

Lemma pull_event_mkdir p : data_dir cfg E p -> pull_event cfg E (MkdirAll p).
Proof. intros Hp. exact Hp. Qed.

Lemma pull_event_list_saved p d :
  list_saved cfg E p d -> pull_event cfg E (WriteFile p d).
Proof. intros Hp. left. exact Hp. Qed.

Lemma runs_pullDashboards_loop data hits dashboards :
  json_Unmarshal_maps E data = Ok hits ->
  (forall db, In db dashboards -> In db hits) ->
  Q None ->
  runs (pull_event cfg E) Q any
       (Http.pullDashboards_loop cfg E
          (filepath_Join E [directory cfg; "dashboards"]) dashboards).
Proof.
  intros Hdec Hin HQp. induction dashboards as [|db rest IH]; simpl.
  - apply runs_ret. exact I.
  - assert (Hrest : forall db', In db' rest -> In db' hits)
      by (intros db' H; apply Hin; right; exact H).
    specialize (IH Hrest).
    eapply runs_bind with (R := fun uid => index db "uid" = VString uid).
    { unfold must_string. destruct (index db "uid"); simpl;
        try (apply runs_panic, HQp). apply runs_ret. reflexivity. }
    intros uid Huid.
    eapply runs_bind with (R := fun title => index db "title" = VString title).
    { unfold must_string. destruct (index db "title"); simpl;
        try (apply runs_panic, HQp). apply runs_ret. reflexivity. }
    intros title Htitle.
    eapply runs_bind.
    { apply runs_sendRequest; [exact HP|exact HQ|].
      apply pull_event_get. do 3 right. exists uid. reflexivity. }
    intros body [w Hserved].
    eapply runs_bind.
    { apply (runs_ask (pull_event cfg E)). right.
      exists data, hits. split; [exact Hdec|].
      exists db, uid, title, w. repeat split; try assumption.
      - apply Hin. left. reflexivity.
      - apply Hserved.
      - apply Hserved. }
    intros [err|] _; unfold Print; run_print HP; exact IH.
Qed.

Lemma runs_pullDashboards :
  Q None -> runs (pull_event cfg E) Q any (Http.pullDashboards cfg E).
Proof.
  intros HQp. unfold Http.pullDashboards, Println. run_print HP.
  eapply runs_bind
    with (R := fun url => url = search_url cfg \/
                          exists id, url = search_url cfg +:+ "&folderIds=" +:+ id).
  { case_bool_decide.
    - eapply runs_bind.
      { apply runs_getFolderID; [exact HP|exact HQ|].
        apply pull_event_list_get. right. left. reflexivity. }
      intros id _. apply runs_ret. right. exists id. reflexivity.
    - apply runs_ret. left. reflexivity. }
  intros url Hurl.
  eapply runs_bind.
  { apply runs_sendRequest; [exact HP|exact HQ|]. apply pull_event_get. tauto. }
  intros data _. destruct (json_Unmarshal_maps E data) as [dashboards|err] eqn:Hdec.
  - eapply runs_bind; [apply runs_emit; left; reflexivity|]. intros _ _.
    apply (runs_pullDashboards_loop data dashboards); auto.
  - unfold Http.Println2, Println. run_print HP.
Qed.

Lemma runs_pullDatasources :
  runs (pull_event cfg E) Q any (Http.pullDatasources cfg E).
Proof.
  apply runs_list_datasources;
    auto using pull_event_list_get, pull_event_mkdir, pull_event_list_saved.
Qed.

Lemma runs_pullFolders :
  runs (pull_event cfg E) Q any (Http.pullFolders cfg E).
Proof.
  apply runs_list_folders;
    auto using pull_event_list_get, pull_event_mkdir, pull_event_list_saved.
Qed.

Lemma runs_pullNotificationChannels :
  runs (pull_event cfg E) Q any (Http.pullNotificationChannels cfg E).
Proof.
  apply runs_list_notifications;
    auto using pull_event_list_get, pull_event_mkdir, pull_event_list_saved.
Qed.

Lemma runs_pullData :
  Q None -> runs (pull_event cfg E) Q any (Http.pullData cfg E).
Proof.
  intros HQp. unfold Http.pullData.
  eapply runs_bind; [apply runs_pullDashboards, HQp|]. intros _ _.
  eapply runs_bind; [apply runs_pullDatasources|]. intros _ _.
  eapply runs_bind; [apply runs_pullFolders|]. intros _ _.
  apply runs_pullNotificationChannels.
Qed.

End PullFootprint.

(** ** The footprint of a push *)

Section PushFootprint.

Context (cfg : config) (E : env) (Q : option Z -> Prop).
Hypothesis HQ : Q (Some 1).

Let HP : forall s, push_event cfg (Stdout s) := fun _ => I.

Lemma push_event_post url body :
  url = baseURL cfg +:+ "/api/dashboards/db" \/
  url = baseURL cfg +:+ "/api/datasources" \/
  url = baseURL cfg +:+ "/api/folders" \/
  url = baseURL cfg +:+ "/api/alert-notifications" ->
  push_event cfg (HttpDo "POST" url (Http.headers cfg "POST") body).
Proof. intros Hurl. simpl. right. auto. Qed.

Lemma runs_pushDashboards_loop dir folderID files :
  Q None ->
  runs (push_event cfg) Q any (Http.pushDashboards_loop cfg E dir folderID files).
Proof.
  intros HQp. induction files as [|file rest IH]; simpl.
  - apply runs_ret. exact I.
  - case_bool_decide; [|exact IH].
    eapply runs_bind; [apply runs_peek|]. intros [data|err] _.
    + destruct (json_Unmarshal_map E data) as [dashboard|err].
      * eapply runs_bind with (R := any).
        { unfold Http.attachFolder. case_bool_decide; [|apply runs_ret; exact I].
          destruct (eq_nil _ || eq_int _ 0); [|apply runs_ret; exact I].
          destruct dashboard; [apply runs_ret; exact I|apply runs_panic, HQp]. }
        intros dashboard' _.
        eapply runs_bind.
        { apply runs_sendRequest; [exact HP|exact HQ|].
          apply push_event_post. left. reflexivity. }
        intros _ _. unfold Print. run_print HP. exact IH.
      * unfold Print. run_print HP. exact IH.
    + unfold Print. run_print HP. exact IH.
Qed.

Lemma runs_pushDashboards :
  Q None -> runs (push_event cfg) Q any (Http.pushDashboards cfg E).
Proof.
  intros HQp. unfold Http.pushDashboards, Println. run_print HP.
  eapply runs_bind; [apply runs_peek|]. intros r _.
  eapply runs_bind with (R := any).
  { case_bool_decide.
    - eapply runs_weaken with (P' := push_event cfg) (Q' := Q)
                              (R := resolved_http E (folder cfg));
        [auto|auto|intros; exact I|].
      apply runs_getFolderID; [exact HP|exact HQ|]. simpl. left. auto.
    - apply runs_ret. exact I. }
  intros folderID _. apply runs_pushDashboards_loop, HQp.
Qed.

Lemma runs_pushDatasources :
  runs (push_event cfg) Q any (Http.pushDatasources cfg E).
Proof.
  unfold Http.pushDatasources, Println. run_print HP.
  eapply runs_bind; [apply runs_peek|]. intros [data|err] _.
  - destruct (json_Unmarshal_maps E data) as [datasources|err].
    + induction datasources as [|ds rest IH]; simpl; [apply runs_ret; exact I|].
      eapply runs_bind.
      { apply runs_sendRequest; [exact HP|exact HQ|].
        apply push_event_post. right. left. reflexivity. }
      intros _ _. unfold Print. run_print HP. exact IH.
    + unfold Http.Println2, Println. run_print HP.
  - unfold Http.Println2, Println. run_print HP.
Qed.

Lemma runs_pushFolders :
  runs (push_event cfg) Q any (Http.pushFolders cfg E).
Proof.
  unfold Http.pushFolders, Println. run_print HP.
  eapply runs_bind; [apply runs_peek|]. intros [data|err] _.
  - destruct (json_Unmarshal_maps E data) as [folders|err].
    + induction folders as [|f rest IH]; simpl; [apply runs_ret; exact I|].
      eapply runs_bind.
      { apply runs_sendRequest; [exact HP|exact HQ|].
        apply push_event_post. do 2 right. left. reflexivity. }
      intros _ _. unfold Print. run_print HP. exact IH.
    + unfold Http.Println2, Println. run_print HP.
  - unfold Http.Println2, Println. run_print HP.
Qed.

Lemma runs_pushNotificationChannels :
  runs (push_event cfg) Q any (Http.pushNotificationChannels cfg E).
Proof.
  unfold Http.pushNotificationChannels, Println. run_print HP.
  eapply runs_bind; [apply runs_peek|]. intros [data|err] _.
  - destruct (json_Unmarshal_maps E data) as [notifications|err].
    + induction notifications as [|nc rest IH]; simpl; [apply runs_ret; exact I|].
      eapply runs_bind.
      { apply runs_sendRequest; [exact HP|exact HQ|].
        apply push_event_post. do 3 right. reflexivity. }
      intros _ _. unfold Print. run_print HP. exact IH.
    + unfold Http.Println2, Println. run_print HP.
  - unfold Http.Println2, Println. run_print HP.
Qed.

Lemma runs_pushData :
  Q None -> runs (push_event cfg) Q any (Http.pushData cfg E).
Proof.
  intros HQp. unfold Http.pushData.
  eapply runs_bind; [apply runs_pushDashboards, HQp|]. intros _ _.
  eapply runs_bind; [apply runs_pushDatasources|]. intros _ _.
  eapply runs_bind; [apply runs_pushFolders|]. intros _ _.
  apply runs_pushNotificationChannels.
Qed.

End PushFootprint.

(** ** Whole runs of [main.go] *)

(** X1: whatever the server and the file system answer, a pull of all kinds
    by [main.go] only prints, sends GET requests without a body and with the
    bearer header alone to the endpoints it reads, calls [os.MkdirAll] on the
    four data directories and on no other path, and writes only the three
    list files, each with the body served for its list, and, for hits of the
    search, the path that [filepath.Join] makes of the dashboards directory
    and the hit's title followed by [.json], with the body served for the
    hit's UID.  The title is used unchecked, so that path need not lie
    inside the dashboards directory.  It never sends a POST. *)
Theorem pull_all_footprint (cfg : config) (E : env) (w : trace) :
  exists evs,
    (Http.pullData cfg E w).2 = w ++ evs /\ Forall (pull_event cfg E) evs.
Proof.
  destruct (runs_pullData cfg E (fun _ => True) I I w) as (evs & Heq & Hall & _).
  eauto.
Qed.

(** X2: whatever the server and the file system answer, a push of all kinds
    by [main.go] only prints, reads the folder list with a GET, and sends
    POST requests, with the bearer and the content type headers, to the
    four endpoints it writes.  It creates no directory and writes no file. *)
Theorem push_all_footprint (cfg : config) (E : env) (w : trace) :
  exists evs,
    (Http.pushData cfg E w).2 = w ++ evs /\ Forall (push_event cfg) evs.
Proof.
  destruct (runs_pushData cfg E (fun _ => True) I I w) as (evs & Heq & Hall & _).
  eauto.
Qed.

Lemma runs_main (cfg : config) (E : env) :
  runs (main_event cfg E) exit_1_or_panic any (Http.main cfg E).
Proof.
  assert (Hpull : forall m : M unit,
            runs (pull_event cfg E) exit_1_or_panic any m ->
            runs (main_event cfg E) exit_1_or_panic any m).
  { intros m. apply runs_weaken; auto. intros e He. left. exact He. }
  assert (Hpush : forall m : M unit,
            runs (push_event cfg) exit_1_or_panic any m ->
            runs (main_event cfg E) exit_1_or_panic any m).
  { intros m. apply runs_weaken; auto. intros e He. right. exact He. }
  assert (HP : forall s, main_event cfg E (Stdout s)) by (intros s; left; exact I).
  assert (H1 : exit_1_or_panic (Some 1)) by (left; reflexivity).
  assert (Hn : exit_1_or_panic None) by (right; reflexivity).
  unfold Http.main.
  destruct (bool_decide (apiKey cfg = EmptyString) || bool_decide (baseURL cfg = EmptyString)).
  { unfold Println. run_print HP. apply runs_os_Exit, H1. }
  cbv zeta.
  repeat (case_bool_decide;
          [first [ apply Hpull; first [ apply runs_pullDashboards
                                      | apply runs_pullDatasources
                                      | apply runs_pullFolders
                                      | apply runs_pullNotificationChannels
                                      | apply runs_pullData ]; assumption
                 | apply Hpush; first [ apply runs_pushDashboards
                                      | apply runs_pushDatasources
                                      | apply runs_pushFolders
                                      | apply runs_pushNotificationChannels
                                      | apply runs_pushData ]; assumption ]|]).
  unfold Println. run_print HP. apply runs_os_Exit, H1.
Qed.

Lemma write_all_trace (lines : list string) (w : trace) :
  write_all lines w = (Done tt, w ++ (Stderr <$> lines)).
Proof.
  revert w. induction lines as [|s rest IH]; intros w; simpl.
  - rewrite app_nil_r. reflexivity.
  - unfold bind, emit. rewrite IH, <- app_assoc. reflexivity.
Qed.

Lemma process_flags (main : config -> env -> M unit) (p : parsed) (E : env)
  (w : trace) :
  (let* cfg := flag_Parse p in main cfg E) w =
  match p with
  | Flags cfg => main cfg E w
  | Help usage => (Exit 0, w ++ (Stderr <$> usage))
  | BadFlags message => (Exit 2, w ++ (Stderr <$> message))
  end.
Proof.
  destruct p as [cfg|usage|message]; simpl; [reflexivity| |];
    unfold bind; rewrite write_all_trace; reflexivity.
Qed.

(** X3: [main.go] started on any command line, in any outside world.  When
    [flag.Parse] does not accept the command line, the process only writes
    to the standard error and ends with exit code 0 (help) or 2 (error).
    Otherwise everything it does is what a pull or a push may do
    ([pull_event], [push_event]): every request has the bearer header, a
    POST has the content type header as well, and nothing else; and the
    process returns from [main], or ends with exit code 1, or panics. *)
Theorem main_footprint (p : parsed) (E : env) (w : trace) :
  exists evs,
    (Http.process p E w).2 = w ++ evs /\
    match p with
    | Flags cfg =>
        Forall (main_event cfg E) evs /\
        ((Http.process p E w).1 = Done tt \/
         (Http.process p E w).1 = Exit 1 \/
         (Http.process p E w).1 = Panic)
    | Help usage => evs = Stderr <$> usage /\ (Http.process p E w).1 = Exit 0
    | BadFlags message =>
        evs = Stderr <$> message /\ (Http.process p E w).1 = Exit 2
    end.
Proof.
  unfold Http.process. rewrite (process_flags Http.main).
  destruct p as [cfg|usage|message]; [|eexists; split; [reflexivity|]; auto..].
  destruct (runs_main cfg E w) as (evs & Heq & Hall & Hend).
  exists evs. split; [exact Heq|]. split; [exact Hall|].
  destruct (Http.main cfg E w).1 as [[]|c|]; auto.
  destruct Hend as [[= ->]|[=]]. auto.
Qed.

(** ** The flags *)

(** X4: without an API key or without a URL, both versions print the same
    error and end with exit code 1 before anything else happens, whatever
    the action. *)
Theorem main_requires_credentials (cfg : config) (E : env) (w : trace) :
  apiKey cfg = EmptyString \/ baseURL cfg = EmptyString ->
  Http.main cfg E w =
    (Exit 1, w ++ [Stdout ("Error: apikey and url are required" +:+ nl)]) /\
  Sdk.main cfg E w =
    (Exit 1, w ++ [Stdout ("Error: apikey and url are required" +:+ nl)]).
Proof.
  intros Hmissing.
  assert (Htest : bool_decide (apiKey cfg = EmptyString)
                  || bool_decide (baseURL cfg = EmptyString) = true).
  { destruct Hmissing as [H|H]; rewrite (bool_decide_true _ H);
      [reflexivity|apply orb_true_r]. }
  unfold Http.main, Sdk.main. rewrite Htest. split; reflexivity.
Qed.

Lemma main_requires_credentials_witness :
  Http.main {| apiKey := EmptyString; baseURL := "http://grafana";
               directory := "grafana_data"; action := "pull";
               folder := EmptyString |}
    (Script.world Runs.pull_one) [] =
    (Exit 1, [Stdout ("Error: apikey and url are required" +:+ nl)]) /\
  Sdk.main {| apiKey := EmptyString; baseURL := "http://grafana";
              directory := "grafana_data"; action := "pull";
              folder := EmptyString |}
    (Script.world Runs.pull_one) [] =
    (Exit 1, [Stdout ("Error: apikey and url are required" +:+ nl)]).
Proof.
  exact (main_requires_credentials
           {| apiKey := EmptyString; baseURL := "http://grafana";
              directory := "grafana_data"; action := "pull";
              folder := EmptyString |}
           (Script.world Runs.pull_one) [] (or_introl eq_refl)).
Defined.

(** X5: with both credentials and an action that is none of the ten known
    ones, [main] prints the list of actions and ends with exit code 1; no
    request is sent and no file is touched.  The SDK version does the same
    once its client is created. *)
Theorem main_unknown_action (cfg : config) (E : env) (w : trace) :
  apiKey cfg <> EmptyString -> baseURL cfg <> EmptyString ->
  ~ In (action cfg) actions ->
  Http.main cfg E w = (Exit 1, w ++ [Stdout (Http.usage +:+ nl)]) /\
  (sdk_NewClient E (baseURL cfg) (apiKey cfg) = true ->
   Sdk.main cfg E w = (Exit 1, w ++ [Stdout (Http.usage +:+ nl)])).
Proof.
  intros Hkey Hurl Hnot.
  assert (Htest : bool_decide (apiKey cfg = EmptyString)
                  || bool_decide (baseURL cfg = EmptyString) = false).
  { rewrite (bool_decide_false _ Hkey), (bool_decide_false _ Hurl). reflexivity. }
  split.
  - unfold Http.main. rewrite Htest. clear Htest. cbv zeta.
    repeat (case_bool_decide as Ha;
            [exfalso; apply Hnot; rewrite Ha; unfold actions;
             repeat first [left; reflexivity|right]|clear Ha]).
    reflexivity.
  - intros Hclient. unfold Sdk.main. rewrite Htest, Hclient. clear Htest.
    cbv zeta. simpl negb. cbv iota.
    repeat (case_bool_decide as Ha;
            [exfalso; apply Hnot; rewrite Ha; unfold actions;
             repeat first [left; reflexivity|right]|clear Ha]).
    reflexivity.
Qed.

Lemma main_unknown_action_witness :
  Http.main (Runs.flags "sync" EmptyString) (Script.world Runs.no_script) [] =
    (Exit 1, [Stdout (Http.usage +:+ nl)]) /\
  Sdk.main (Runs.flags "sync" EmptyString) (Script.world Runs.no_script) [] =
    (Exit 1, [Stdout (Http.usage +:+ nl)]).
Proof.
  assert (Hnot : ~ In "sync" actions).
  { unfold actions. simpl. intros H.
    repeat (destruct H as [H|H]; [discriminate H|]). exact H. }
  destruct (main_unknown_action (Runs.flags "sync" EmptyString)
              (Script.world Runs.no_script) [])
    as [Hhttp Hsdk]; [discriminate|discriminate|exact Hnot|].
  split; [exact Hhttp|exact (Hsdk eq_refl)].
Defined.

(** ** Pull of the list endpoints *)

Lemma sendRequest_refused_events (cfg : config) (E : env) method url body w :
  refused cfg E w method url body ->
  exists msg,
    Http.sendRequest cfg E method url body w = (Exit 1, w ++ [Stdout msg]) \/
    Http.sendRequest cfg E method url body w =
      (Exit 1, w ++ [HttpDo method url (Http.headers cfg method) body; Stdout msg]).
Proof.
  intros Href. unfold Http.sendRequest.
  destruct (http_NewRequest E method url) as [err|] eqn:Hnew.
  - eexists. left. reflexivity.
  - destruct Href as [Href|Href]; [congruence|]. unfold bind, ask. revert Href.
    destruct (client_Do E w method url (Http.headers cfg method) body)
      as [[StatusCode data]|err]; intros Href.
    + rewrite bool_decide_true by exact Href. eexists. right.
      simpl. rewrite <- app_assoc. reflexivity.
    + eexists. right. simpl. rewrite <- app_assoc. reflexivity.
Qed.

(** One list pull, given its request is served: the proof is the same for
    the three functions. *)
Ltac pull_list_served Hserved :=
  unfold bind at 1; unfold Println, emit;
  unfold bind at 1; rewrite (sendRequest_served _ _ _ _ _ _ _ Hserved);
  unfold bind at 1; unfold emit;
  unfold bind, Http.saveToFile, ask;
  match goal with
  | |- context [os_WriteFile ?E ?t ?p ?d] =>
      match goal with
      | |- _ = (_, ?t' ++ _) =>
          replace t with t' by (rewrite <- !app_assoc; reflexivity)
      end
  end;
  match goal with
  | |- context [os_WriteFile ?E ?t ?p ?d] => destruct (os_WriteFile E t p d)
  end;
  unfold Http.Println2, Println, emit; rewrite <- app_assoc; reflexivity.

(** X6: when its GET is served, each of the three list pulls creates its
    directory and writes the body it received, byte for byte, to its one
    file ([datasources/datasources.json], [folders/folders.json],
    [notifications/notifications.json]); it returns whether or not the
    write worked, and prints which it was. *)
Theorem pull_list_saves_body (cfg : config) (E : env) (w : trace) (data : bytes) :
  (let started := w ++ [Stdout ("Pulling datasources..." +:+ nl)] in
   let dir := filepath_Join E [directory cfg; "datasources"] in
   let file := filepath_Join E [dir; "datasources.json"] in
   let fetched :=
     started ++ [HttpDo "GET" (baseURL cfg +:+ "/api/datasources") [bearer cfg] EmptyString;
                 MkdirAll dir] in
   served cfg E started "GET" (baseURL cfg +:+ "/api/datasources") EmptyString data ->
   Http.pullDatasources cfg E w =
     (Done tt,
      fetched ++
      [WriteFile file data;
       Stdout (match os_WriteFile E fetched file data with
               | Some err => ("Error saving datasources:" +:+ " " +:+ err) +:+ nl
               | None => "Saved datasources" +:+ nl
               end)])) /\
  (let started := w ++ [Stdout ("Pulling folders..." +:+ nl)] in
   let dir := filepath_Join E [directory cfg; "folders"] in
   let file := filepath_Join E [dir; "folders.json"] in
   let fetched :=
     started ++ [HttpDo "GET" (baseURL cfg +:+ "/api/folders") [bearer cfg] EmptyString;
                 MkdirAll dir] in
   served cfg E started "GET" (baseURL cfg +:+ "/api/folders") EmptyString data ->
   Http.pullFolders cfg E w =
     (Done tt,
      fetched ++
      [WriteFile file data;
       Stdout (match os_WriteFile E fetched file data with
               | Some err => ("Error saving folders:" +:+ " " +:+ err) +:+ nl
               | None => "Saved folders" +:+ nl
               end)])) /\
  (let started := w ++ [Stdout ("Pulling notification channels..." +:+ nl)] in
   let dir := filepath_Join E [directory cfg; "notifications"] in
   let file := filepath_Join E [dir; "notifications.json"] in
   let fetched :=
     started ++ [HttpDo "GET" (baseURL cfg +:+ "/api/alert-notifications") [bearer cfg] EmptyString;
                 MkdirAll dir] in
   served cfg E started "GET" (baseURL cfg +:+ "/api/alert-notifications") EmptyString data ->
   Http.pullNotificationChannels cfg E w =
     (Done tt,
      fetched ++
      [WriteFile file data;
       Stdout (match os_WriteFile E fetched file data with
               | Some err => ("Error saving notification channels:" +:+ " " +:+ err) +:+ nl
               | None => "Saved notification channels" +:+ nl
               end)])).
Proof.
  cbv zeta. repeat split; intros Hserved.
  - unfold Http.pullDatasources. pull_list_served Hserved.
  - unfold Http.pullFolders. pull_list_served Hserved.
  - unfold Http.pullNotificationChannels. pull_list_served Hserved.
Qed.

Lemma pull_list_saves_body_witness :
  Http.pullDatasources (Runs.flags "pull-datasources" EmptyString)
    (Script.world Runs.pull_lists) [] =
    (Done tt,
     [Stdout ("Pulling datasources..." +:+ nl);
      HttpDo "GET" "http://grafana/api/datasources"
        [("Authorization", "Bearer secret")] EmptyString;
      MkdirAll "grafana_data/datasources";
      WriteFile "grafana_data/datasources/datasources.json" Runs.sources_json;
      Stdout ("Saved datasources" +:+ nl)]) /\
  Http.pullFolders (Runs.flags "pull-folders" EmptyString)
    (Script.world Runs.pull_lists) [] =
    (Done tt,
     [Stdout ("Pulling folders..." +:+ nl);
      HttpDo "GET" "http://grafana/api/folders"
        [("Authorization", "Bearer secret")] EmptyString;
      MkdirAll "grafana_data/folders";
      WriteFile "grafana_data/folders/folders.json" Runs.folders_json;
      Stdout ("Saved folders" +:+ nl)]) /\
  Http.pullNotificationChannels (Runs.flags "pull-notifications" EmptyString)
    (Script.world Runs.pull_lists) [] =
    (Done tt,
     [Stdout ("Pulling notification channels..." +:+ nl);
      HttpDo "GET" "http://grafana/api/alert-notifications"
        [("Authorization", "Bearer secret")] EmptyString;
      MkdirAll "grafana_data/notifications";
      WriteFile "grafana_data/notifications/notifications.json" Runs.channels_json;
      Stdout ("Saved notification channels" +:+ nl)]).
Proof.
  split; [|split].
  - refine (proj1 (pull_list_saves_body (Runs.flags "pull-datasources" EmptyString)
      (Script.world Runs.pull_lists) [] Runs.sources_json) _).
    split; [reflexivity|]. exists 200. split; [reflexivity|lia].
  - refine (proj1 (proj2 (pull_list_saves_body
      (Runs.flags "pull-folders" EmptyString)
      (Script.world Runs.pull_lists) [] Runs.folders_json)) _).
    split; [reflexivity|]. exists 200. split; [reflexivity|lia].
  - refine (proj2 (proj2 (pull_list_saves_body
      (Runs.flags "pull-notifications" EmptyString)
      (Script.world Runs.pull_lists) [] Runs.channels_json)) _).
    split; [reflexivity|]. exists 200. split; [reflexivity|lia].
Defined.

(** One list pull, given its request is refused. *)
Ltac pull_list_refused Hrefused :=
  let msg := fresh "msg" in
  let Heq := fresh "Heq" in
  destruct (sendRequest_refused_events _ _ _ _ _ _ Hrefused) as [msg [Heq|Heq]];
  eexists; (split; [unfold bind at 1; unfold Println, emit; unfold bind at 1;
                    rewrite Heq; rewrite <- app_assoc; reflexivity|]);
  repeat constructor.

(** X7: when its GET fails (the request cannot be made, or the status is
    400 or more), a list pull ends the process with exit code 1 before it
    creates a directory or writes a file: an earlier copy of the list
    stays as it is. *)
Theorem pull_list_refused_is_fatal (cfg : config) (E : env) (w : trace) :
  (refused cfg E (w ++ [Stdout ("Pulling datasources..." +:+ nl)]) "GET"
     (baseURL cfg +:+ "/api/datasources") EmptyString ->
   exists evs,
     Http.pullDatasources cfg E w = (Exit 1, w ++ evs) /\
     Forall touches_no_file evs) /\
  (refused cfg E (w ++ [Stdout ("Pulling folders..." +:+ nl)]) "GET"
     (baseURL cfg +:+ "/api/folders") EmptyString ->
   exists evs,
     Http.pullFolders cfg E w = (Exit 1, w ++ evs) /\
     Forall touches_no_file evs) /\
  (refused cfg E (w ++ [Stdout ("Pulling notification channels..." +:+ nl)]) "GET"
     (baseURL cfg +:+ "/api/alert-notifications") EmptyString ->
   exists evs,
     Http.pullNotificationChannels cfg E w = (Exit 1, w ++ evs) /\
     Forall touches_no_file evs).
Proof.
  repeat split; intros Hrefused.
  - unfold Http.pullDatasources. pull_list_refused Hrefused.
  - unfold Http.pullFolders. pull_list_refused Hrefused.
  - unfold Http.pullNotificationChannels. pull_list_refused Hrefused.
Qed.

Lemma pull_list_refused_is_fatal_witness :
  (exists evs,
     Http.pullDatasources (Runs.flags "pull" EmptyString)
       (Script.world Runs.no_script) [] = (Exit 1, [] ++ evs) /\
     Forall touches_no_file evs) /\
  (exists evs,
     Http.pullFolders (Runs.flags "pull" EmptyString)
       (Script.world Runs.no_script) [] = (Exit 1, [] ++ evs) /\
     Forall touches_no_file evs) /\
  (exists evs,
     Http.pullNotificationChannels (Runs.flags "pull" EmptyString)
       (Script.world Runs.no_script) [] = (Exit 1, [] ++ evs) /\
     Forall touches_no_file evs).
Proof.
  destruct (pull_list_refused_is_fatal (Runs.flags "pull" EmptyString)
              (Script.world Runs.no_script) []) as (H1 & H2 & H3).
  split; [|split]; [apply H1|apply H2|apply H3]; right; exact I.
Defined.

(** ** Push of the list files, the other paths *)

(** X8: when its list file cannot be read, the push of datasources, of
    folders or of notification channels prints the error and returns: no
    request is sent, and the process goes on. *)
Theorem push_list_unreadable (cfg : config) (E : env) (w : trace) (err : error) :
  (os_ReadFile E (w ++ [Stdout ("Pushing datasources..." +:+ nl)])
     (filepath_Join E [directory cfg; "datasources"; "datasources.json"]) = Err err ->
   Http.pushDatasources cfg E w =
     (Done tt, w ++ [Stdout ("Pushing datasources..." +:+ nl);
                     Stdout ("Error reading datasources file: " +:+ err +:+ nl)])) /\
  (os_ReadFile E (w ++ [Stdout ("Pushing folders..." +:+ nl)])
     (filepath_Join E [directory cfg; "folders"; "folders.json"]) = Err err ->
   Http.pushFolders cfg E w =
     (Done tt, w ++ [Stdout ("Pushing folders..." +:+ nl);
                     Stdout ("Error reading folders file: " +:+ err +:+ nl)])) /\
  (os_ReadFile E (w ++ [Stdout ("Pushing notification channels..." +:+ nl)])
     (filepath_Join E [directory cfg; "notifications"; "notifications.json"]) = Err err ->
   Http.pushNotificationChannels cfg E w =
     (Done tt, w ++ [Stdout ("Pushing notification channels..." +:+ nl);
                     Stdout ("Error reading notifications file: " +:+ err +:+ nl)])).
Proof.
  repeat split; intros Hread.
  - unfold Http.pushDatasources. unfold bind at 1. unfold Println, emit.
    unfold bind at 1. unfold peek. rewrite Hread.
    unfold Http.Println2, Println, emit. rewrite <- app_assoc. reflexivity.
  - unfold Http.pushFolders. unfold bind at 1. unfold Println, emit.
    unfold bind at 1. unfold peek. rewrite Hread.
    unfold Http.Println2, Println, emit. rewrite <- app_assoc. reflexivity.
  - unfold Http.pushNotificationChannels. unfold bind at 1. unfold Println, emit.
    unfold bind at 1. unfold peek. rewrite Hread.
    unfold Http.Println2, Println, emit. rewrite <- app_assoc. reflexivity.
Qed.

Lemma push_list_unreadable_witness :
  Http.pushData (Runs.flags "push" EmptyString) (Script.world Runs.no_script) [] =
  (Done tt,
   [Stdout ("Pushing dashboards..." +:+ nl);
    Stdout ("Pushing datasources..." +:+ nl);
    Stdout ("Error reading datasources file: no such file or directory" +:+ nl);
    Stdout ("Pushing folders..." +:+ nl);
    Stdout ("Error reading folders file: no such file or directory" +:+ nl);
    Stdout ("Pushing notification channels..." +:+ nl);
    Stdout ("Error reading notifications file: no such file or directory" +:+ nl)]).
Proof.
  unfold Http.pushData.
  erewrite bind_Done by (vm_compute; reflexivity).
  erewrite bind_Done
    by exact (proj1 (push_list_unreadable (Runs.flags "push" EmptyString)
                (Script.world Runs.no_script) _ _) eq_refl).
  erewrite bind_Done
    by exact (proj1 (proj2 (push_list_unreadable (Runs.flags "push" EmptyString)
                (Script.world Runs.no_script) _ _)) eq_refl).
  exact (proj2 (proj2 (push_list_unreadable (Runs.flags "push" EmptyString)
           (Script.world Runs.no_script) _ _)) eq_refl).
Defined.

Section PushOthers.

Context (cfg : config) (E : env).

Lemma pushFolders_loop_requests folders w :
  exists o evs,
    Http.pushFolders_loop cfg E folders w = (o, w ++ evs) /\
    requests evs `prefix_of` folder_posts cfg E folders /\
    (o = Done tt -> requests evs = folder_posts cfg E folders) /\
    ((forall w' body, exists reply,
        served cfg E w' "POST" (baseURL cfg +:+ "/api/folders") body reply) ->
     o = Done tt) /\
    (o <> Done tt -> o = Exit 1).
Proof.
  revert w. induction folders as [|ds rest IH]; intros w.
  - exists (Done tt), []. simpl. rewrite app_nil_r.
    repeat split; auto. congruence.
  - simpl.
    set (body := ignore_err (json_Marshal E (VMap ds))).
    set (url := baseURL cfg +:+ "/api/folders").
    destruct (served_or_refused cfg E "POST" url body w) as [[data Hs]|Hr].
    + unfold bind at 1. rewrite (sendRequest_served _ _ _ _ _ _ _ Hs).
      unfold bind at 1. unfold Print, emit.
      match goal with
      | |- context [Http.pushFolders_loop _ _ _ ?w1] =>
          destruct (IH w1) as (o & evs & Heq & Hpre & Hall & Hok & Hexit)
      end.
      exists o, (HttpDo "POST" url (Http.headers cfg "POST") body
                 :: Stdout ("Uploaded folder: "
                            +:+ fmt_s E (index ds "title") +:+ nl) :: evs).
      rewrite Heq. split; [f_equal; rewrite <- !app_assoc; reflexivity|].
      simpl. split; [apply prefix_cons, Hpre|].
      split; [intros Ho; f_equal; apply Hall, Ho|]. split; assumption.
    + destruct (sendRequest_refused cfg E _ _ _ _ Hr) as (evs & Heq & _ & Hpre).
      unfold bind at 1. rewrite Heq.
      exists (Exit 1), evs. split; [reflexivity|].
      split; [etransitivity; [exact Hpre|apply prefix_cons, prefix_nil]|].
      split; [discriminate|]. split; [|reflexivity].
      intros Hall. exfalso. destruct (Hall w body) as [data [Hnew (st & Hdo & Hlt)]].
      destruct Hr as [Hr|Hr]; [congruence|]. fold url in Hdo.
      rewrite Hdo in Hr. lia.
Qed.

Lemma pushNotificationChannels_loop_requests notifications w :
  exists o evs,
    Http.pushNotificationChannels_loop cfg E notifications w = (o, w ++ evs) /\
    requests evs `prefix_of` notification_posts cfg E notifications /\
    (o = Done tt -> requests evs = notification_posts cfg E notifications) /\
    ((forall w' body, exists reply,
        served cfg E w' "POST" (baseURL cfg +:+ "/api/alert-notifications")
          body reply) ->
     o = Done tt) /\
    (o <> Done tt -> o = Exit 1).
Proof.
  revert w. induction notifications as [|ds rest IH]; intros w.
  - exists (Done tt), []. simpl. rewrite app_nil_r.
    repeat split; auto. congruence.
  - simpl.
    set (body := ignore_err (json_Marshal E (VMap ds))).
    set (url := baseURL cfg +:+ "/api/alert-notifications").
    destruct (served_or_refused cfg E "POST" url body w) as [[data Hs]|Hr].
    + unfold bind at 1. rewrite (sendRequest_served _ _ _ _ _ _ _ Hs).
      unfold bind at 1. unfold Print, emit.
      match goal with
      | |- context [Http.pushNotificationChannels_loop _ _ _ ?w1] =>
          destruct (IH w1) as (o & evs & Heq & Hpre & Hall & Hok & Hexit)
      end.
      exists o, (HttpDo "POST" url (Http.headers cfg "POST") body
                 :: Stdout ("Uploaded notification channel: "
                            +:+ fmt_s E (index ds "name") +:+ nl) :: evs).
      rewrite Heq. split; [f_equal; rewrite <- !app_assoc; reflexivity|].
      simpl. split; [apply prefix_cons, Hpre|].
      split; [intros Ho; f_equal; apply Hall, Ho|]. split; assumption.
    + destruct (sendRequest_refused cfg E _ _ _ _ Hr) as (evs & Heq & _ & Hpre).
      unfold bind at 1. rewrite Heq.
      exists (Exit 1), evs. split; [reflexivity|].
      split; [etransitivity; [exact Hpre|apply prefix_cons, prefix_nil]|].
      split; [discriminate|]. split; [|reflexivity].
      intros Hall. exfalso. destruct (Hall w body) as [data [Hnew (st & Hdo & Hlt)]].
      destruct Hr as [Hr|Hr]; [congruence|]. fold url in Hdo.
      rewrite Hdo in Hr. lia.
Qed.

End PushOthers.

(** X9: when [folders.json] decodes to N records, Push Folders sends POST
    requests to [/api/folders] for the records in order, each with the
    record encoded again as its body, up to the first request that fails,
    which ends the process with exit code 1; it sends all N, and returns,
    when every request is served.  The last part of the statement
    ([stops_at_first_refusal]) says where the run stops: every record
    before the first one whose request is refused was served and uploaded;
    the run ends in the call of [sendRequest] for that record, and nothing
    is sent for the records after it. *)
Theorem pushFolders_posts (cfg : config) (E : env) (w : trace)
  (data : bytes) (records : list gomap) :
  os_ReadFile E (w ++ [Stdout ("Pushing folders..." +:+ nl)])
    (filepath_Join E [directory cfg; "folders"; "folders.json"]) = Ok data ->
  json_Unmarshal_maps E data = Ok records ->
  exists o evs,
    Http.pushFolders cfg E w = (o, w ++ evs) /\
    requests evs `prefix_of` folder_posts cfg E records /\
    (o = Done tt -> requests evs = folder_posts cfg E records) /\
    ((forall w' body, exists reply,
        served cfg E w' "POST" (baseURL cfg +:+ "/api/folders") body reply) ->
     o = Done tt) /\
    (o <> Done tt -> o = Exit 1) /\
    stops_at_first_refusal cfg E (baseURL cfg +:+ "/api/folders")
      (fun folder => "Uploaded folder: " +:+ fmt_s E (index folder "title") +:+ nl)
      records (w ++ [Stdout ("Pushing folders..." +:+ nl)]) o (w ++ evs).
Proof.
  intros Hread Hdec.
  destruct (pushFolders_loop_requests cfg E records
              (w ++ [Stdout ("Pushing folders..." +:+ nl)]))
    as (o & evs & Heq & Hpre & Hall & Hok & Hexit).
  exists o, (Stdout ("Pushing folders..." +:+ nl) :: evs).
  split.
  { unfold Http.pushFolders. unfold bind at 1. unfold Println, emit.
    unfold bind at 1. unfold peek. rewrite Hread, Hdec, Heq.
    rewrite <- app_assoc. reflexivity. }
  do 4 (split; [assumption|]).
  pose proof (post_loop_stops cfg E (baseURL cfg +:+ "/api/folders")
                (fun folder => "Uploaded folder: "
                               +:+ fmt_s E (index folder "title") +:+ nl)
                (Http.pushFolders_loop cfg E) eq_refl
                (fun _ _ => eq_refl) records
                (w ++ [Stdout ("Pushing folders..." +:+ nl)])) as Hstop.
  rewrite Heq in Hstop. simpl in Hstop. rewrite <- app_assoc in Hstop.
  exact Hstop.
Qed.

Lemma pushFolders_posts_witness :
  (Http.pushFolders (Runs.flags "push" EmptyString)
     (Script.world Runs.push_lists) []).1 = Done tt /\
  requests (Http.pushFolders (Runs.flags "push" EmptyString)
              (Script.world Runs.push_lists) []).2 =
    [("POST", "http://grafana/api/folders",
      Script.json "{'id':7,'title':'Engineering'}")].
Proof.
  destruct (pushFolders_posts (Runs.flags "push" EmptyString)
              (Script.world Runs.push_lists) [] Runs.folders_json
              Runs.folders_list eq_refl eq_refl)
    as (o & evs & Heq & _ & Hall & Hok & _).
  assert (Ho : o = Done tt).
  { apply Hok. intros w' body. exists "{}". split; [reflexivity|].
    exists 200. split; [reflexivity|lia]. }
  rewrite Heq. simpl. split; [exact Ho|]. rewrite (Hall Ho). reflexivity.
Defined.

(** X10: when [notifications.json] decodes to N records, Push Notification
    Channels sends POST requests to [/api/alert-notifications] for the
    records in order, each with the record encoded again as its body, up to
    the first request that fails, which ends the process with exit code 1;
    it sends all N, and returns, when every request is served.  The last
    part of the statement ([stops_at_first_refusal]) says where the run
    stops: every record before the first one whose request is refused was
    served and uploaded; the run ends in the call of [sendRequest] for that
    record, and nothing is sent for the records after it. *)
Theorem pushNotificationChannels_posts (cfg : config) (E : env) (w : trace)
  (data : bytes) (records : list gomap) :
  os_ReadFile E (w ++ [Stdout ("Pushing notification channels..." +:+ nl)])
    (filepath_Join E [directory cfg; "notifications"; "notifications.json"]) =
    Ok data ->
  json_Unmarshal_maps E data = Ok records ->
  exists o evs,
    Http.pushNotificationChannels cfg E w = (o, w ++ evs) /\
    requests evs `prefix_of` notification_posts cfg E records /\
    (o = Done tt -> requests evs = notification_posts cfg E records) /\
    ((forall w' body, exists reply,
        served cfg E w' "POST" (baseURL cfg +:+ "/api/alert-notifications")
          body reply) ->
     o = Done tt) /\
    (o <> Done tt -> o = Exit 1) /\
    stops_at_first_refusal cfg E (baseURL cfg +:+ "/api/alert-notifications")
      (fun nc => "Uploaded notification channel: "
                 +:+ fmt_s E (index nc "name") +:+ nl)
      records (w ++ [Stdout ("Pushing notification channels..." +:+ nl)])
      o (w ++ evs).
Proof.
  intros Hread Hdec.
  destruct (pushNotificationChannels_loop_requests cfg E records
              (w ++ [Stdout ("Pushing notification channels..." +:+ nl)]))
    as (o & evs & Heq & Hpre & Hall & Hok & Hexit).
  exists o, (Stdout ("Pushing notification channels..." +:+ nl) :: evs).
  split.
  { unfold Http.pushNotificationChannels. unfold bind at 1. unfold Println, emit.
    unfold bind at 1. unfold peek. rewrite Hread, Hdec, Heq.
    rewrite <- app_assoc. reflexivity. }
  do 4 (split; [assumption|]).
  pose proof (post_loop_stops cfg E (baseURL cfg +:+ "/api/alert-notifications")
                (fun nc => "Uploaded notification channel: "
                           +:+ fmt_s E (index nc "name") +:+ nl)
                (Http.pushNotificationChannels_loop cfg E) eq_refl
                (fun _ _ => eq_refl) records
                (w ++ [Stdout ("Pushing notification channels..." +:+ nl)]))
    as Hstop.
  rewrite Heq in Hstop. simpl in Hstop. rewrite <- app_assoc in Hstop.
  exact Hstop.
Qed.

Lemma pushNotificationChannels_posts_witness :
  (Http.pushNotificationChannels (Runs.flags "push" EmptyString)
     (Script.world Runs.push_lists) []).1 = Done tt /\
  requests (Http.pushNotificationChannels (Runs.flags "push" EmptyString)
              (Script.world Runs.push_lists) []).2 =
    [("POST", "http://grafana/api/alert-notifications",
      Script.json "{'name':'ops','type':'email'}")].
Proof.
  destruct (pushNotificationChannels_posts (Runs.flags "push" EmptyString)
              (Script.world Runs.push_lists) [] Runs.channels_json
              Runs.channels eq_refl eq_refl)
    as (o & evs & Heq & _ & Hall & Hok & _).
  assert (Ho : o = Done tt).
  { apply Hok. intros w' body. exists "{}". split; [reflexivity|].
    exists 200. split; [reflexivity|lia]. }
  rewrite Heq. simpl. split; [exact Ho|]. rewrite (Hall Ho). reflexivity.
Defined.

(** ** Push Dashboards, file by file *)

Lemma attachFolder_attached folderID dashboard w :
  folderID = EmptyString \/ dashboard <> None ->
  Http.attachFolder folderID dashboard w = (Done (attached folderID dashboard), w).
Proof.
  intros Hok. rewrite attachFolder_trace. unfold attached.
  destruct (Http.attachFolder folderID dashboard []).1 as [d| |] eqn:Hatt;
    [reflexivity| |]; exfalso; revert Hatt; unfold Http.attachFolder;
    case_bool_decide as Hf; try discriminate;
    (destruct Hok as [Hok|Hok]; [contradiction|]);
    destruct (eq_nil _ || eq_int _ 0); try discriminate;
    destruct dashboard; try discriminate; congruence.
Qed.

(** X11: when the files read the same whenever they are read and the server
    serves every upload, Push Dashboards of [main.go] uploads, in the order
    of the listing, exactly the files that end in [.json], can be read and
    decode, each with the folder attached; every other file is skipped, and
    the loop returns.  (A file that holds a JSON null is excluded when a
    folder is given.) *)
Theorem push_dashboards_uploads_found (cfg : config) (E : env)
  (read : string -> result bytes) (dir folderID : string) (files : list string)
  (w : trace) :
  (forall t p, os_ReadFile E t p = read p) ->
  (forall t body, exists reply,
     served cfg E t "POST" (baseURL cfg +:+ "/api/dashboards/db") body reply) ->
  folderID = EmptyString \/
    Forall (fun d : gomap => d <> None) (omap (found_dashboard E read dir) files) ->
  exists evs,
    Http.pushDashboards_loop cfg E dir folderID files w = (Done tt, w ++ evs) /\
    requests evs =
      dashboard_post cfg E folderID <$> omap (found_dashboard E read dir) files.
Proof.
  intros Hread Hserve Hnil. revert w.
  induction files as [|file rest IH]; intros w.
  - exists []. rewrite app_nil_r. split; reflexivity.
  - assert (Hrest : folderID = EmptyString \/
              Forall (fun d : gomap => d <> None)
                     (omap (found_dashboard E read dir) rest)).
    { destruct Hnil as [Hnil|Hnil]; [left; exact Hnil|right].
      simpl in Hnil. destruct (found_dashboard E read dir file); [|exact Hnil].
      apply Forall_inv_tail in Hnil. exact Hnil. }
    specialize (IH Hrest).
    simpl. unfold found_dashboard at 1 2.
    case_bool_decide as Hext; [|apply IH].
    unfold bind at 1. unfold peek. rewrite Hread.
    destruct (read (filepath_Join E [dir; file])) as [data|err] eqn:Hrd.
    + destruct (json_Unmarshal_map E data) as [dashboard|err] eqn:Hdec.
      * assert (Hd : folderID = EmptyString \/ dashboard <> None).
        { destruct Hnil as [Hnil|Hnil]; [left; exact Hnil|right].
          simpl in Hnil. unfold found_dashboard in Hnil at 1.
          rewrite bool_decide_true in Hnil by exact Hext.
          rewrite Hrd, Hdec in Hnil. apply Forall_inv in Hnil. exact Hnil. }
        unfold bind at 1. rewrite (attachFolder_attached _ _ _ Hd).
        destruct (Hserve w (ignore_err (json_Marshal E
                    (Http.payload (attached folderID dashboard)))))
          as [reply Hs].
        unfold bind at 1. rewrite (sendRequest_served _ _ _ _ _ _ _ Hs).
        unfold bind at 1. unfold Print, emit.
        match goal with
        | |- context [Http.pushDashboards_loop _ _ _ _ _ ?w1] =>
            destruct (IH w1) as (evs & Heq & Hreq)
        end.
        rewrite Heq. eexists (_ :: _ :: evs).
        split; [rewrite <- !app_assoc; reflexivity|].
        simpl. rewrite Hreq. reflexivity.
      * unfold bind at 1. unfold Print, emit.
        match goal with
        | |- context [Http.pushDashboards_loop _ _ _ _ _ ?w1] =>
            destruct (IH w1) as (evs & Heq & Hreq)
        end.
        rewrite Heq. eexists (_ :: evs).
        split; [rewrite <- !app_assoc; reflexivity|exact Hreq].
    + unfold bind at 1. unfold Print, emit.
      match goal with
      | |- context [Http.pushDashboards_loop _ _ _ _ _ ?w1] =>
          destruct (IH w1) as (evs & Heq & Hreq)
      end.
      rewrite Heq. eexists (_ :: evs).
      split; [rewrite <- !app_assoc; reflexivity|exact Hreq].
Qed.

Lemma push_dashboards_uploads_found_witness :
  (Http.pushDashboards_loop (Runs.flags "push" "Engineering")
     (Script.world Runs.push_two) "grafana_data/dashboards" "7"
     ["cpu.json"; "memory.json"; "notes.txt"] []).1 = Done tt /\
  requests (Http.pushDashboards_loop (Runs.flags "push" "Engineering")
              (Script.world Runs.push_two) "grafana_data/dashboards" "7"
              ["cpu.json"; "memory.json"; "notes.txt"] []).2 =
    [("POST", "http://grafana/api/dashboards/db",
      Script.json "{'dashboard':{'folderId':'7','title':'CPU Load','uid':'abc'},'overwrite':true}");
     ("POST", "http://grafana/api/dashboards/db",
      Script.json "{'dashboard':{'folderId':0,'title':'Memory'},'overwrite':true}")].
Proof.
  destruct (push_dashboards_uploads_found (Runs.flags "push" "Engineering")
              (Script.world Runs.push_two)
              (fun p => Script.find_or (Script.files Runs.push_two) p
                          "no such file or directory")
              "grafana_data/dashboards" "7"
              ["cpu.json"; "memory.json"; "notes.txt"] [])
    as (evs & Heq & Hreq).
  - intros t p. reflexivity.
  - intros t body. eexists. split; [reflexivity|].
    exists 200. split; [reflexivity|lia].
  - right. vm_compute. repeat constructor; discriminate.
  - rewrite Heq. simpl. split; [reflexivity|]. rewrite Hreq. vm_compute. reflexivity.
Defined.

(** X12: the loops of the SDK version never stop the run.  Push Dashboards
    hands to [SetDashboard], in the order of the listing, exactly the files
    that end in [.json], can be read and decode, each with the folder ID and
    [Overwrite] true, whether or not the uploads before it worked. *)
Theorem sdk_push_tries_every_board (E : env) (read : string -> result bytes)
  (dir : string) (folderID : Z) (files : list string) (w : trace) :
  (forall t p, os_ReadFile E t p = read p) ->
  exists evs,
    Sdk.pushDashboards_loop E dir folderID files w = (Done tt, w ++ evs) /\
    set_calls evs =
      (fun board => (board, {| FolderID := folderID; Overwrite := true;
                               PreserveId := false |}))
      <$> omap (found_board E read dir) files.
Proof.
  intros Hread. revert w. induction files as [|file rest IH]; intros w.
  - exists []. rewrite app_nil_r. split; reflexivity.
  - simpl. unfold found_board at 1.
    case_bool_decide as Hext; [|apply IH].
    unfold bind at 1. unfold peek. rewrite Hread.
    destruct (read (filepath_Join E [dir; file])) as [data|err].
    + destruct (json_Unmarshal_Board E data) as [dashboard|err].
      * unfold bind at 1. unfold Print, emit.
        unfold bind at 1. unfold ask.
        match goal with
        | |- context [sdk_SetDashboard E ?t ?b ?p] =>
            destruct (sdk_SetDashboard E t b p)
        end.
        -- unfold bind at 1. unfold log_Printf, emit.
           match goal with
           | |- context [Sdk.pushDashboards_loop _ _ _ _ ?w1] =>
               destruct (IH w1) as (evs & Heq & Hcalls)
           end.
           rewrite Heq. eexists (_ :: _ :: _ :: evs).
           split; [rewrite <- !app_assoc; reflexivity|].
           simpl. rewrite Hcalls. reflexivity.
        -- unfold bind at 1. unfold Print, emit.
           match goal with
           | |- context [Sdk.pushDashboards_loop _ _ _ _ ?w1] =>
               destruct (IH w1) as (evs & Heq & Hcalls)
           end.
           rewrite Heq. eexists (_ :: _ :: _ :: evs).
           split; [rewrite <- !app_assoc; reflexivity|].
           simpl. rewrite Hcalls. reflexivity.
      * unfold bind at 1. unfold log_Printf, emit.
        match goal with
        | |- context [Sdk.pushDashboards_loop _ _ _ _ ?w1] =>
            destruct (IH w1) as (evs & Heq & Hcalls)
        end.
        rewrite Heq. eexists (_ :: evs).
        split; [rewrite <- !app_assoc; reflexivity|exact Hcalls].
    + unfold bind at 1. unfold log_Printf, emit.
      match goal with
      | |- context [Sdk.pushDashboards_loop _ _ _ _ ?w1] =>
          destruct (IH w1) as (evs & Heq & Hcalls)
      end.
      rewrite Heq. eexists (_ :: evs).
      split; [rewrite <- !app_assoc; reflexivity|exact Hcalls].
Qed.

Lemma sdk_push_tries_every_board_witness :
  set_calls (Sdk.pushDashboards_loop (Script.world Runs.push_two)
               "grafana_data/dashboards" 7
               ["cpu.json"; "memory.json"; "notes.txt"] []).2 =
    [({| Board_ID := 0; Board_UID := "abc"; Board_Title := "CPU Load";
         Board_rest := VNil |},
      {| FolderID := 7; Overwrite := true; PreserveId := false |});
     ({| Board_ID := 0; Board_UID := EmptyString; Board_Title := "Memory";
         Board_rest := VNil |},
      {| FolderID := 7; Overwrite := true; PreserveId := false |})].
Proof.
  destruct (sdk_push_tries_every_board (Script.world Runs.push_two)
              (fun p => Script.find_or (Script.files Runs.push_two) p
                          "no such file or directory")
              "grafana_data/dashboards" 7
              ["cpu.json"; "memory.json"; "notes.txt"] [])
    as (evs & Heq & Hcalls).
  - intros t p. reflexivity.
  - rewrite Heq. simpl. rewrite Hcalls. vm_compute. reflexivity.
Defined.

(** X13: the loop of Pull Dashboards in the SDK version always returns: it
    asks the client once for every search hit of type [dash-db], in order,
    whatever went wrong with the hits before it, and for no other hit; and
    it writes at most one file per hit it asked for. *)
Theorem sdk_pull_tries_every_dashboard (E : env) (dir : string)
  (dashboards : list FoundBoard) (w : trace) :
  exists evs,
    Sdk.pullDashboards_loop E dir dashboards w = (Done tt, w ++ evs) /\
    fetched_uids evs =
      FoundBoard_UID <$>
        filter (fun db => FoundBoard_Type db = "dash-db") dashboards /\
    (length (writes evs) <= length (fetched_uids evs))%nat.
Proof.
  revert w. induction dashboards as [|db rest IH]; intros w.
  - exists []. rewrite app_nil_r. repeat split. simpl. lia.
  - simpl. rewrite filter_cons. case_bool_decide as Htype.
    + rewrite decide_False by exact Htype. apply IH.
    + rewrite decide_True by (destruct (decide (FoundBoard_Type db = "dash-db"));
                              [assumption|contradiction]).
      unfold bind at 1. unfold ask.
      match goal with
      | |- context [sdk_GetDashboardByUID E ?t ?u] =>
          destruct (sdk_GetDashboardByUID E t u) as [[board meta]|err]
      end.
      * case_bool_decide.
        -- unfold bind at 1. unfold log_Printf, emit.
           match goal with
           | |- context [Sdk.pullDashboards_loop _ _ _ ?w1] =>
               destruct (IH w1) as (evs & Heq & Huids & Hlen)
           end.
           rewrite Heq. eexists (_ :: _ :: evs).
           split; [rewrite <- !app_assoc; reflexivity|].
           simpl. rewrite Huids. split; [reflexivity|]. rewrite <- Huids. lia.
        -- unfold bind at 1. unfold Println, emit.
           destruct (json_MarshalIndent_Board E (Sdk.clear_ID board)) as [data|err].
           ++ unfold bind at 1. unfold ask.
              match goal with
              | |- context [os_WriteFile E ?t ?p ?d] =>
                  destruct (os_WriteFile E t p d)
              end.
              ** unfold bind at 1. unfold log_Printf, emit.
                 match goal with
                 | |- context [Sdk.pullDashboards_loop _ _ _ ?w1] =>
                     destruct (IH w1) as (evs & Heq & Huids & Hlen)
                 end.
                 rewrite Heq. eexists (_ :: _ :: _ :: _ :: evs).
                 split; [rewrite <- !app_assoc; reflexivity|].
                 simpl. rewrite Huids. split; [reflexivity|]. rewrite <- Huids. lia.
              ** unfold bind at 1. unfold Print, emit.
                 match goal with
                 | |- context [Sdk.pullDashboards_loop _ _ _ ?w1] =>
                     destruct (IH w1) as (evs & Heq & Huids & Hlen)
                 end.
                 rewrite Heq. eexists (_ :: _ :: _ :: _ :: evs).
                 split; [rewrite <- !app_assoc; reflexivity|].
                 simpl. rewrite Huids. split; [reflexivity|]. rewrite <- Huids. lia.
           ++ unfold bind at 1. unfold log_Printf, emit.
              match goal with
              | |- context [Sdk.pullDashboards_loop _ _ _ ?w1] =>
                  destruct (IH w1) as (evs & Heq & Huids & Hlen)
              end.
              rewrite Heq. eexists (_ :: _ :: _ :: evs).
              split; [rewrite <- !app_assoc; reflexivity|].
              simpl. rewrite Huids. split; [reflexivity|]. rewrite <- Huids. lia.
      * unfold bind at 1. unfold log_Printf, emit.
        match goal with
        | |- context [Sdk.pullDashboards_loop _ _ _ ?w1] =>
            destruct (IH w1) as (evs & Heq & Huids & Hlen)
        end.
        rewrite Heq. eexists (_ :: _ :: evs).
        split; [rewrite <- !app_assoc; reflexivity|].
        simpl. rewrite Huids. split; [reflexivity|]. rewrite <- Huids. lia.
Qed.

(** ** Pull Dashboards in [main.go], hit by hit *)

Lemma must_string_hit (db : gomap) (k : string) (w : trace) :
  assert_string (index db k) <> None ->
  must_string (index db k) w =
    (Done (default EmptyString (assert_string (index db k))), w).
Proof.
  unfold must_string. destruct (assert_string (index db k)); [reflexivity|congruence].
Qed.

(** X14: when every hit of the search has a string "uid" and a string
    "title" and the server serves every dashboard, the loop of Pull
    Dashboards in [main.go] returns, having requested every hit once, in
    order, and having written one file per hit, named by the hit's title, in
    the same order (a file that cannot be written is reported, and the loop
    goes on). *)
Theorem pull_loop_fetches_every_hit (cfg : config) (E : env) (dir : string)
  (dashboards : list gomap) (w : trace) :
  Forall (fun db => ~ malformed db) dashboards ->
  (forall t db, In db dashboards -> exists data,
     served cfg E t "GET" (dashboard_url cfg (hit_uid db)) EmptyString data) ->
  exists evs,
    Http.pullDashboards_loop cfg E dir dashboards w = (Done tt, w ++ evs) /\
    requests evs =
      (fun db => ("GET", dashboard_url cfg (hit_uid db), EmptyString))
      <$> dashboards /\
    (writes evs).*1 =
      (fun db => filepath_Join E [dir; hit_title db +:+ ".json"]) <$> dashboards.
Proof.
  intros Hwell. revert w.
  induction Hwell as [|db rest Hdb _ IH]; intros w Hserve.
  - exists []. rewrite app_nil_r. repeat split.
  - assert (Hrest : forall t db', In db' rest -> exists data,
              served cfg E t "GET" (dashboard_url cfg (hit_uid db')) EmptyString data)
      by (intros t db' Hin; apply Hserve; right; exact Hin).
    simpl. unfold malformed in Hdb.
    assert (Huid : assert_string (index db "uid") <> None) by tauto.
    assert (Htitle : assert_string (index db "title") <> None) by tauto.
    unfold bind at 1. rewrite (must_string_hit db "uid" w Huid).
    unfold bind at 1. rewrite (must_string_hit db "title" w Htitle).
    fold (hit_uid db). fold (hit_title db).
    destruct (Hserve w db (or_introl eq_refl)) as [data Hs].
    unfold bind at 1. unfold Http.downloadDashboard.
    fold (dashboard_url cfg (hit_uid db)).
    rewrite (sendRequest_served _ _ _ _ _ _ _ Hs).
    unfold bind at 1. unfold Http.saveToFile, ask.
    match goal with
    | |- context [os_WriteFile E ?t ?p ?d] => destruct (os_WriteFile E t p d)
    end.
    + unfold bind at 1. unfold Print, emit.
      match goal with
      | |- context [Http.pullDashboards_loop _ _ _ _ ?w1] =>
          destruct (IH w1 Hrest) as (evs & Heq & Hreq & Hwr)
      end.
      rewrite Heq. eexists (_ :: _ :: _ :: evs).
      split; [rewrite <- !app_assoc; reflexivity|].
      split; [simpl; f_equal; exact Hreq|simpl; f_equal; exact Hwr].
    + unfold bind at 1. unfold Print, emit.
      match goal with
      | |- context [Http.pullDashboards_loop _ _ _ _ ?w1] =>
          destruct (IH w1 Hrest) as (evs & Heq & Hreq & Hwr)
      end.
      rewrite Heq. eexists (_ :: _ :: _ :: evs).
      split; [rewrite <- !app_assoc; reflexivity|].
      split; [simpl; f_equal; exact Hreq|simpl; f_equal; exact Hwr].
Qed.

Lemma pull_loop_fetches_every_hit_witness :
  requests (Http.pullDashboards_loop (Runs.flags "pull" EmptyString)
              (Script.world Runs.pull_two_hits) "grafana_data/dashboards"
              [Runs.good_hit; Runs.second_hit] []).2 =
    [("GET", "http://grafana/api/dashboards/uid/abc", EmptyString);
     ("GET", "http://grafana/api/dashboards/uid/def", EmptyString)] /\
  (writes (Http.pullDashboards_loop (Runs.flags "pull" EmptyString)
             (Script.world Runs.pull_two_hits) "grafana_data/dashboards"
             [Runs.good_hit; Runs.second_hit] []).2).*1 =
    ["grafana_data/dashboards/CPU Load.json"; "grafana_data/dashboards/Memory.json"].
Proof.
  destruct (pull_loop_fetches_every_hit (Runs.flags "pull" EmptyString)
              (Script.world Runs.pull_two_hits) "grafana_data/dashboards"
              [Runs.good_hit; Runs.second_hit] [])
    as (evs & Heq & Hreq & Hwr).
  - repeat constructor; intros [H|H]; discriminate H.
  - intros t db [<-|[<-|[]]]; eexists; (split; [reflexivity|]);
      exists 200; (split; [reflexivity|lia]).
  - rewrite Heq. simpl. split; [exact Hreq|exact Hwr].
Defined.

(** ** Push Dashboards in [main.go]: the folder *)

(** X15: in [main.go], with a folder given, a dashboard file that decodes
    to the nil map (its content is the JSON value [null]) makes Push
    Dashboards panic on the store into the map: nothing is uploaded for it,
    and the files after it are not pushed.  Without a folder the same file
    is uploaded. *)
Theorem push_null_dashboard_panics (cfg : config) (E : env)
  (dir folderID file : string) (rest : list string) (w : trace) (data : bytes) :
  filepath_Ext file = ".json" ->
  os_ReadFile E w (filepath_Join E [dir; file]) = Ok data ->
  json_Unmarshal_map E data = Ok None ->
  (folderID <> EmptyString ->
   Http.pushDashboards_loop cfg E dir folderID (file :: rest) w = (Panic, w)) /\
  (folderID = EmptyString ->
   forall reply,
     served cfg E w "POST" (baseURL cfg +:+ "/api/dashboards/db")
       (ignore_err (json_Marshal E (Http.payload None))) reply ->
     Http.pushDashboards_loop cfg E dir folderID (file :: rest) w =
     Http.pushDashboards_loop cfg E dir folderID rest
       (w ++ [HttpDo "POST" (baseURL cfg +:+ "/api/dashboards/db")
                [bearer cfg; content_type]
                (ignore_err (json_Marshal E (Http.payload None)));
              Stdout ("Uploaded dashboard: " +:+ file +:+ nl)])).
Proof.
  intros Hext Hread Hdec. split.
  - intros Hf. simpl. rewrite bool_decide_true by exact Hext.
    unfold bind at 1. unfold peek. rewrite Hread, Hdec.
    unfold bind at 1. rewrite (attachFolder_nil_map folderID w Hf). reflexivity.
  - intros -> reply Hs. simpl. rewrite bool_decide_true by exact Hext.
    unfold bind at 1. unfold peek. rewrite Hread, Hdec.
    unfold bind at 1. simpl.
    unfold bind at 1. rewrite (sendRequest_served _ _ _ _ _ _ _ Hs).
    unfold bind at 1. unfold Print, emit. rewrite <- app_assoc. reflexivity.
Qed.

Lemma push_null_dashboard_panics_witness :
  Http.pushDashboards (Runs.flags "push" "Engineering")
    (Script.world Runs.push_null) [] =
    (Panic,
     [Stdout ("Pushing dashboards..." +:+ nl);
      Stdout ("Fetching folder ID for: Engineering" +:+ nl);
      HttpDo "GET" "http://grafana/api/folders"
        [("Authorization", "Bearer secret")] EmptyString]) /\
  Http.pushDashboards (Runs.flags "push" EmptyString)
    (Script.world Runs.push_null) [] =
    (Done tt,
     [Stdout ("Pushing dashboards..." +:+ nl);
      HttpDo "POST" "http://grafana/api/dashboards/db"
        [("Authorization", "Bearer secret"); ("Content-Type", "application/json")]
        (Script.json "{'dashboard':null,'overwrite':true}");
      Stdout ("Uploaded dashboard: empty.json" +:+ nl)]).
Proof.
  split.
  - unfold Http.pushDashboards.
    erewrite bind_Done by reflexivity.
    erewrite bind_Done by reflexivity.
    erewrite bind_Done by (vm_compute; reflexivity).
    refine (proj1 (push_null_dashboard_panics (Runs.flags "push" "Engineering")
      (Script.world Runs.push_null) "grafana_data/dashboards" "7" "empty.json" []
      _ "null" eq_refl eq_refl eq_refl) _).
    discriminate.
  - unfold Http.pushDashboards.
    erewrite bind_Done by reflexivity.
    erewrite bind_Done by reflexivity.
    erewrite bind_Done by reflexivity.
    etransitivity.
    + refine (proj2 (push_null_dashboard_panics (Runs.flags "push" EmptyString)
        (Script.world Runs.push_null) "grafana_data/dashboards" EmptyString
        "empty.json" [] _ "null" eq_refl eq_refl eq_refl) eq_refl "{}" _).
      split; [reflexivity|]. exists 200. split; [reflexivity|lia].
    + vm_compute. reflexivity.
Defined.

(** X16: [attachFolder], the step of Push Dashboards in [main.go] that puts
    the folder into a dashboard, touches no key but "folderId" and does
    nothing to the outside world; what it leaves under "folderId" is the
    value that was there or the folder ID as a string, and never null when
    a folder is given. *)
Theorem attachFolder_frame (folderID : string) (dashboard dashboard' : gomap)
  (w w' : trace) :
  Http.attachFolder folderID dashboard w = (Done dashboard', w') ->
  w' = w /\
  (forall k, k <> "folderId" -> index dashboard' k = index dashboard k) /\
  (index dashboard' "folderId" = index dashboard "folderId" \/
   index dashboard' "folderId" = VString folderID) /\
  (folderID <> EmptyString -> index dashboard' "folderId" <> VNil).
Proof.
  unfold Http.attachFolder. case_bool_decide as Hf.
  - destruct (eq_nil (index dashboard "folderId")
              || eq_int (index dashboard "folderId") 0) eqn:Htest.
    + destruct dashboard as [g|]; [|discriminate]. intros [= <- <-].
      split; [reflexivity|]. split; [|split].
      * intros k Hk. simpl. rewrite lookup_insert_ne by congruence. reflexivity.
      * right. simpl. rewrite lookup_insert_eq. reflexivity.
      * intros _. simpl. rewrite lookup_insert_eq. discriminate.
    + intros [= <- <-]. split; [reflexivity|]. split; [reflexivity|].
      split; [left; reflexivity|]. intros _ Hnil. rewrite Hnil in Htest.
      discriminate.
  - intros [= <- <-]. split; [reflexivity|]. split; [reflexivity|].
    split; [left; reflexivity|]. intros Hne. contradiction.
Qed.

Lemma attachFolder_frame_witness :
  index (Runs.obj [("folderId", VString "7"); ("title", VString "CPU Load");
                   ("uid", VString "abc")]) "title" =
    index Runs.cpu_dashboard "title" /\
  index (Runs.obj [("folderId", VString "7"); ("title", VString "CPU Load");
                   ("uid", VString "abc")]) "folderId" <> VNil.
Proof.
  destruct (attachFolder_frame "7" Runs.cpu_dashboard
              (Runs.obj [("folderId", VString "7"); ("title", VString "CPU Load");
                         ("uid", VString "abc")]) [] [] eq_refl)
    as (_ & Hother & _ & Hset).
  split; [apply Hother; discriminate|apply Hset; discriminate].
Defined.

(** ** When the folder list or the search fails *)

(** X17: [getFolderID] ends the process with exit code 1 when the folder
    list cannot be fetched ([main.go]: the request is refused; SDK version:
    the client returns an error) and when the fetched list does not decode
    ([main.go]); no folder ID is returned in either case. *)
Theorem getFolderID_failures (cfg : config) (E : env) (folderName : string)
  (w : trace) :
  let asked := w ++ [Stdout ("Fetching folder ID for: " +:+ folderName +:+ nl)] in
  let url := baseURL cfg +:+ "/api/folders" in
  (refused cfg E asked "GET" url EmptyString ->
   exists evs,
     Http.getFolderID cfg E folderName w = (Exit 1, w ++ evs) /\
     requests evs `prefix_of` [("GET", url, EmptyString)]) /\
  (forall data err,
     served cfg E asked "GET" url EmptyString data ->
     json_Unmarshal_maps E data = Err err ->
     Http.getFolderID cfg E folderName w =
       (Exit 1,
        asked ++ [HttpDo "GET" url [bearer cfg] EmptyString;
                  Stdout ("Error unmarshalling folders: " +:+ err +:+ nl)])) /\
  (forall err,
     sdk_GetAllFolders E w = Err err ->
     Sdk.getFolderID E folderName w =
       (Exit 1, w ++ [GetAllFolders; Stderr ("Error fetching folders: " +:+ err)])).
Proof.
  intros asked url. split; [|split].
  - intros Href.
    destruct (sendRequest_refused cfg E _ _ _ _ Href) as (evs & Heq & _ & Hpre).
    exists (Stdout ("Fetching folder ID for: " +:+ folderName +:+ nl) :: evs).
    split; [|exact Hpre].
    unfold Http.getFolderID. unfold bind at 1. unfold Print, emit.
    unfold bind at 1. fold asked. fold url. rewrite Heq.
    unfold asked. rewrite <- app_assoc. reflexivity.
  - intros data err Hs Hdec.
    unfold Http.getFolderID. unfold bind at 1. unfold Print, emit.
    unfold bind at 1. fold asked. fold url.
    rewrite (sendRequest_served _ _ _ _ _ _ _ Hs), Hdec.
    unfold Http.Println2, Println, bind, emit, os_Exit.
    rewrite <- app_assoc. reflexivity.
  - intros err Herr. unfold Sdk.getFolderID, bind, ask. rewrite Herr.
    unfold log_Fatalf, bind, emit, os_Exit. rewrite <- app_assoc. reflexivity.
Qed.

Lemma getFolderID_failures_witness :
  (exists evs,
     Http.getFolderID (Runs.flags "pull" "Engineering")
       (Script.world Runs.no_script) "Engineering" [] = (Exit 1, [] ++ evs) /\
     requests evs `prefix_of`
       [("GET", "http://grafana/api/folders", EmptyString)]) /\
  Http.getFolderID (Runs.flags "pull" "Engineering")
    (Script.world Runs.pull_lists) "Engineering" [] =
    (Exit 1,
     [Stdout ("Fetching folder ID for: Engineering" +:+ nl);
      HttpDo "GET" "http://grafana/api/folders"
        [("Authorization", "Bearer secret")] EmptyString;
      Stdout ("Error unmarshalling folders: invalid character" +:+ nl)]) /\
  Sdk.getFolderID (Script.sdk_down (Script.world Runs.no_script)) "Engineering" [] =
    (Exit 1, [GetAllFolders; Stderr "Error fetching folders: connection refused"]).
Proof.
  split; [|split].
  - refine (proj1 (getFolderID_failures (Runs.flags "pull" "Engineering")
      (Script.world Runs.no_script) "Engineering" []) _).
    right. exact I.
  - refine (proj1 (proj2 (getFolderID_failures (Runs.flags "pull" "Engineering")
      (Script.world Runs.pull_lists) "Engineering" []))
      Runs.folders_json "invalid character" _ eq_refl).
    split; [reflexivity|]. exists 200. split; [reflexivity|lia].
  - exact (proj2 (proj2 (getFolderID_failures (Runs.flags "pull" "Engineering")
      (Script.sdk_down (Script.world Runs.no_script)) "Engineering" []))
      "connection refused" eq_refl).
Defined.

(** X18: without a folder, [main.go] treats a search answer that does not
    decode as a soft failure: Pull Dashboards prints the error and returns,
    creating no directory and writing no file.  The SDK version ends the
    process with exit code 1 when the search fails, and when the dashboards
    directory cannot be created. *)
Theorem search_failures (cfg : config) (E : env) (w : trace) :
  folder cfg = EmptyString ->
  let started := w ++ [Stdout ("Pulling dashboards..." +:+ nl)] in
  (forall data err,
     served cfg E started "GET" (search_url cfg) EmptyString data ->
     json_Unmarshal_maps E data = Err err ->
     Http.pullDashboards cfg E w =
       (Done tt,
        started ++ [HttpDo "GET" (search_url cfg) [bearer cfg] EmptyString;
                    Stdout ("Error unmarshalling dashboards: " +:+ err +:+ nl)])) /\
  (forall err,
     sdk_Search E started [SearchType "dash-db"] = Err err ->
     Sdk.pullDashboards cfg E w =
       (Exit 1,
        started ++ [Search [SearchType "dash-db"];
                    Stderr ("Error searching dashboards: " +:+ err)])) /\
  (forall hits err,
     let dir := filepath_Join E [directory cfg; "dashboards"] in
     sdk_Search E started [SearchType "dash-db"] = Ok hits ->
     os_MkdirAll E (started ++ [Search [SearchType "dash-db"]]) dir = Some err ->
     Sdk.pullDashboards cfg E w =
       (Exit 1,
        started ++ [Search [SearchType "dash-db"]; MkdirAll dir;
                    Stderr ("Error creating directory: " +:+ err)])).
Proof.
  intros Hno started. split; [|split].
  - intros data err Hs Hdec. unfold Http.pullDashboards.
    unfold bind at 1. unfold Println, emit. fold started.
    rewrite bool_decide_false by (intros H; apply H; exact Hno).
    unfold bind at 1. unfold ret at 1.
    unfold bind at 1. fold (search_url cfg).
    rewrite (sendRequest_served _ _ _ _ _ _ _ Hs), Hdec.
    unfold Http.Println2, Println, emit. rewrite <- app_assoc. reflexivity.
  - intros err Herr. unfold Sdk.pullDashboards.
    unfold bind at 1. unfold Println, emit. fold started.
    rewrite bool_decide_false by (intros H; apply H; exact Hno).
    unfold bind at 1. unfold ret at 1.
    unfold bind at 1. unfold ask. rewrite Herr.
    unfold log_Fatalf, bind, emit, os_Exit. rewrite <- !app_assoc. reflexivity.
  - intros hits err dir Hhits Herr. unfold Sdk.pullDashboards.
    unfold bind at 1. unfold Println, emit. fold started.
    rewrite bool_decide_false by (intros H; apply H; exact Hno).
    unfold bind at 1. unfold ret at 1.
    unfold bind at 1. unfold ask. rewrite Hhits.
    unfold bind at 1. fold dir. rewrite Herr.
    unfold log_Fatalf, bind, emit, os_Exit. rewrite <- !app_assoc. reflexivity.
Qed.

Lemma search_failures_witness :
  Http.pullDashboards (Runs.flags "pull" EmptyString)
    (Script.world Runs.search_garbage) [] =
    (Done tt,
     [Stdout ("Pulling dashboards..." +:+ nl);
      HttpDo "GET" "http://grafana/api/search?type=dash-db"
        [("Authorization", "Bearer secret")] EmptyString;
      Stdout ("Error unmarshalling dashboards: invalid character" +:+ nl)]) /\
  Sdk.pullDashboards (Runs.flags "pull" EmptyString)
    (Script.sdk_down (Script.world Runs.no_script)) [] =
    (Exit 1,
     [Stdout ("Pulling dashboards..." +:+ nl);
      Search [SearchType "dash-db"];
      Stderr "Error searching dashboards: connection refused"]) /\
  Sdk.pullDashboards (Runs.flags "pull" EmptyString)
    (Script.disk_read_only (Script.world Runs.no_script)) [] =
    (Exit 1,
     [Stdout ("Pulling dashboards..." +:+ nl);
      Search [SearchType "dash-db"];
      MkdirAll "grafana_data/dashboards";
      Stderr "Error creating directory: read-only file system"]).
Proof.
  split; [|split].
  - refine (proj1 (search_failures (Runs.flags "pull" EmptyString)
      (Script.world Runs.search_garbage) [] eq_refl)
      "<html>" "invalid character" _ eq_refl).
    split; [reflexivity|]. exists 200. split; [reflexivity|lia].
  - exact (proj1 (proj2 (search_failures (Runs.flags "pull" EmptyString)
      (Script.sdk_down (Script.world Runs.no_script)) [] eq_refl))
      "connection refused" eq_refl).
  - exact (proj2 (proj2 (search_failures (Runs.flags "pull" EmptyString)
      (Script.disk_read_only (Script.world Runs.no_script)) [] eq_refl))
      [] "read-only file system" eq_refl eq_refl).
Defined.

(** ** Whole runs of the SDK version *)

Section SdkFootprint.

Context (cfg : config) (E : env).

Lemma runs_Sdk_getFolderID (P : event -> Prop) (Q : option Z -> Prop) folderName :
  (forall s, P (Stderr s)) -> P GetAllFolders -> Q (Some 1) ->
  runs P Q any (Sdk.getFolderID E folderName).
Proof.
  intros HP Hget HQ. unfold Sdk.getFolderID.
  eapply runs_bind; [apply runs_ask, Hget|]. intros [folders|err] _.
  - destruct (Sdk.getFolderID_scan folderName folders).
    + apply runs_ret. exact I.
    + unfold log_Fatalf. run_print HP. apply runs_os_Exit, HQ.
  - unfold log_Fatalf. run_print HP. apply runs_os_Exit, HQ.
Qed.

Let Hout : forall s, sdk_pull_event cfg E (Stdout s) := fun _ => I.
Let Herr : forall s, sdk_pull_event cfg E (Stderr s) := fun _ => I.
Let Hout' : forall s, sdk_push_event cfg (Stdout s) := fun _ => or_introl I.
Let Herr' : forall s, sdk_push_event cfg (Stderr s) := fun _ => or_intror I.

Lemma runs_Sdk_pullDashboards_loop dashboards :
  runs (sdk_pull_event cfg E) exit_1 any
       (Sdk.pullDashboards_loop E (filepath_Join E [directory cfg; "dashboards"])
          dashboards).
Proof.
  induction dashboards as [|db rest IH]; simpl.
  - apply runs_ret. exact I.
  - case_bool_decide; [exact IH|].
    eapply runs_bind; [apply runs_ask; exact I|].
    intros [[board meta]|err] [w Hw].
    + case_bool_decide.
      * unfold log_Printf. run_print Herr. exact IH.
      * unfold Println. run_print Hout.
        destruct (json_MarshalIndent_Board E (Sdk.clear_ID board)) as [data|err]
          eqn:Henc.
        -- eapply runs_bind.
           { apply (runs_ask (sdk_pull_event cfg E)). right.
             exists w, (FoundBoard_UID db), board, meta. auto. }
           intros [err|] _;
             [unfold log_Printf; run_print Herr|unfold Print; run_print Hout];
             exact IH.
        -- unfold log_Printf. run_print Herr. exact IH.
    + unfold log_Printf. run_print Herr. exact IH.
Qed.

Lemma runs_Sdk_pullDashboards :
  runs (sdk_pull_event cfg E) exit_1 any (Sdk.pullDashboards cfg E).
Proof.
  unfold Sdk.pullDashboards, Println. run_print Hout.
  eapply runs_bind with (R := any).
  { case_bool_decide.
    - eapply runs_bind.
      { apply runs_Sdk_getFolderID; [exact Herr|exact I|reflexivity]. }
      intros id _. apply runs_ret. exact I.
    - apply runs_ret. exact I. }
  intros params _.
  eapply runs_bind; [apply runs_ask; exact I|]. intros [dashboards|err] _.
  - eapply runs_bind.
    { apply (runs_ask (sdk_pull_event cfg E)). left. reflexivity. }
    intros [err|] _.
    + unfold log_Fatalf. run_print Herr. apply runs_os_Exit. reflexivity.
    + apply runs_Sdk_pullDashboards_loop.
  - unfold log_Fatalf. run_print Herr. apply runs_os_Exit. reflexivity.
Qed.

Lemma runs_Sdk_pushDashboards_loop dir folderID files :
  runs (sdk_push_event cfg) exit_1 any (Sdk.pushDashboards_loop E dir folderID files).
Proof.
  induction files as [|file rest IH]; simpl.
  - apply runs_ret. exact I.
  - case_bool_decide; [|exact IH].
    eapply runs_bind; [apply runs_peek|]. intros [data|err] _.
    + destruct (json_Unmarshal_Board E data) as [dashboard|err].
      * unfold Print. run_print Hout'.
        eapply runs_bind; [apply runs_ask; right; split; reflexivity|].
        intros [err|] _;
          [unfold log_Printf; run_print Herr'|unfold Print; run_print Hout'];
          exact IH.
      * unfold log_Printf. run_print Herr'. exact IH.
    + unfold log_Printf. run_print Herr'. exact IH.
Qed.

Lemma runs_Sdk_pushDashboards :
  runs (sdk_push_event cfg) exit_1 any (Sdk.pushDashboards cfg E).
Proof.
  unfold Sdk.pushDashboards, Println. run_print Hout'.
  eapply runs_bind; [apply runs_peek|]. intros [files|err] _.
  - eapply runs_bind with (R := any).
    { case_bool_decide.
      - eapply runs_bind.
        { apply runs_Sdk_getFolderID; [exact Herr'|right; exact I|reflexivity]. }
        intros id _. unfold Print. run_print Hout'. apply runs_ret. exact I.
      - apply runs_ret. exact I. }
    intros folderID _. apply runs_Sdk_pushDashboards_loop.
  - unfold log_Fatalf. run_print Herr'. apply runs_os_Exit. reflexivity.
Qed.

Lemma sdk_pull_event_get url :
  list_endpoint cfg url ->
  sdk_pull_event cfg E (HttpDo "GET" url (Http.headers cfg "GET") EmptyString).
Proof. intros Hurl. simpl. auto. Qed.

Lemma sdk_pull_event_mkdir p : data_dir cfg E p -> sdk_pull_event cfg E (MkdirAll p).
Proof. intros Hp. exact Hp. Qed.

Lemma sdk_pull_event_list_saved p d :
  list_saved cfg E p d -> sdk_pull_event cfg E (WriteFile p d).
Proof. intros Hp. left. exact Hp. Qed.

Lemma runs_Sdk_pullDatasources :
  runs (sdk_pull_event cfg E) exit_1 any (Sdk.pullDatasources cfg E).
Proof.
  apply runs_list_datasources; try reflexivity;
    auto using sdk_pull_event_get, sdk_pull_event_mkdir, sdk_pull_event_list_saved.
Qed.

Lemma runs_Sdk_pullFolders :
  runs (sdk_pull_event cfg E) exit_1 any (Sdk.pullFolders cfg E).
Proof.
  apply runs_list_folders; try reflexivity;
    auto using sdk_pull_event_get, sdk_pull_event_mkdir, sdk_pull_event_list_saved.
Qed.

Lemma runs_Sdk_pullNotificationChannels :
  runs (sdk_pull_event cfg E) exit_1 any (Sdk.pullNotificationChannels cfg E).
Proof.
  apply runs_list_notifications; try reflexivity;
    auto using sdk_pull_event_get, sdk_pull_event_mkdir, sdk_pull_event_list_saved.
Qed.

Lemma runs_as_sdk_push (m : M unit) :
  runs (push_event cfg) exit_1 any m -> runs (sdk_push_event cfg) exit_1 any m.
Proof. apply runs_weaken; auto. intros e He. left. exact He. Qed.

Lemma runs_Sdk_pullData :
  runs (sdk_pull_event cfg E) exit_1 any (Sdk.pullData cfg E).
Proof.
  unfold Sdk.pullData.
  eapply runs_bind; [apply runs_Sdk_pullDashboards|]. intros _ _.
  eapply runs_bind; [apply runs_Sdk_pullDatasources|]. intros _ _.
  eapply runs_bind; [apply runs_Sdk_pullFolders|]. intros _ _.
  apply runs_Sdk_pullNotificationChannels.
Qed.

Lemma runs_Sdk_pushData :
  runs (sdk_push_event cfg) exit_1 any (Sdk.pushData cfg E).
Proof.
  unfold Sdk.pushData.
  eapply runs_bind; [apply runs_Sdk_pushDashboards|]. intros _ _.
  eapply runs_bind;
    [apply runs_as_sdk_push, runs_pushDatasources; reflexivity|]. intros _ _.
  eapply runs_bind;
    [apply runs_as_sdk_push, runs_pushFolders; reflexivity|]. intros _ _.
  apply runs_as_sdk_push, runs_pushNotificationChannels. reflexivity.
Qed.

Lemma runs_Sdk_main :
  runs (sdk_main_event cfg E) exit_1 any (Sdk.main cfg E).
Proof.
  assert (Hpull : forall m : M unit,
            runs (sdk_pull_event cfg E) exit_1 any m ->
            runs (sdk_main_event cfg E) exit_1 any m).
  { intros m. apply runs_weaken; auto. intros e He. left. exact He. }
  assert (Hpush : forall m : M unit,
            runs (sdk_push_event cfg) exit_1 any m ->
            runs (sdk_main_event cfg E) exit_1 any m).
  { intros m. apply runs_weaken; auto. intros e He. right. exact He. }
  assert (HP : forall s, sdk_main_event cfg E (Stdout s))
    by (intros s; left; exact I).
  assert (HPe : forall s, sdk_main_event cfg E (Stderr s))
    by (intros s; left; exact I).
  unfold Sdk.main.
  destruct (bool_decide (apiKey cfg = EmptyString) || bool_decide (baseURL cfg = EmptyString)).
  { unfold Println. run_print HP. apply runs_os_Exit. reflexivity. }
  destruct (negb (sdk_NewClient E (baseURL cfg) (apiKey cfg))).
  { unfold log_Fatalf. run_print HPe. apply runs_os_Exit. reflexivity. }
  cbv zeta.
  repeat (case_bool_decide;
          [first [ apply Hpull;
                   first [ apply runs_Sdk_pullDashboards
                         | apply runs_Sdk_pullDatasources
                         | apply runs_Sdk_pullFolders
                         | apply runs_Sdk_pullNotificationChannels
                         | apply runs_Sdk_pullData ]
                 | apply Hpush;
                   first [ apply runs_Sdk_pushDashboards
                         | apply runs_as_sdk_push, runs_pushDatasources; reflexivity
                         | apply runs_as_sdk_push, runs_pushFolders; reflexivity
                         | apply runs_as_sdk_push, runs_pushNotificationChannels;
                           reflexivity
                         | apply runs_Sdk_pushData ] ]|]).
  unfold Println. run_print HP. apply runs_os_Exit. reflexivity.
Qed.

End SdkFootprint.

(** X19: the SDK version started on any command line, in any outside
    world, never panics.  When [flag.Parse] does not accept the command
    line, the process only writes to the standard error and ends with exit
    code 0 (help) or 2 (error).  Otherwise everything it does is what a pull
    or a push of the SDK version may do ([sdk_pull_event],
    [sdk_push_event]), and the process returns from [main] or ends with
    exit code 1. *)
Theorem sdk_main_never_panics (p : parsed) (E : env) (w : trace) :
  exists evs,
    (Sdk.process p E w).2 = w ++ evs /\
    (Sdk.process p E w).1 <> Panic /\
    match p with
    | Flags cfg =>
        Forall (sdk_main_event cfg E) evs /\
        ((Sdk.process p E w).1 = Done tt \/ (Sdk.process p E w).1 = Exit 1)
    | Help usage => evs = Stderr <$> usage /\ (Sdk.process p E w).1 = Exit 0
    | BadFlags message =>
        evs = Stderr <$> message /\ (Sdk.process p E w).1 = Exit 2
    end.
Proof.
  unfold Sdk.process. rewrite (process_flags Sdk.main).
  destruct p as [cfg|usage|message];
    [|eexists; split; [reflexivity|]; split; [discriminate|auto]..].
  destruct (runs_Sdk_main cfg E w) as (evs & Heq & Hall & Hend).
  exists evs. split; [exact Heq|].
  destruct (Sdk.main cfg E w).1 as [[]|c|].
  - split; [discriminate|]. auto.
  - injection Hend as ->. split; [discriminate|]. auto.
  - discriminate Hend.
Qed.

(** X20: whatever the client, the server and the file system answer, a pull
    of all kinds by the SDK version never calls [SetDashboard] and never
    sends a POST: its requests are GETs without a body, with the bearer
    header alone, to the three list endpoints.  It calls [os.MkdirAll] on
    the four data directories and on no other path, and writes only the
    three list files, each with the body served for its list, and, for
    dashboards the client returned, the path that [filepath.Join] makes of
    the dashboards directory and the reported slug followed by [.json], with
    the encoding of the board with its ID cleared.  The slug is used
    unchecked, so that path need not lie inside the dashboards directory. *)
Theorem sdk_pull_all_footprint (cfg : config) (E : env) (w : trace) :
  exists evs,
    (Sdk.pullData cfg E w).2 = w ++ evs /\ Forall (sdk_pull_event cfg E) evs.
Proof.
  destruct (runs_Sdk_pullData cfg E w) as (evs & Heq & Hall & _). eauto.
Qed.

(** X21: whatever the client, the server and the file system answer, a push
    of all kinds by the SDK version creates no directory, writes no file,
    never searches and never fetches a dashboard; every [SetDashboard] call
    it makes has [Overwrite] true and [PreserveId] false. *)
Theorem sdk_push_all_footprint (cfg : config) (E : env) (w : trace) :
  exists evs,
    (Sdk.pushData cfg E w).2 = w ++ evs /\ Forall (sdk_push_event cfg) evs.
Proof.
  destruct (runs_Sdk_pushData cfg E w) as (evs & Heq & Hall & _). eauto.
Qed.
